(** * terraform-provider-azurerm: resource identifiers, enum parsing and the
      virtual machine scale set expand/flatten helpers

    A shallow embedding of

    - the generated resource-ID parsers and formatters of
      [internal/services/*/parse] (DataFactory, ExpressRoutePort,
      BlobInventoryPolicy), as exercised by their generated tests;
    - [parseAsyncOperationStatus] and [parseLiveOutputResourceState] of the
      vendored [liveoutputs] package;
    - the expand/flatten helpers of
      [internal/services/compute/virtual_machine_scale_set.go];
    - the [UnmarshalJSON] methods of the [liveoutputs] constants;
    - the [LinuxAdminPassword] validator of
      [internal/services/compute/validate].

    Go values of type [interface{}] are a tagged union ([value]); a Go
    [map[string]interface{}] is a [gmap string value]; a pointer is an
    [option]; a run-time panic (failed type assertion, index out of range,
    nil dereference) and a returned [error] are explicit outcomes. *)

From Stdlib Require Import ZArith Ascii String List Bool Lia DecimalString.
From stdpp Require Import base option gmap strings list fin_maps.

Set Warnings "-register-all".
Local Open Scope string_scope.
Local Open Scope list_scope.

(* ===================================================================== *)
(** ** Byte strings *)
(* ===================================================================== *)

Module GoStrings.

(** A Go string is its sequence of bytes; [ascii] is one byte. *)

Definition slash : ascii := "/"%char.

(** ['A' <= c && c <= 'Z'] *)
Definition isUpperASCII (c : ascii) : bool :=
  let n := nat_of_ascii c in (65 <=? n)%nat && (n <=? 90)%nat.

(** [c += 'a' - 'A'] for an upper-case ASCII letter, [c] otherwise. *)
Definition lowerByte (c : ascii) : ascii :=
  if isUpperASCII c then ascii_of_nat (nat_of_ascii c + 32) else c.

(** [c >= utf8.RuneSelf] fails for every byte: the string is ASCII. *)
Fixpoint isASCII (s : string) : bool :=
  match s with
  | EmptyString => true
  | String c s' => (nat_of_ascii c <? 128)%nat && isASCII s'
  end.

Fixpoint lowerASCII (s : string) : string :=
  match s with
  | EmptyString => EmptyString
  | String c s' => String (lowerByte c) (lowerASCII s')
  end.

Fixpoint noSlash (s : string) : bool :=
  match s with
  | EmptyString => true
  | String c s' => negb (Ascii.eqb c slash) && noSlash s'
  end.

Definition nonEmpty (s : string) : bool :=
  match s with EmptyString => false | String _ _ => true end.

(** [strings.Split(s, "/")]: the components between the separators; never
    the empty list. *)
Fixpoint splitSlash (s : string) : list string :=
  match s with
  | EmptyString => [EmptyString]
  | String c s' =>
      if Ascii.eqb c slash then EmptyString :: splitSlash s'
      else match splitSlash s' with
           | [] => [String c EmptyString]
           | seg :: segs => String c seg :: segs
           end
  end.

(** [strings.Join(l, "/")] *)
Fixpoint joinSlash (l : list string) : string :=
  match l with
  | [] => EmptyString
  | [c] => c
  | c :: cs => c +:+ String slash (joinSlash cs)
  end.

(** Every component written after a separator: ["/c1/c2/.../cn"]. *)
Fixpoint renderPath (comps : list string) : string :=
  match comps with
  | [] => EmptyString
  | c :: cs => String slash (c +:+ renderPath cs)
  end.

Lemma append_nil_l (t : string) : EmptyString +:+ t = t.
Proof. reflexivity. Qed.

Lemma append_cons (a : ascii) (s t : string) :
  String a s +:+ t = String a (s +:+ t).
Proof. reflexivity. Qed.

Lemma append_empty_r (s : string) : s +:+ EmptyString = s.
Proof.
  induction s as [|a s IH]; [reflexivity|].
  now rewrite append_cons, IH.
Qed.

Lemma splitSlash_nonnil (s : string) : splitSlash s <> [].
Proof.
  destruct s as [|c s]; simpl; [discriminate|].
  destruct (Ascii.eqb c slash); [discriminate|].
  destruct (splitSlash s); discriminate.
Qed.

Lemma joinSlash_cons (c : string) (cs : list string) :
  cs <> [] -> joinSlash (c :: cs) = c +:+ String slash (joinSlash cs).
Proof. destruct cs; [congruence | reflexivity]. Qed.

Lemma joinSlash_splitSlash (s : string) : joinSlash (splitSlash s) = s.
Proof.
  induction s as [|c s IH]; [reflexivity|].
  simpl splitSlash.
  destruct (Ascii.eqb_spec c slash) as [->|Hc].
  - rewrite joinSlash_cons by apply splitSlash_nonnil.
    now rewrite append_nil_l, IH.
  - pose proof (splitSlash_nonnil s) as Hnn.
    destruct (splitSlash s) as [|seg segs]; [congruence|].
    destruct segs as [|seg' segs].
    + simpl in *. now rewrite IH.
    + rewrite joinSlash_cons by discriminate.
      rewrite joinSlash_cons in IH by discriminate.
      now rewrite append_cons, IH.
Qed.

Lemma joinSlash_renderPath (c : string) (cs : list string) :
  joinSlash (c :: cs) = c +:+ renderPath cs.
Proof.
  revert c. induction cs as [|c' cs IH]; intros c.
  - simpl. now rewrite append_empty_r.
  - rewrite joinSlash_cons by discriminate. now rewrite IH.
Qed.

(** A string whose split starts with the empty component is the rendering
    of the remaining components. *)
Lemma splitSlash_inv (s : string) (comps : list string) :
  splitSlash s = EmptyString :: comps -> s = renderPath comps.
Proof.
  intros H. rewrite <- (joinSlash_splitSlash s), H.
  now rewrite joinSlash_renderPath, append_nil_l.
Qed.

Lemma splitSlash_append (c rest : string) :
  noSlash c = true ->
  splitSlash (c +:+ rest) =
    match splitSlash rest with
    | [] => [c]
    | seg :: segs => (c +:+ seg) :: segs
    end.
Proof.
  induction c as [|a c IH]; intros Hc.
  - rewrite append_nil_l. pose proof (splitSlash_nonnil rest).
    destruct (splitSlash rest); [congruence | reflexivity].
  - simpl in Hc. apply andb_true_iff in Hc as [Ha Hc].
    apply negb_true_iff in Ha.
    rewrite append_cons. simpl splitSlash. rewrite Ha, (IH Hc).
    destruct (splitSlash rest); reflexivity.
Qed.

Lemma splitSlash_renderPath (comps : list string) :
  forallb noSlash comps = true ->
  splitSlash (renderPath comps) = EmptyString :: comps.
Proof.
  induction comps as [|c cs IH]; intros H; [reflexivity|].
  simpl in H. apply andb_true_iff in H as [Hc Hcs].
  simpl. f_equal.
  rewrite (splitSlash_append _ _ Hc), (IH Hcs).
  now rewrite append_empty_r.
Qed.

End GoStrings.

(* ===================================================================== *)
(** ** Resource identifiers *)
(* ===================================================================== *)

Module ResourceIDs.
Import GoStrings.

(** The outcome of a generated ID parser, a pointer and an error: either
    the parsed value with a nil error, or a nil value with an error. *)
Inductive parsed (A : Type) : Type :=
| Parsed (id : A)
| Rejected.
Arguments Parsed {A} _.
Arguments Rejected {A}.

(** Modelled from the spec: the shape of an identifier
    ([/subscriptions/{id}/resourceGroups/{name}/providers/{namespace}/{type}/{name}]),
    a sequence of fixed names and user-specified values; the fixed name
    of a resource type ([{type}]) is kept apart from the other fixed
    names.  The generated parsers [internal/services/*/parse/*.go] and the
    [resourceids] helper they call are not among the sources; only their
    generated tests are. *)
Inductive segment : Type :=
| Static (name : string)
| ResourceType (name : string)
| UserSpecified.

(** Modelled from the spec: the two variants of a parser.  What the
    [...Insensitively] variant does with the casing of a fixed name other
    than that of a resource type is said neither by the spec nor by the
    generated tests: it is the comparison [scopeMatches] the variant is
    given. *)
Inductive casing : Type :=
| CaseSensitive
| CaseInsensitive (scopeMatches : string -> string -> bool).

(** Modelled from the spec: the case-sensitive parser compares a fixed
    name exactly (inputs "using incorrect casing" are rejected "in the
    non-insensitive parser variant"). *)
Definition staticMatches (mode : casing) (name comp : string) : bool :=
  match mode with
  | CaseSensitive => String.eqb name comp
  | CaseInsensitive scopeMatches => scopeMatches name comp
  end.

(** Modelled from the spec: the name of a resource type is compared
    exactly by the case-sensitive parser and up to the case of its ASCII
    letters by the [...Insensitively] variant, which the rows of
    [TestExpressRoutePortIDInsensitively] write in lower, upper and mixed
    case. *)
Definition typeMatches (mode : casing) (name comp : string) : bool :=
  match mode with
  | CaseSensitive => String.eqb name comp
  | CaseInsensitive _ => String.eqb (lowerASCII name) (lowerASCII comp)
  end.

(** Modelled from the spec: the components of the input are matched
    against the segments in order; a fixed name must match, a value must
    be present and non-empty, and nothing may be missing or left over. *)
Fixpoint matchSegments (mode : casing) (tmpl : list segment) (comps : list string)
  : option (list string) :=
  match tmpl, comps with
  | [], [] => Some []
  | Static name :: tmpl', c :: comps' =>
      if staticMatches mode name c then matchSegments mode tmpl' comps' else None
  | ResourceType name :: tmpl', c :: comps' =>
      if typeMatches mode name c then matchSegments mode tmpl' comps' else None
  | UserSpecified :: tmpl', c :: comps' =>
      if nonEmpty c
      then match matchSegments mode tmpl' comps' with
           | Some vals => Some (c :: vals)
           | None => None
           end
      else None
  | _, _ => None
  end.

(** Modelled from the spec: an identifier starts with the separator. *)
Definition parsePath (mode : casing) (tmpl : list segment) (input : string)
  : option (list string) :=
  match splitSlash input with
  | EmptyString :: comps => matchSegments mode tmpl comps
  | _ => None
  end.

(** The components of the identifier built from the values [vals]. *)
Fixpoint components (tmpl : list segment) (vals : list string) : list string :=
  match tmpl with
  | [] => []
  | Static name :: tmpl' => name :: components tmpl' vals
  | ResourceType name :: tmpl' => name :: components tmpl' vals
  | UserSpecified :: tmpl' =>
      match vals with
      | v :: vals' => v :: components tmpl' vals'
      | [] => EmptyString :: components tmpl' []
      end
  end.

Definition formatPath (tmpl : list segment) (vals : list string) : string :=
  renderPath (components tmpl vals).

Fixpoint countValues (tmpl : list segment) : nat :=
  match tmpl with
  | [] => 0
  | Static _ :: tmpl' => countValues tmpl'
  | ResourceType _ :: tmpl' => countValues tmpl'
  | UserSpecified :: tmpl' => S (countValues tmpl')
  end.

(** Every fixed name of the template is a non-empty, separator-free string. *)
Fixpoint wellFormed (tmpl : list segment) : bool :=
  match tmpl with
  | [] => true
  | Static name :: tmpl' => nonEmpty name && noSlash name && wellFormed tmpl'
  | ResourceType name :: tmpl' => nonEmpty name && noSlash name && wellFormed tmpl'
  | UserSpecified :: tmpl' => wellFormed tmpl'
  end.



(** A value that can stand in an identifier: non-empty, no separator. *)
Definition validValue (v : string) : bool := nonEmpty v && noSlash v.

(** What becomes of a component of an identifier in an input that
    misses segments: it is there, it is left out, or its place is there
    and empty. *)
Inductive fate : Type := Kept | Dropped | Blanked.

Definition missing (f : fate) : bool :=
  match f with
  | Kept => false
  | Dropped | Blanked => true
  end.

(** The components of an identifier after each has met its fate. *)
Fixpoint cut (fates : list fate) (comps : list string) : list string :=
  match fates, comps with
  | Kept :: fates', c :: comps' => c :: cut fates' comps'
  | Dropped :: fates', _ :: comps' => cut fates' comps'
  | Blanked :: fates', _ :: comps' => EmptyString :: cut fates' comps'
  | _, _ => []
  end.

(** The input that is left of an identifier, with or without a separator
    at its end: [""], ["/"], ["/subscriptions/"], an identifier without
    its [resourceGroups] segment, one without its final name. *)
Definition withMissing (fates : list fate) (comps : list string) (trailing : bool)
  : string :=
  renderPath (cut fates comps) +:+ (if trailing then "/" else "").

(** *** Data Factory *)

Module DataFactory.

Record DataFactoryId : Type := mkDataFactoryId {
  SubscriptionId : string;
  ResourceGroup : string;
  FactoryName : string
}.

Definition NewDataFactoryID (subscriptionId resourceGroup factoryName : string)
  : DataFactoryId :=
  {| SubscriptionId := subscriptionId;
     ResourceGroup := resourceGroup;
     FactoryName := factoryName |}.

(** Modelled from the spec: the segments of a Data Factory identifier. *)
Definition template : list segment :=
  [Static "subscriptions"; UserSpecified;
   Static "resourceGroups"; UserSpecified;
   Static "providers"; Static "Microsoft.DataFactory";
   ResourceType "factories"; UserSpecified].

(** Modelled from the spec: the formatter, with the format string that
    [TestDataFactoryIDFormatter] expects. *)
Definition ID (id : DataFactoryId) : string :=
  "/subscriptions/" +:+ SubscriptionId id +:+
  "/resourceGroups/" +:+ ResourceGroup id +:+
  "/providers/Microsoft.DataFactory/factories/" +:+ FactoryName id.

(** Modelled from the spec: the case-sensitive parser [DataFactoryID]. *)
Definition DataFactoryID (input : string) : parsed DataFactoryId :=
  match parsePath CaseSensitive template input with
  | Some [sub; rg; name] => Parsed (NewDataFactoryID sub rg name)
  | _ => Rejected
  end.

Definition segments (id : DataFactoryId) : list string :=
  components template [SubscriptionId id; ResourceGroup id; FactoryName id].

End DataFactory.

(** *** ExpressRoute port *)

Module ExpressRoutePort.

Record ExpressRoutePortId : Type := mkExpressRoutePortId {
  SubscriptionId : string;
  ResourceGroup : string;
  Name : string
}.

Definition NewExpressRoutePortID (subscriptionId resourceGroup name : string)
  : ExpressRoutePortId :=
  {| SubscriptionId := subscriptionId;
     ResourceGroup := resourceGroup;
     Name := name |}.

(** Modelled from the spec: the segments of an ExpressRoute port
    identifier. *)
Definition template : list segment :=
  [Static "subscriptions"; UserSpecified;
   Static "resourceGroups"; UserSpecified;
   Static "providers"; Static "Microsoft.Network";
   ResourceType "expressRoutePorts"; UserSpecified].

(** Modelled from the spec: the formatter, with the format string that
    [TestExpressRoutePortIDFormatter] expects. *)
Definition ID (id : ExpressRoutePortId) : string :=
  "/subscriptions/" +:+ SubscriptionId id +:+
  "/resourceGroups/" +:+ ResourceGroup id +:+
  "/providers/Microsoft.Network/expressRoutePorts/" +:+ Name id.

(** Modelled from the spec: the case-sensitive parser
    [ExpressRoutePortID]. *)
Definition ExpressRoutePortID (input : string) : parsed ExpressRoutePortId :=
  match parsePath CaseSensitive template input with
  | Some [sub; rg; name] => Parsed (NewExpressRoutePortID sub rg name)
  | _ => Rejected
  end.

(** Modelled from the spec: the variant that accepts the name of the
    resource type in any casing, [ExpressRoutePortIDInsensitively], given
    how it compares the other fixed names. *)
Definition ExpressRoutePortIDInsensitively
           (scopeMatches : string -> string -> bool) (input : string)
  : parsed ExpressRoutePortId :=
  match parsePath (CaseInsensitive scopeMatches) template input with
  | Some [sub; rg; name] => Parsed (NewExpressRoutePortID sub rg name)
  | _ => Rejected
  end.

Definition segments (id : ExpressRoutePortId) : list string :=
  components template [SubscriptionId id; ResourceGroup id; Name id].

End ExpressRoutePort.

(** *** Blob inventory policy *)

Module BlobInventoryPolicy.

Record BlobInventoryPolicyId : Type := mkBlobInventoryPolicyId {
  SubscriptionId : string;
  ResourceGroup : string;
  StorageAccountName : string;
  InventoryPolicyName : string
}.

Definition NewBlobInventoryPolicyID
  (subscriptionId resourceGroup storageAccountName inventoryPolicyName : string)
  : BlobInventoryPolicyId :=
  {| SubscriptionId := subscriptionId;
     ResourceGroup := resourceGroup;
     StorageAccountName := storageAccountName;
     InventoryPolicyName := inventoryPolicyName |}.

(** Modelled from the spec: the segments of a blob inventory policy
    identifier. *)
Definition template : list segment :=
  [Static "subscriptions"; UserSpecified;
   Static "resourceGroups"; UserSpecified;
   Static "providers"; Static "Microsoft.Storage";
   ResourceType "storageAccounts"; UserSpecified;
   ResourceType "inventoryPolicies"; UserSpecified].

(** Modelled from the spec: the formatter, with the format string that
    [TestBlobInventoryPolicyIDFormatter] expects. *)
Definition ID (id : BlobInventoryPolicyId) : string :=
  "/subscriptions/" +:+ SubscriptionId id +:+
  "/resourceGroups/" +:+ ResourceGroup id +:+
  "/providers/Microsoft.Storage/storageAccounts/" +:+ StorageAccountName id +:+
  "/inventoryPolicies/" +:+ InventoryPolicyName id.

(** Modelled from the spec: the case-sensitive parser
    [BlobInventoryPolicyID]. *)
Definition BlobInventoryPolicyID (input : string) : parsed BlobInventoryPolicyId :=
  match parsePath CaseSensitive template input with
  | Some [sub; rg; account; policy] =>
      Parsed (NewBlobInventoryPolicyID sub rg account policy)
  | _ => Rejected
  end.

Definition segments (id : BlobInventoryPolicyId) : list string :=
  components template
    [SubscriptionId id; ResourceGroup id; StorageAccountName id; InventoryPolicyName id].

End BlobInventoryPolicy.

(** *** The generated test tables, evaluated *)

Example TestDataFactoryIDFormatter :
  DataFactory.ID
    (DataFactory.NewDataFactoryID "12345678-1234-9876-4563-123456789012" "resGroup1" "facName1")
  = "/subscriptions/12345678-1234-9876-4563-123456789012/resourceGroups/resGroup1/providers/Microsoft.DataFactory/factories/facName1".
Proof. reflexivity. Qed.

Example TestDataFactoryID :
  map DataFactory.DataFactoryID
    [ "";
      "/";
      "/subscriptions/";
      "/subscriptions/12345678-1234-9876-4563-123456789012/";
      "/subscriptions/12345678-1234-9876-4563-123456789012/resourceGroups/";
      "/subscriptions/12345678-1234-9876-4563-123456789012/resourceGroups/resGroup1/providers/Microsoft.DataFactory/";
      "/subscriptions/12345678-1234-9876-4563-123456789012/resourceGroups/resGroup1/providers/Microsoft.DataFactory/factories/";
      "/subscriptions/12345678-1234-9876-4563-123456789012/resourceGroups/resGroup1/providers/Microsoft.DataFactory/factories/facName1";
      "/SUBSCRIPTIONS/12345678-1234-9876-4563-123456789012/RESOURCEGROUPS/RESGROUP1/PROVIDERS/MICROSOFT.DATAFACTORY/FACTORIES/FACNAME1" ]
  = [ Rejected; Rejected; Rejected; Rejected; Rejected; Rejected; Rejected;
      Parsed (DataFactory.NewDataFactoryID
                "12345678-1234-9876-4563-123456789012" "resGroup1" "facName1");
      Rejected ].
Proof. vm_compute. reflexivity. Qed.

Example TestExpressRoutePortID :
  map ExpressRoutePort.ExpressRoutePortID
    [ "";
      "/";
      "/subscriptions/";
      "/subscriptions/12345678-1234-9876-4563-123456789012/";
      "/subscriptions/12345678-1234-9876-4563-123456789012/resourceGroups/";
      "/subscriptions/12345678-1234-9876-4563-123456789012/resourceGroups/resGroup1/providers/Microsoft.Network/";
      "/subscriptions/12345678-1234-9876-4563-123456789012/resourceGroups/resGroup1/providers/Microsoft.Network/expressRoutePorts/";
      "/subscriptions/12345678-1234-9876-4563-123456789012/resourceGroups/resGroup1/providers/Microsoft.Network/expressRoutePorts/port1";
      "/SUBSCRIPTIONS/12345678-1234-9876-4563-123456789012/RESOURCEGROUPS/RESGROUP1/PROVIDERS/MICROSOFT.NETWORK/EXPRESSROUTEPORTS/PORT1" ]
  = [ Rejected; Rejected; Rejected; Rejected; Rejected; Rejected; Rejected;
      Parsed (ExpressRoutePort.NewExpressRoutePortID
                "12345678-1234-9876-4563-123456789012" "resGroup1" "port1");
      Rejected ].
Proof. vm_compute. reflexivity. Qed.

(** The rows of the table do not tell how the variant compares the fixed
    names of the scope: they are met when it compares them exactly and
    when it compares them up to case. *)
Definition foldedEqual (a b : string) : bool :=
  String.eqb (lowerASCII a) (lowerASCII b).

Definition TestExpressRoutePortIDInsensitivelyRows : list string :=
    [ "";
      "/";
      "/subscriptions/";
      "/subscriptions/12345678-1234-9876-4563-123456789012/";
      "/subscriptions/12345678-1234-9876-4563-123456789012/resourceGroups/";
      "/subscriptions/12345678-1234-9876-4563-123456789012/resourceGroups/resGroup1/providers/Microsoft.Network/";
      "/subscriptions/12345678-1234-9876-4563-123456789012/resourceGroups/resGroup1/providers/Microsoft.Network/expressRoutePorts/";
      "/subscriptions/12345678-1234-9876-4563-123456789012/resourceGroups/resGroup1/providers/Microsoft.Network/expressRoutePorts/port1";
      "/subscriptions/12345678-1234-9876-4563-123456789012/resourceGroups/resGroup1/providers/Microsoft.Network/expressrouteports/port1";
      "/subscriptions/12345678-1234-9876-4563-123456789012/resourceGroups/resGroup1/providers/Microsoft.Network/EXPRESSROUTEPORTS/port1";
      "/subscriptions/12345678-1234-9876-4563-123456789012/resourceGroups/resGroup1/providers/Microsoft.Network/ExPrEsSrOuTePoRtS/port1" ].

Example TestExpressRoutePortIDInsensitively :
  let ok := Parsed (ExpressRoutePort.NewExpressRoutePortID
                      "12345678-1234-9876-4563-123456789012" "resGroup1" "port1") in
  let expected :=
    [ Rejected; Rejected; Rejected; Rejected; Rejected; Rejected; Rejected;
      ok; ok; ok; ok ] in
  map (ExpressRoutePort.ExpressRoutePortIDInsensitively String.eqb)
      TestExpressRoutePortIDInsensitivelyRows = expected
  /\ map (ExpressRoutePort.ExpressRoutePortIDInsensitively foldedEqual)
         TestExpressRoutePortIDInsensitivelyRows = expected.
Proof. split; vm_compute; reflexivity. Qed.

Example TestBlobInventoryPolicyID :
  map BlobInventoryPolicy.BlobInventoryPolicyID
    [ "";
      "/";
      "/subscriptions/";
      "/subscriptions/12345678-1234-9876-4563-123456789012/";
      "/subscriptions/12345678-1234-9876-4563-123456789012/resourceGroups/";
      "/subscriptions/12345678-1234-9876-4563-123456789012/resourceGroups/resGroup1/providers/Microsoft.Storage/";
      "/subscriptions/12345678-1234-9876-4563-123456789012/resourceGroups/resGroup1/providers/Microsoft.Storage/storageAccounts/";
      "/subscriptions/12345678-1234-9876-4563-123456789012/resourceGroups/resGroup1/providers/Microsoft.Storage/storageAccounts/storageAccount1/";
      "/subscriptions/12345678-1234-9876-4563-123456789012/resourceGroups/resGroup1/providers/Microsoft.Storage/storageAccounts/storageAccount1/inventoryPolicies/";
      "/subscriptions/12345678-1234-9876-4563-123456789012/resourceGroups/resGroup1/providers/Microsoft.Storage/storageAccounts/storageAccount1/inventoryPolicies/inventoryPolicy1";
      "/SUBSCRIPTIONS/12345678-1234-9876-4563-123456789012/RESOURCEGROUPS/RESGROUP1/PROVIDERS/MICROSOFT.STORAGE/STORAGEACCOUNTS/STORAGEACCOUNT1/INVENTORYPOLICIES/INVENTORYPOLICY1" ]
  = [ Rejected; Rejected; Rejected; Rejected; Rejected; Rejected; Rejected;
      Rejected; Rejected;
      Parsed (BlobInventoryPolicy.NewBlobInventoryPolicyID
                "12345678-1234-9876-4563-123456789012" "resGroup1"
                "storageAccount1" "inventoryPolicy1");
      Rejected ].
Proof. vm_compute. reflexivity. Qed.

(** *** Properties of the matcher *)




Lemma matchSegments_components (tmpl : list segment) :
  forall comps vals,
    matchSegments CaseSensitive tmpl comps = Some vals ->
    comps = components tmpl vals.
Proof.
  induction tmpl as [|[name|name|] tmpl IH]; intros [|c comps] vals H; simpl in H;
    try discriminate.
  - reflexivity.
  - destruct (String.eqb_spec name c) as [->|]; [|discriminate].
    simpl. f_equal. now apply IH.
  - destruct (String.eqb_spec name c) as [->|]; [|discriminate].
    simpl. f_equal. now apply IH.
  - destruct (nonEmpty c); [|discriminate].
    destruct (matchSegments CaseSensitive tmpl comps) as [vals'|] eqn:E;
      [|discriminate].
    injection H as <-. simpl. f_equal. now apply IH.
Qed.

Lemma matchSegments_length (mode : casing) (tmpl : list segment) :
  forall comps vals,
    matchSegments mode tmpl comps = Some vals -> length comps = length tmpl.
Proof.
  induction tmpl as [|[name|name|] tmpl IH]; intros [|c comps] vals H; simpl in H;
    try discriminate.
  - reflexivity.
  - destruct (staticMatches mode name c); [|discriminate].
    simpl. f_equal. eapply IH, H.
  - destruct (typeMatches mode name c); [|discriminate].
    simpl. f_equal. eapply IH, H.
  - destruct (nonEmpty c); [|discriminate].
    destruct (matchSegments mode tmpl comps) as [vals'|] eqn:E; [|discriminate].
    simpl. f_equal. eapply IH, E.
Qed.

(** What the case-sensitive parser accepts has no empty component. *)
Lemma matchSegments_nonEmpty (tmpl : list segment) :
  wellFormed tmpl = true ->
  forall comps vals,
    matchSegments CaseSensitive tmpl comps = Some vals ->
    forallb nonEmpty comps = true.
Proof.
  induction tmpl as [|[name|name|] tmpl IH]; intros Hwf [|c comps] vals H;
    simpl in H; try discriminate; simpl in Hwf.
  - reflexivity.
  - apply andb_true_iff in Hwf as [[Hne _]%andb_true_iff Hwf].
    destruct (String.eqb_spec name c) as [->|]; [|discriminate].
    simpl. rewrite Hne. eapply IH; eauto.
  - apply andb_true_iff in Hwf as [[Hne _]%andb_true_iff Hwf].
    destruct (String.eqb_spec name c) as [->|]; [|discriminate].
    simpl. rewrite Hne. eapply IH; eauto.
  - destruct (nonEmpty c) eqn:Ec; [|discriminate].
    destruct (matchSegments CaseSensitive tmpl comps) as [vals'|] eqn:E;
      [|discriminate].
    simpl. rewrite Ec. eapply IH; eauto.
Qed.




Lemma matchSegments_accepts_exact (tmpl : list segment) :
  forall vals,
    length vals = countValues tmpl ->
    forallb nonEmpty vals = true ->
    matchSegments CaseSensitive tmpl (components tmpl vals) = Some vals.
Proof.
  induction tmpl as [|[name|name|] tmpl IH]; intros vals Hl Hv.
  - destruct vals; [reflexivity | discriminate].
  - simpl. rewrite String.eqb_refl. now apply IH.
  - simpl. rewrite String.eqb_refl. now apply IH.
  - destruct vals as [|v vals]; [discriminate|].
    simpl in Hl, Hv. apply andb_true_iff in Hv as [Hv Hvs].
    simpl. rewrite Hv, (IH vals); auto.
Qed.



Lemma components_noSlash (tmpl : list segment) :
  wellFormed tmpl = true ->
  forall vals,
    forallb noSlash vals = true ->
    forallb noSlash (components tmpl vals) = true.
Proof.
  induction tmpl as [|[name|name|] tmpl IH]; intros Hwf vals Hv; simpl in *.
  - reflexivity.
  - apply andb_true_iff in Hwf as [[_ Hsl]%andb_true_iff Hwf].
    rewrite Hsl. simpl. auto.
  - apply andb_true_iff in Hwf as [[_ Hsl]%andb_true_iff Hwf].
    rewrite Hsl. simpl. auto.
  - destruct vals as [|v vals]; simpl in *.
    + auto.
    + apply andb_true_iff in Hv as [-> Hvs]. simpl. auto.
Qed.

Lemma components_length (tmpl : list segment) (vals : list string) :
  length (components tmpl vals) = length tmpl.
Proof.
  revert vals. induction tmpl as [|[name|name|] tmpl IH]; intros vals; simpl; auto.
  destruct vals; simpl; auto.
Qed.

(** Parsing with the case-sensitive parser, then formatting the values
    found, gives the input back. *)
Lemma parsePath_formatPath (tmpl : list segment) (input : string) (vals : list string) :
  parsePath CaseSensitive tmpl input = Some vals ->
  formatPath tmpl vals = input.
Proof.
  unfold parsePath, formatPath. intros H.
  destruct (splitSlash input) as [|[|a c] comps] eqn:E; try discriminate.
  apply matchSegments_components in H. subst comps.
  symmetry. now apply splitSlash_inv.
Qed.

(** The identifier built from valid values is accepted by the
    case-sensitive parser, with those values. *)
Lemma parsePath_of_formatPath (tmpl : list segment) (vals : list string) :
  wellFormed tmpl = true ->
  length vals = countValues tmpl ->
  forallb validValue vals = true ->
  parsePath CaseSensitive tmpl (formatPath tmpl vals) = Some vals.
Proof.
  intros Hwf Hl Hv.
  assert (forallb noSlash vals = true /\ forallb nonEmpty vals = true) as [Hsl Hne].
  { clear Hl. induction vals as [|v vals IH]; [split; reflexivity|].
    simpl in Hv. unfold validValue at 1 in Hv.
    apply andb_true_iff in Hv as [[H1 H2]%andb_true_iff Hv].
    destruct (IH Hv) as [IH1 IH2]. simpl. now rewrite H1, H2, IH1, IH2. }
  unfold parsePath, formatPath.
  rewrite splitSlash_renderPath by now apply components_noSlash.
  now apply matchSegments_accepts_exact.
Qed.

Lemma append_assoc (a b c : string) : (a +:+ b) +:+ c = a +:+ (b +:+ c).
Proof.
  induction a as [|x a IH]; [reflexivity|].
  now rewrite !append_cons, IH.
Qed.

Lemma renderPath_app (a b : list string) :
  renderPath (a ++ b) = renderPath a +:+ renderPath b.
Proof.
  induction a as [|c a IH]; [reflexivity|].
  simpl. rewrite append_cons. f_equal. now rewrite IH, append_assoc.
Qed.

(** *** Inputs that miss segments *)

Lemma cut_noSlash (fates : list fate) :
  forall comps,
    forallb noSlash comps = true -> forallb noSlash (cut fates comps) = true.
Proof.
  induction fates as [|[] fates IH]; intros [|c comps] H; simpl in *; auto;
    apply andb_true_iff in H as [Hc H]; rewrite ?Hc; simpl; auto.
Qed.

Lemma cut_length (fates : list fate) :
  forall comps, length (cut fates comps) <= length comps.
Proof.
  induction fates as [|[] fates IH]; intros [|c comps]; simpl; try lia;
    specialize (IH comps); lia.
Qed.

(** An input that misses a segment has fewer components than the
    identifier, or an empty one. *)
Lemma cut_short_or_blank (fates : list fate) :
  forall comps,
    length fates = length comps ->
    existsb missing fates = true ->
    length (cut fates comps) < length comps
    \/ forallb nonEmpty (cut fates comps) = false.
Proof.
  induction fates as [|f fates IH]; intros [|c comps] Hl Hm; simpl in Hl, Hm;
    try discriminate.
  injection Hl as Hl. destruct f; simpl in *.
  - destruct (IH comps Hl Hm) as [H|H]; [left; lia | right].
    rewrite H. apply andb_false_r.
  - left. pose proof (cut_length fates comps). lia.
  - right. reflexivity.
Qed.

(** An input that misses a segment of the identifier is rejected by the
    case-sensitive parser. *)
Lemma withMissing_rejected
      (tmpl : list segment) (vals : list string) (fates : list fate) (trailing : bool) :
  wellFormed tmpl = true ->
  forallb noSlash vals = true ->
  length fates = length tmpl ->
  existsb missing fates = true ->
  parsePath CaseSensitive tmpl (withMissing fates (components tmpl vals) trailing)
  = None.
Proof.
  intros Hwf Hv Hl Hm.
  pose proof (components_noSlash tmpl Hwf vals Hv) as Hns.
  pose proof (components_length tmpl vals) as Hlen.
  set (comps := components tmpl vals) in *.
  pose proof (cut_noSlash fates comps Hns) as Hcut.
  pose proof (cut_length fates comps) as Hle.
  assert (length fates = length comps) as Hl' by lia.
  pose proof (cut_short_or_blank fates comps Hl' Hm) as Hsb.
  unfold parsePath, withMissing. destruct trailing.
  - change "/" with (renderPath [EmptyString]).
    rewrite <- renderPath_app, splitSlash_renderPath.
    + destruct (matchSegments CaseSensitive tmpl (cut fates comps ++ [EmptyString]))
        eqn:E; [|reflexivity].
      apply (matchSegments_nonEmpty _ Hwf) in E.
      rewrite forallb_app in E. simpl in E.
      rewrite andb_false_r in E. discriminate.
    + rewrite forallb_app, Hcut. reflexivity.
  - rewrite append_empty_r, splitSlash_renderPath by exact Hcut.
    destruct (matchSegments CaseSensitive tmpl (cut fates comps)) eqn:E;
      [|reflexivity].
    pose proof (matchSegments_length _ _ _ _ E) as Hlen'.
    apply (matchSegments_nonEmpty _ Hwf) in E.
    destruct Hsb as [Hshort|Hblank]; [lia | congruence].
Qed.

(** *** The three resources *)

Lemma DataFactory_ID_formatPath (sub rg name : string) :
  DataFactory.ID (DataFactory.NewDataFactoryID sub rg name)
  = formatPath DataFactory.template [sub; rg; name].
Proof.
  unfold formatPath. cbn [components DataFactory.template renderPath].
  rewrite (append_empty_r name). reflexivity.
Qed.

Lemma ExpressRoutePort_ID_formatPath (sub rg name : string) :
  ExpressRoutePort.ID (ExpressRoutePort.NewExpressRoutePortID sub rg name)
  = formatPath ExpressRoutePort.template [sub; rg; name].
Proof.
  unfold formatPath. cbn [components ExpressRoutePort.template renderPath].
  rewrite (append_empty_r name). reflexivity.
Qed.

Lemma BlobInventoryPolicy_ID_formatPath (sub rg account policy : string) :
  BlobInventoryPolicy.ID
    (BlobInventoryPolicy.NewBlobInventoryPolicyID sub rg account policy)
  = formatPath BlobInventoryPolicy.template [sub; rg; account; policy].
Proof.
  unfold formatPath. cbn [components BlobInventoryPolicy.template renderPath].
  rewrite (append_empty_r policy). reflexivity.
Qed.

(** The identifier built from valid values is accepted, and parses to
    those values. *)
Lemma DataFactoryID_of_ID (sub rg name : string) :
  forallb validValue [sub; rg; name] = true ->
  DataFactory.DataFactoryID (DataFactory.ID (DataFactory.NewDataFactoryID sub rg name))
  = Parsed (DataFactory.NewDataFactoryID sub rg name).
Proof.
  intros Hv. rewrite DataFactory_ID_formatPath.
  unfold DataFactory.DataFactoryID.
  now rewrite parsePath_of_formatPath.
Qed.

Lemma ExpressRoutePortID_of_ID (sub rg name : string) :
  forallb validValue [sub; rg; name] = true ->
  ExpressRoutePort.ExpressRoutePortID
    (ExpressRoutePort.ID (ExpressRoutePort.NewExpressRoutePortID sub rg name))
  = Parsed (ExpressRoutePort.NewExpressRoutePortID sub rg name).
Proof.
  intros Hv. rewrite ExpressRoutePort_ID_formatPath.
  unfold ExpressRoutePort.ExpressRoutePortID.
  now rewrite parsePath_of_formatPath.
Qed.

Lemma BlobInventoryPolicyID_of_ID (sub rg account policy : string) :
  forallb validValue [sub; rg; account; policy] = true ->
  BlobInventoryPolicy.BlobInventoryPolicyID
    (BlobInventoryPolicy.ID
       (BlobInventoryPolicy.NewBlobInventoryPolicyID sub rg account policy))
  = Parsed (BlobInventoryPolicy.NewBlobInventoryPolicyID sub rg account policy).
Proof.
  intros Hv. rewrite BlobInventoryPolicy_ID_formatPath.
  unfold BlobInventoryPolicy.BlobInventoryPolicyID.
  now rewrite parsePath_of_formatPath.
Qed.

(** C1. A valid identifier -- the identifier of valid values, all its
    segments present and its fixed names in the expected casing -- is
    parsed by the resource's case-sensitive parser, to those very values,
    so that formatting the parsed value with its [ID] method gives the
    string back; and whatever string a parser accepts, [ID] of the parsed
    value is that string.  For the Data Factory, ExpressRoute port and
    blob inventory policy identifiers. *)
Theorem parse_then_ID_roundtrip (input sub rg name account policy : string) :
  forallb validValue [sub; rg; name; account; policy] = true ->
  (DataFactory.DataFactoryID
     (DataFactory.ID (DataFactory.NewDataFactoryID sub rg name))
   = Parsed (DataFactory.NewDataFactoryID sub rg name)
   /\ (forall id, DataFactory.DataFactoryID input = Parsed id ->
                  DataFactory.ID id = input))
  /\
  (ExpressRoutePort.ExpressRoutePortID
     (ExpressRoutePort.ID (ExpressRoutePort.NewExpressRoutePortID sub rg name))
   = Parsed (ExpressRoutePort.NewExpressRoutePortID sub rg name)
   /\ (forall id, ExpressRoutePort.ExpressRoutePortID input = Parsed id ->
                  ExpressRoutePort.ID id = input))
  /\
  (BlobInventoryPolicy.BlobInventoryPolicyID
     (BlobInventoryPolicy.ID
        (BlobInventoryPolicy.NewBlobInventoryPolicyID sub rg account policy))
   = Parsed (BlobInventoryPolicy.NewBlobInventoryPolicyID sub rg account policy)
   /\ (forall id, BlobInventoryPolicy.BlobInventoryPolicyID input = Parsed id ->
                  BlobInventoryPolicy.ID id = input)).
Proof.
  intros Hv. cbn [forallb] in Hv.
  apply andb_true_iff in Hv as [Hsub Hv]. apply andb_true_iff in Hv as [Hrg Hv].
  apply andb_true_iff in Hv as [Hname Hv]. apply andb_true_iff in Hv as [Hacc Hv].
  apply andb_true_iff in Hv as [Hpol _].
  split; [|split]; split.
  - apply DataFactoryID_of_ID. cbn [forallb]. now rewrite Hsub, Hrg, Hname.
  - intros id H. unfold DataFactory.DataFactoryID in H.
    destruct (parsePath CaseSensitive DataFactory.template input)
      as [[|a [|b [|c [|d l]]]]|] eqn:E; try discriminate.
    injection H as <-. rewrite DataFactory_ID_formatPath.
    now apply parsePath_formatPath.
  - apply ExpressRoutePortID_of_ID. cbn [forallb]. now rewrite Hsub, Hrg, Hname.
  - intros id H. unfold ExpressRoutePort.ExpressRoutePortID in H.
    destruct (parsePath CaseSensitive ExpressRoutePort.template input)
      as [[|a [|b [|c [|d l]]]]|] eqn:E; try discriminate.
    injection H as <-. rewrite ExpressRoutePort_ID_formatPath.
    now apply parsePath_formatPath.
  - apply BlobInventoryPolicyID_of_ID. cbn [forallb]. now rewrite Hsub, Hrg, Hacc, Hpol.
  - intros id H. unfold BlobInventoryPolicy.BlobInventoryPolicyID in H.
    destruct (parsePath CaseSensitive BlobInventoryPolicy.template input)
      as [[|a [|b [|c [|d [|e l]]]]]|] eqn:E; try discriminate.
    injection H as <-. rewrite BlobInventoryPolicy_ID_formatPath.
    now apply parsePath_formatPath.
Qed.

Lemma parse_then_ID_roundtrip_witness :
  (DataFactory.DataFactoryID
     "/subscriptions/12345678-1234-9876-4563-123456789012/resourceGroups/resGroup1/providers/Microsoft.DataFactory/factories/facName1"
   = Parsed (DataFactory.NewDataFactoryID
               "12345678-1234-9876-4563-123456789012" "resGroup1" "facName1")
   /\ DataFactory.ID
        (DataFactory.NewDataFactoryID
           "12345678-1234-9876-4563-123456789012" "resGroup1" "facName1")
      = "/subscriptions/12345678-1234-9876-4563-123456789012/resourceGroups/resGroup1/providers/Microsoft.DataFactory/factories/facName1")
  /\
  (ExpressRoutePort.ExpressRoutePortID
     "/subscriptions/12345678-1234-9876-4563-123456789012/resourceGroups/resGroup1/providers/Microsoft.Network/expressRoutePorts/port1"
   = Parsed (ExpressRoutePort.NewExpressRoutePortID
               "12345678-1234-9876-4563-123456789012" "resGroup1" "port1")
   /\ ExpressRoutePort.ID
        (ExpressRoutePort.NewExpressRoutePortID
           "12345678-1234-9876-4563-123456789012" "resGroup1" "port1")
      = "/subscriptions/12345678-1234-9876-4563-123456789012/resourceGroups/resGroup1/providers/Microsoft.Network/expressRoutePorts/port1")
  /\
  (BlobInventoryPolicy.BlobInventoryPolicyID
     "/subscriptions/12345678-1234-9876-4563-123456789012/resourceGroups/resGroup1/providers/Microsoft.Storage/storageAccounts/storageAccount1/inventoryPolicies/inventoryPolicy1"
   = Parsed (BlobInventoryPolicy.NewBlobInventoryPolicyID
               "12345678-1234-9876-4563-123456789012" "resGroup1"
               "storageAccount1" "inventoryPolicy1")
   /\ BlobInventoryPolicy.ID
        (BlobInventoryPolicy.NewBlobInventoryPolicyID
           "12345678-1234-9876-4563-123456789012" "resGroup1"
           "storageAccount1" "inventoryPolicy1")
      = "/subscriptions/12345678-1234-9876-4563-123456789012/resourceGroups/resGroup1/providers/Microsoft.Storage/storageAccounts/storageAccount1/inventoryPolicies/inventoryPolicy1").
Proof.
  pose proof (fun input name =>
                parse_then_ID_roundtrip input
                  "12345678-1234-9876-4563-123456789012" "resGroup1" name
                  "storageAccount1" "inventoryPolicy1") as H.
  split; [|split]; split.
  - exact (proj1 (proj1 (H EmptyString "facName1" eq_refl))).
  - refine (proj2 (proj1 (H _ "facName1" eq_refl)) _ _). vm_compute. reflexivity.
  - exact (proj1 (proj1 (proj2 (H EmptyString "port1" eq_refl)))).
  - refine (proj2 (proj1 (proj2 (H _ "port1" eq_refl))) _ _). vm_compute. reflexivity.
  - exact (proj1 (proj2 (proj2 (H EmptyString "facName1" eq_refl)))).
  - refine (proj2 (proj2 (proj2 (H _ "facName1" eq_refl))) _ _). vm_compute. reflexivity.
Defined.

(** C3. An input that misses a required segment of the identifier is
    rejected: the parser returns an error and no value.  Take the
    components of an identifier and drop some of them, or leave their
    place empty, at least one -- the [subscriptions] segment, the
    subscription value, the [resourceGroups] segment or its value, the
    resource-type segment, the final name, or any number of them down to
    the empty string -- and write what is left with or without a
    separator at its end. *)
Theorem missing_segment_rejected
        (sub rg name account policy : string) (fates : list fate) (trailing : bool) :
  forallb noSlash [sub; rg; name; account; policy] = true ->
  existsb missing fates = true ->
  (length fates = 8 ->
   DataFactory.DataFactoryID
     (withMissing fates
        (DataFactory.segments (DataFactory.NewDataFactoryID sub rg name))
        trailing) = Rejected) /\
  (length fates = 8 ->
   ExpressRoutePort.ExpressRoutePortID
     (withMissing fates
        (ExpressRoutePort.segments (ExpressRoutePort.NewExpressRoutePortID sub rg name))
        trailing) = Rejected) /\
  (length fates = 10 ->
   BlobInventoryPolicy.BlobInventoryPolicyID
     (withMissing fates
        (BlobInventoryPolicy.segments
           (BlobInventoryPolicy.NewBlobInventoryPolicyID sub rg account policy))
        trailing) = Rejected).
Proof.
  intros Hv Hm. simpl in Hv.
  repeat (apply andb_true_iff in Hv as [? Hv]).
  repeat split; intros Hk.
  - unfold DataFactory.DataFactoryID, DataFactory.segments.
    rewrite withMissing_rejected; auto.
    simpl. now rewrite !andb_true_iff.
  - unfold ExpressRoutePort.ExpressRoutePortID, ExpressRoutePort.segments.
    rewrite withMissing_rejected; auto.
    simpl. now rewrite !andb_true_iff.
  - unfold BlobInventoryPolicy.BlobInventoryPolicyID, BlobInventoryPolicy.segments.
    rewrite withMissing_rejected; auto.
    simpl. now rewrite !andb_true_iff.
Qed.

Lemma missing_segment_rejected_witness :
  DataFactory.DataFactoryID
    "/subscriptions/12345678-1234-9876-4563-123456789012/providers/Microsoft.DataFactory/factories/facName1"
  = Rejected
  /\
  DataFactory.DataFactoryID
    "/subscriptions/12345678-1234-9876-4563-123456789012/resourceGroups/resGroup1/providers/Microsoft.DataFactory/factories/"
  = Rejected
  /\
  ExpressRoutePort.ExpressRoutePortID
    "/subscriptions//resourceGroups/resGroup1/providers/Microsoft.Network/expressRoutePorts/port1"
  = Rejected
  /\
  BlobInventoryPolicy.BlobInventoryPolicyID
    "/subscriptions/12345678-1234-9876-4563-123456789012/resourceGroups/resGroup1/providers/Microsoft.Storage/storageAccounts/storageAccount1/"
  = Rejected.
Proof.
  split; [|split; [|split]].
  - refine (proj1 (missing_segment_rejected
                     "12345678-1234-9876-4563-123456789012" "resGroup1"
                     "facName1" "storageAccount1" "inventoryPolicy1"
                     [Kept; Kept; Dropped; Dropped; Kept; Kept; Kept; Kept]
                     false _ _) _); reflexivity.
  - refine (proj1 (missing_segment_rejected
                     "12345678-1234-9876-4563-123456789012" "resGroup1"
                     "facName1" "storageAccount1" "inventoryPolicy1"
                     [Kept; Kept; Kept; Kept; Kept; Kept; Kept; Dropped]
                     true _ _) _); reflexivity.
  - refine (proj1 (proj2 (missing_segment_rejected
                     "12345678-1234-9876-4563-123456789012" "resGroup1"
                     "port1" "storageAccount1" "inventoryPolicy1"
                     [Kept; Blanked; Kept; Kept; Kept; Kept; Kept; Kept]
                     false _ _)) _); reflexivity.
  - refine (proj2 (proj2 (missing_segment_rejected
                     "12345678-1234-9876-4563-123456789012" "resGroup1"
                     "facName1" "storageAccount1" "inventoryPolicy1"
                     [Kept; Kept; Kept; Kept; Kept; Kept; Kept; Kept; Dropped; Dropped]
                     true _ _)) _); reflexivity.
Defined.



End ResourceIDs.

(* ===================================================================== *)
(** ** Enumerated constants of the live-outputs API *)
(* ===================================================================== *)

Module LiveOutputs.
Import GoStrings.

Section Parsing.

(** [strings.Map(unicode.ToLower, s)], the path Go's [strings.ToLower]
    takes for a string with a byte outside ASCII; the Unicode tables are
    not part of this development. *)
Variable mapUnicodeToLower : string -> string.

(** [strings.ToLower]: an ASCII-only string has its upper-case letters
    shifted to lower case (and is returned as it is when it has none);
    any other string is mapped rune by rune. *)
Definition ToLower (s : string) : string :=
  if isASCII s then lowerASCII s else mapUnicodeToLower s.

(** [type AsyncOperationStatus string] *)
Definition AsyncOperationStatus : Type := string.

Definition AsyncOperationStatusFailed : AsyncOperationStatus := "Failed".
Definition AsyncOperationStatusInProgress : AsyncOperationStatus := "InProgress".
Definition AsyncOperationStatusSucceeded : AsyncOperationStatus := "Succeeded".

Definition PossibleValuesForAsyncOperationStatus : list string :=
  [AsyncOperationStatusFailed;
   AsyncOperationStatusInProgress;
   AsyncOperationStatusSucceeded].

(** A Go [error]; [None] is the nil error. *)
Definition error : Type := option string.

(** The result is the pair of the returned pointer ([None] for nil) and
    the returned error. *)
Definition parseAsyncOperationStatus (input : string)
  : option AsyncOperationStatus * error :=
  let vals : gmap string AsyncOperationStatus :=
    <["failed" := AsyncOperationStatusFailed]>
      (<["inprogress" := AsyncOperationStatusInProgress]>
         (<["succeeded" := AsyncOperationStatusSucceeded]> ∅)) in
  match vals !! ToLower input with
  | Some v => (Some v, None)
  | None =>
      (* otherwise presume it's an undefined value and best-effort it *)
      let out : AsyncOperationStatus := input in
      (Some out, None)
  end.

(** [type LiveOutputResourceState string] *)
Definition LiveOutputResourceState : Type := string.

Definition LiveOutputResourceStateCreating : LiveOutputResourceState := "Creating".
Definition LiveOutputResourceStateDeleting : LiveOutputResourceState := "Deleting".
Definition LiveOutputResourceStateRunning : LiveOutputResourceState := "Running".

Definition PossibleValuesForLiveOutputResourceState : list string :=
  [LiveOutputResourceStateCreating;
   LiveOutputResourceStateDeleting;
   LiveOutputResourceStateRunning].

Definition parseLiveOutputResourceState (input : string)
  : option LiveOutputResourceState * error :=
  let vals : gmap string LiveOutputResourceState :=
    <["creating" := LiveOutputResourceStateCreating]>
      (<["deleting" := LiveOutputResourceStateDeleting]>
         (<["running" := LiveOutputResourceStateRunning]> ∅)) in
  match vals !! ToLower input with
  | Some v => (Some v, None)
  | None =>
      let out : LiveOutputResourceState := input in
      (Some out, None)
  end.

(** [input] and [c] are equal up to case, as the parsers decide it. *)
Definition equalFold (input c : string) : Prop := ToLower input = ToLower c.

Example parseAsyncOperationStatus_inprogress :
  parseAsyncOperationStatus "inprogress" = (Some "InProgress", None)
  /\ parseAsyncOperationStatus "INPROGRESS" = (Some "InProgress", None)
  /\ parseAsyncOperationStatus "Canceled" = (Some "Canceled", None)
  /\ parseLiveOutputResourceState "rUNNING" = (Some "Running", None).
Proof. repeat split; vm_compute; reflexivity. Qed.

Lemma lookup_three {V : Type} (k1 k2 k3 k : string) (v1 v2 v3 : V) :
  (<[k1 := v1]> (<[k2 := v2]> (<[k3 := v3]> (∅ : gmap string V)))) !! k
  = if decide (k1 = k) then Some v1
    else if decide (k2 = k) then Some v2
    else if decide (k3 = k) then Some v3
    else None.
Proof.
  rewrite !lookup_insert, lookup_empty.
  repeat case_decide; reflexivity.
Qed.

Lemma ToLower_constants :
  ToLower AsyncOperationStatusFailed = "failed"
  /\ ToLower AsyncOperationStatusInProgress = "inprogress"
  /\ ToLower AsyncOperationStatusSucceeded = "succeeded"
  /\ ToLower LiveOutputResourceStateCreating = "creating"
  /\ ToLower LiveOutputResourceStateDeleting = "deleting"
  /\ ToLower LiveOutputResourceStateRunning = "running".
Proof. repeat split; reflexivity. Qed.

(** C10. [parseAsyncOperationStatus] and [parseLiveOutputResourceState]
    return, for every input, a non-nil value and a nil error; the value is
    the known constant that the input equals up to case when there is one,
    and the input itself otherwise. *)
Theorem parse_enum_total_best_effort (input : string) :
  (exists v : AsyncOperationStatus,
     parseAsyncOperationStatus input = (Some v, None)
     /\ (forall c, In c PossibleValuesForAsyncOperationStatus ->
                   equalFold input c -> v = c)
     /\ ((forall c, In c PossibleValuesForAsyncOperationStatus ->
                    ~ equalFold input c) -> v = input))
  /\
  (exists v : LiveOutputResourceState,
     parseLiveOutputResourceState input = (Some v, None)
     /\ (forall c, In c PossibleValuesForLiveOutputResourceState ->
                   equalFold input c -> v = c)
     /\ ((forall c, In c PossibleValuesForLiveOutputResourceState ->
                    ~ equalFold input c) -> v = input)).
Proof.
  unfold equalFold, parseAsyncOperationStatus, parseLiveOutputResourceState.
  cbv zeta. rewrite !lookup_three.
  pose proof ToLower_constants as (HF & HI & HS & HC & HD & HR).
  split.
  - repeat case_decide; eexists; (split; [reflexivity|]); split.
    all: try (intros c [<-|[<-|[<-|[]]]] Hc;
              rewrite ?HF, ?HI, ?HS in Hc; congruence).
    all: try reflexivity.
    all: intros Hno; exfalso.
    + apply (Hno AsyncOperationStatusFailed); [simpl; tauto | congruence].
    + apply (Hno AsyncOperationStatusInProgress); [simpl; tauto | congruence].
    + apply (Hno AsyncOperationStatusSucceeded); [simpl; tauto | congruence].
  - repeat case_decide; eexists; (split; [reflexivity|]); split.
    all: try (intros c [<-|[<-|[<-|[]]]] Hc;
              rewrite ?HC, ?HD, ?HR in Hc; congruence).
    all: try reflexivity.
    all: intros Hno; exfalso.
    + apply (Hno LiveOutputResourceStateCreating); [simpl; tauto | congruence].
    + apply (Hno LiveOutputResourceStateDeleting); [simpl; tauto | congruence].
    + apply (Hno LiveOutputResourceStateRunning); [simpl; tauto | congruence].
Qed.

End Parsing.

End LiveOutputs.

(* ===================================================================== *)
(** ** Go values and outcomes *)
(* ===================================================================== *)

Module Go.

(** A slice of [interface{}] values, as the flatten functions return it:
    the nil slice or a slice with its elements. *)
Inductive slice (A : Type) : Type :=
| nil_slice
| mk_slice (elems : list A).
Arguments nil_slice {A}.
Arguments mk_slice {A} _.

(** What [range], [len] and indexing see. *)
Definition elems {A : Type} (s : slice A) : list A :=
  match s with
  | nil_slice => []
  | mk_slice l => l
  end.

(** [append(s, x)] *)
Definition append {A : Type} (s : slice A) (x : A) : slice A :=
  mk_slice (elems s ++ [x]).

(** A value of type [interface{}].  [VSet] is a [*pluginsdk.Set], given
    by the list its [List()] method returns; [VFloat64] carries the bits
    of a decoded JSON number. *)
Inductive value : Type :=
| VNil
| VBool (b : bool)
| VInt (n : Z)
| VInt64 (n : Z)
| VFloat64 (bits : Z)
| VString (s : string)
| VList (l : slice value)
| VSet (l : list value)
| VMap (m : gmap string value).

(** How a call ends: it returns, it returns a non-nil [error], or it
    panics. *)
Inductive outcome (A : Type) : Type :=
| Return (a : A)
| Error (msg : string)
| Panic.
Arguments Return {A} _.
Arguments Error {A} _.
Arguments Panic {A}.

Definition bind {A B : Type} (c : outcome A) (k : A -> outcome B) : outcome B :=
  match c with
  | Return a => k a
  | Error msg => Error msg
  | Panic => Panic
  end.

(** A loop whose body may end the call: the body is run on each element in
    turn, threading the accumulator. *)
Fixpoint forEach {A S : Type} (body : S -> A -> outcome S) (l : list A) (acc : S)
  : outcome S :=
  match l with
  | [] => Return acc
  | x :: l' => bind (body acc x) (forEach body l')
  end.

(** [m[k]]: the zero value, nil, for a missing key. *)
Definition index (m : gmap string value) (k : string) : value :=
  match m !! k with
  | Some v => v
  | None => VNil
  end.

(** [v, ok := m[k]] *)
Definition indexOk (m : gmap string value) (k : string) : value * bool :=
  match m !! k with
  | Some v => (v, true)
  | None => (VNil, false)
  end.

(** Type assertions [v.(T)]; a failed assertion panics. *)
Definition assertBool (v : value) : outcome bool :=
  match v with VBool b => Return b | _ => Panic end.

Definition assertInt (v : value) : outcome Z :=
  match v with VInt n => Return n | _ => Panic end.

Definition assertString (v : value) : outcome string :=
  match v with VString s => Return s | _ => Panic end.

Definition assertList (v : value) : outcome (slice value) :=
  match v with VList l => Return l | _ => Panic end.

Definition assertSet (v : value) : outcome (list value) :=
  match v with VSet l => Return l | _ => Panic end.

Definition assertMap (v : value) : outcome (gmap string value) :=
  match v with VMap m => Return m | _ => Panic end.

(** [s[0]]; indexing an empty slice panics. *)
Definition first {A : Type} (s : slice A) : outcome A :=
  match elems s with
  | x :: _ => Return x
  | [] => Panic
  end.

Definition isNil (v : value) : bool :=
  match v with VNil => true | _ => false end.

(** [pointer.From(p)] at a string type: the empty string for nil. *)
Definition fromString (p : option string) : string :=
  match p with
  | Some s => s
  | None => EmptyString
  end.

(** [fmt.Sprintf("%t", b)] *)
Definition formatBool (b : bool) : string := if b then "true" else "false".

End Go.

Module GoNotations.
Notation "'let!' x ':=' c 'in' k" := (Go.bind c (fun x => k))
    (at level 10, x name, c at level 200, k at level 200).
End GoNotations.

(* ===================================================================== *)
(** ** The API model of virtual machine scale sets *)
(* ===================================================================== *)

(** The structs of the vendored package [virtualmachinescalesets], each
    with the fields that the helpers read or write.  A pointer field is an
    [option]; [int] and [int64] are [Z], the helpers only copying and
    comparing them; a typed slice is the list of its elements; the
    string-based enumerations ([IPVersion], [StorageAccountTypes],
    [CachingTypes], ...) are strings.  The field [Type] of an extension is
    [Type_] here. *)
Module virtualmachinescalesets.

(** Modelled from the spec: three constants of the package, which is not
    among the sources; their values are the ones the schemas' validation
    lists and the helpers' error messages spell out. *)
Definition IPVersionIPvSix : string := "IPv6".
Definition StorageAccountTypesPremiumVTwoLRS : string := "PremiumV2_LRS".
Definition VirtualMachineScaleSetScaleInRulesDefault : string := "Default".

Module AdditionalCapabilities.
Record t : Type := mk { UltraSSDEnabled : option bool }.
End AdditionalCapabilities.

Module ScaleInPolicy.
Record t : Type := mk {
    ForceDeletion : option bool;
    Rules : option (list string)
  }.
End ScaleInPolicy.

Module SpotRestorePolicy.
Record t : Type := mk {
    Enabled : option bool;
    RestoreTimeout : option string
  }.
End SpotRestorePolicy.

Module SubResource.
Record t : Type := mk { Id : option string }.
End SubResource.

Module ApiEntityReference.
Record t : Type := mk { Id : option string }.
End ApiEntityReference.

Module VirtualMachineScaleSetIPTag.
Record t : Type := mk {
    IPTagType : option string;
    Tag : option string
  }.
End VirtualMachineScaleSetIPTag.

Module VirtualMachineScaleSetPublicIPAddressConfigurationDnsSettings.
Record t : Type := mk { DomainNameLabel : string }.
End VirtualMachineScaleSetPublicIPAddressConfigurationDnsSettings.

Module VirtualMachineScaleSetPublicIPAddressConfigurationProperties.
Record t : Type := mk {
    DnsSettings :
      option VirtualMachineScaleSetPublicIPAddressConfigurationDnsSettings.t;
    IPTags : option (list VirtualMachineScaleSetIPTag.t);
    IdleTimeoutInMinutes : option Z;
    PublicIPAddressVersion : option string;
    PublicIPPrefix : option SubResource.t
  }.
End VirtualMachineScaleSetPublicIPAddressConfigurationProperties.

Module VirtualMachineScaleSetPublicIPAddressConfiguration.
Record t : Type := mk {
    Name : string;
    Properties :
      option VirtualMachineScaleSetPublicIPAddressConfigurationProperties.t
  }.
End VirtualMachineScaleSetPublicIPAddressConfiguration.

Module VirtualMachineScaleSetIPConfigurationProperties.
Record t : Type := mk {
    ApplicationGatewayBackendAddressPools : option (list SubResource.t);
    ApplicationSecurityGroups : option (list SubResource.t);
    LoadBalancerBackendAddressPools : option (list SubResource.t);
    LoadBalancerInboundNatPools : option (list SubResource.t);
    Primary : option bool;
    PrivateIPAddressVersion : option string;
    PublicIPAddressConfiguration :
      option VirtualMachineScaleSetPublicIPAddressConfiguration.t;
    Subnet : option ApiEntityReference.t
  }.
End VirtualMachineScaleSetIPConfigurationProperties.

Module VirtualMachineScaleSetIPConfiguration.
Record t : Type := mk {
    Name : string;
    Properties : option VirtualMachineScaleSetIPConfigurationProperties.t
  }.
End VirtualMachineScaleSetIPConfiguration.

Module VirtualMachineScaleSetUpdatePublicIPAddressConfigurationProperties.
Record t : Type := mk {
    DnsSettings :
      option VirtualMachineScaleSetPublicIPAddressConfigurationDnsSettings.t;
    IdleTimeoutInMinutes : option Z
  }.
End VirtualMachineScaleSetUpdatePublicIPAddressConfigurationProperties.

Module VirtualMachineScaleSetUpdatePublicIPAddressConfiguration.
Record t : Type := mk {
    Name : option string;
    Properties :
      option VirtualMachineScaleSetUpdatePublicIPAddressConfigurationProperties.t
  }.
End VirtualMachineScaleSetUpdatePublicIPAddressConfiguration.

Module VirtualMachineScaleSetUpdateIPConfigurationProperties.
Record t : Type := mk {
    ApplicationGatewayBackendAddressPools : option (list SubResource.t);
    ApplicationSecurityGroups : option (list SubResource.t);
    LoadBalancerBackendAddressPools : option (list SubResource.t);
    LoadBalancerInboundNatPools : option (list SubResource.t);
    Primary : option bool;
    PrivateIPAddressVersion : option string;
    PublicIPAddressConfiguration :
      option VirtualMachineScaleSetUpdatePublicIPAddressConfiguration.t;
    Subnet : option ApiEntityReference.t
  }.
End VirtualMachineScaleSetUpdateIPConfigurationProperties.

Module VirtualMachineScaleSetUpdateIPConfiguration.
Record t : Type := mk {
    Name : option string;
    Properties : option VirtualMachineScaleSetUpdateIPConfigurationProperties.t
  }.
End VirtualMachineScaleSetUpdateIPConfiguration.

Module VirtualMachineScaleSetNetworkConfigurationDnsSettings.
Record t : Type := mk { DnsServers : option (list string) }.
End VirtualMachineScaleSetNetworkConfigurationDnsSettings.

Module VirtualMachineScaleSetNetworkConfigurationProperties.
Record t : Type := mk {
    DnsSettings : option VirtualMachineScaleSetNetworkConfigurationDnsSettings.t;
    EnableAcceleratedNetworking : option bool;
    EnableIPForwarding : option bool;
    IPConfigurations : list VirtualMachineScaleSetIPConfiguration.t;
    NetworkSecurityGroup : option SubResource.t;
    Primary : option bool
  }.
End VirtualMachineScaleSetNetworkConfigurationProperties.

Module VirtualMachineScaleSetNetworkConfiguration.
Record t : Type := mk {
    Name : string;
    Properties : option VirtualMachineScaleSetNetworkConfigurationProperties.t
  }.
End VirtualMachineScaleSetNetworkConfiguration.

Module VMDiskSecurityProfile.
Record t : Type := mk {
    DiskEncryptionSet : option SubResource.t;
    SecurityEncryptionType : option string
  }.
End VMDiskSecurityProfile.

Module VirtualMachineScaleSetManagedDiskParameters.
Record t : Type := mk {
    DiskEncryptionSet : option SubResource.t;
    SecurityProfile : option VMDiskSecurityProfile.t;
    StorageAccountType : option string
  }.
End VirtualMachineScaleSetManagedDiskParameters.

Module VirtualMachineScaleSetDataDisk.
Record t : Type := mk {
    Caching : option string;
    CreateOption : string;
    DiskIOPSReadWrite : option Z;
    DiskMBpsReadWrite : option Z;
    DiskSizeGB : option Z;
    Lun : Z;
    ManagedDisk : option VirtualMachineScaleSetManagedDiskParameters.t;
    Name : option string;
    WriteAcceleratorEnabled : option bool
  }.
End VirtualMachineScaleSetDataDisk.

Module DiffDiskSettings.
Record t : Type := mk {
    Option : option string;
    Placement : option string
  }.
End DiffDiskSettings.

Module VirtualMachineScaleSetOSDisk.
Record t : Type := mk {
    Caching : option string;
    CreateOption : string;
    DiffDiskSettings : option DiffDiskSettings.t;
    DiskSizeGB : option Z;
    ManagedDisk : option VirtualMachineScaleSetManagedDiskParameters.t;
    OsType : option string;
    WriteAcceleratorEnabled : option bool
  }.
End VirtualMachineScaleSetOSDisk.

Module KeyVaultSecretReference.
Record t : Type := mk {
    SecretUrl : string;
    SourceVault : SubResource.t
  }.
End KeyVaultSecretReference.

(** The [Settings] and [ProtectedSettings] of an extension are
    [*interface{}] fields holding whatever the response decoded to; the
    structs are given over the type [any] of those values. *)
Module VirtualMachineScaleSetExtensionProperties.
Record t (any : Type) : Type := mk {
  AutoUpgradeMinorVersion : option bool;
  EnableAutomaticUpgrade : option bool;
  ForceUpdateTag : option string;
  ProtectedSettings : option any;
  ProtectedSettingsFromKeyVault : option KeyVaultSecretReference.t;
  ProvisionAfterExtensions : option (list string);
  Publisher : option string;
  Settings : option any;
  Type_ : option string;
  TypeHandlerVersion : option string
}.
Arguments mk {any}.
Arguments AutoUpgradeMinorVersion {any}.
Arguments EnableAutomaticUpgrade {any}.
Arguments ForceUpdateTag {any}.
Arguments ProtectedSettings {any}.
Arguments ProtectedSettingsFromKeyVault {any}.
Arguments ProvisionAfterExtensions {any}.
Arguments Publisher {any}.
Arguments Settings {any}.
Arguments Type_ {any}.
Arguments TypeHandlerVersion {any}.
End VirtualMachineScaleSetExtensionProperties.

Module VirtualMachineScaleSetExtension.
Record t (any : Type) : Type := mk {
  Name : option string;
  Properties : option (VirtualMachineScaleSetExtensionProperties.t any)
}.
Arguments mk {any}.
Arguments Name {any}.
Arguments Properties {any}.
End VirtualMachineScaleSetExtension.

Module VirtualMachineScaleSetExtensionProfile.
Record t (any : Type) : Type := mk {
  Extensions : option (list (VirtualMachineScaleSetExtension.t any))
}.
Arguments mk {any}.
Arguments Extensions {any}.
End VirtualMachineScaleSetExtensionProfile.

Module VMGalleryApplication.
Record t : Type := mk {
  ConfigurationReference : option string;
  Order : option Z;
  PackageReferenceId : string;
  Tags : option string
}.
End VMGalleryApplication.

Module AutomaticOSUpgradePolicy.
Record t : Type := mk {
  DisableAutomaticRollback : option bool;
  EnableAutomaticOSUpgrade : option bool
}.
End AutomaticOSUpgradePolicy.

Module RollingUpgradePolicy.
Record t : Type := mk {
  EnableCrossZoneUpgrade : option bool;
  MaxBatchInstancePercent : option Z;
  MaxUnhealthyInstancePercent : option Z;
  MaxUnhealthyUpgradedInstancePercent : option Z;
  PauseTimeBetweenBatches : option string;
  PrioritizeUnhealthyInstances : option bool
}.
End RollingUpgradePolicy.

Module TerminateNotificationProfile.
Record t : Type := mk {
  Enable : option bool;
  NotBeforeTimeout : option string
}.
End TerminateNotificationProfile.

Module ScheduledEventsProfile.
Record t : Type := mk {
  TerminateNotificationProfile : option TerminateNotificationProfile.t
}.
End ScheduledEventsProfile.

Module AutomaticRepairsPolicy.
Record t : Type := mk {
  Enabled : option bool;
  GracePeriod : option string
}.
End AutomaticRepairsPolicy.

Module VirtualMachineScaleSetUpdateOSDisk.
Record t : Type := mk {
  Caching : option string;
  DiskSizeGB : option Z;
  ManagedDisk : option VirtualMachineScaleSetManagedDiskParameters.t;
  WriteAcceleratorEnabled : option bool
}.
End VirtualMachineScaleSetUpdateOSDisk.

Module VirtualMachineScaleSetUpdateNetworkConfigurationProperties.
Record t : Type := mk {
  DnsSettings : option VirtualMachineScaleSetNetworkConfigurationDnsSettings.t;
  EnableAcceleratedNetworking : option bool;
  EnableIPForwarding : option bool;
  IPConfigurations : option (list VirtualMachineScaleSetUpdateIPConfiguration.t);
  NetworkSecurityGroup : option SubResource.t;
  Primary : option bool
}.
End VirtualMachineScaleSetUpdateNetworkConfigurationProperties.

Module VirtualMachineScaleSetUpdateNetworkConfiguration.
Record t : Type := mk {
  Name : option string;
  Properties : option VirtualMachineScaleSetUpdateNetworkConfigurationProperties.t
}.
End VirtualMachineScaleSetUpdateNetworkConfiguration.

End virtualmachinescalesets.

(* ===================================================================== *)
(** ** Virtual machine scale set helpers *)
(* ===================================================================== *)

Module Compute.
Import Go GoNotations virtualmachinescalesets.

(** *** Schemas *)

(** A [pluginsdk.Schema], reduced to the shape of the values it admits: the
    type of the attribute and, for a list or set, of its elements; a
    [pluginsdk.Resource] is the map of its attributes. *)
Inductive schema : Type :=
| TypeBool
| TypeInt
| TypeString
| TypeList (elem : schema)
| TypeSet (elem : schema)
| Resource (attributes : list (string * schema)).

(** The configuration value [v] has the shape [s] describes; a resource
    value has every attribute of the schema, and no other key. *)
Fixpoint conforms (s : schema) (v : value) : bool :=
  match s, v with
  | TypeBool, VBool _ => true
  | TypeInt, VInt _ => true
  | TypeString, VString _ => true
  | TypeList elem, VList l => forallb (conforms elem) (elems l)
  | TypeSet elem, VSet l => forallb (conforms elem) l
  | Resource attributes, VMap m =>
      (size m =? length attributes)%nat &&
      (fix each (attrs : list (string * schema)) : bool :=
         match attrs with
         | [] => true
         | (k, s') :: attrs' =>
             match m !! k with
             | Some v' => conforms s' v'
             | None => false
             end && each attrs'
         end) attributes
  | _, _ => false
  end.

Definition VirtualMachineScaleSetAdditionalCapabilitiesSchema : schema :=
  TypeList (Resource [("ultra_ssd_enabled", TypeBool)]).

Definition VirtualMachineScaleSetScaleInPolicySchema : schema :=
  TypeList (Resource [("rule", TypeString);
                      ("force_deletion_enabled", TypeBool)]).

Definition VirtualMachineScaleSetSpotRestorePolicySchema : schema :=
  TypeList (Resource [("enabled", TypeBool);
                      ("timeout", TypeString)]).

Definition virtualMachineScaleSetPublicIPAddressSchema : schema :=
  TypeList (Resource [
    ("name", TypeString);
    ("domain_name_label", TypeString);
    ("idle_timeout_in_minutes", TypeInt);
    ("ip_tag", TypeList (Resource [("tag", TypeString); ("type", TypeString)]));
    ("version", TypeString);
    ("public_ip_prefix_id", TypeString)]).

Definition virtualMachineScaleSetIPConfigurationSchema : schema :=
  TypeList (Resource [
    ("name", TypeString);
    ("application_gateway_backend_address_pool_ids", TypeSet TypeString);
    ("application_security_group_ids", TypeSet TypeString);
    ("load_balancer_backend_address_pool_ids", TypeSet TypeString);
    ("load_balancer_inbound_nat_rules_ids", TypeSet TypeString);
    ("primary", TypeBool);
    ("public_ip_address", virtualMachineScaleSetPublicIPAddressSchema);
    ("subnet_id", TypeString);
    ("version", TypeString)]).

Definition VirtualMachineScaleSetDataDiskSchema : schema :=
  TypeList (Resource [
    ("name", TypeString);
    ("caching", TypeString);
    ("create_option", TypeString);
    ("disk_encryption_set_id", TypeString);
    ("disk_size_gb", TypeInt);
    ("lun", TypeInt);
    ("storage_account_type", TypeString);
    ("write_accelerator_enabled", TypeBool);
    ("ultra_ssd_disk_iops_read_write", TypeInt);
    ("ultra_ssd_disk_mbps_read_write", TypeInt)]).

(** The schema of the elements of a list or set attribute. *)
Definition Elem (s : schema) : schema :=
  match s with
  | TypeList elem | TypeSet elem => elem
  | _ => s
  end.

(** *** Additional capabilities, scale-in policy, spot restore policy *)

Definition ExpandVirtualMachineScaleSetAdditionalCapabilities (input : slice value)
  : outcome (option AdditionalCapabilities.t) :=
  let capabilities := AdditionalCapabilities.mk None in
  if (0 <? length (elems input))%nat then
    let! v0 := first input in
    let! raw := assertMap v0 in
    let! ultra := assertBool (index raw "ultra_ssd_enabled") in
    Return (Some (AdditionalCapabilities.mk (Some ultra)))
  else
    Return (Some capabilities).

Definition FlattenVirtualMachineScaleSetAdditionalCapabilities
           (input : option AdditionalCapabilities.t) : slice value :=
  match input with
  | None => mk_slice []
  | Some input =>
      let ultraSsdEnabled :=
        match AdditionalCapabilities.UltraSSDEnabled input with
        | Some b => b
        | None => false
        end in
      mk_slice [VMap {[ "ultra_ssd_enabled" := VBool ultraSsdEnabled ]}]
  end.

Definition ExpandVirtualMachineScaleSetScaleInPolicy (input : slice value)
  : outcome (option ScaleInPolicy.t) :=
  if (length (elems input) =? 0)%nat then Return None
  else
    let! v0 := first input in
    let! m := assertMap v0 in
    let! rule := assertString (index m "rule") in
    let! v0' := first input in
    let! m' := assertMap v0' in
    let! forceDeletion := assertBool (index m' "force_deletion_enabled") in
    Return (Some {| ScaleInPolicy.Rules := Some [rule];
                    ScaleInPolicy.ForceDeletion := Some forceDeletion |}).

Definition FlattenVirtualMachineScaleSetScaleInPolicy
           (input : option ScaleInPolicy.t) : slice value :=
  match input with
  | None => mk_slice []
  | Some input =>
      let rule :=
        match ScaleInPolicy.Rules input with
        | Some (r :: _) => r
        | _ => VirtualMachineScaleSetScaleInRulesDefault
        end in
      let forceDeletion :=
        match ScaleInPolicy.ForceDeletion input with
        | Some b => b
        | None => false
        end in
      mk_slice [VMap (<["rule" := VString rule]>
                       (<["force_deletion_enabled" := VBool forceDeletion]> ∅))]
  end.

Definition ExpandVirtualMachineScaleSetSpotRestorePolicy (input : slice value)
  : outcome (option SpotRestorePolicy.t) :=
  if (length (elems input) =? 0)%nat then Return None
  else
    let! v0 := first input in
    let! m := assertMap v0 in
    let! enabled := assertBool (index m "enabled") in
    let! v0' := first input in
    let! m' := assertMap v0' in
    let! timeout := assertString (index m' "timeout") in
    Return (Some {| SpotRestorePolicy.Enabled := Some enabled;
                    SpotRestorePolicy.RestoreTimeout := Some timeout |}).

Definition FlattenVirtualMachineScaleSetSpotRestorePolicy
           (input : option SpotRestorePolicy.t) : slice value :=
  match input with
  | None => nil_slice
  | Some input =>
      let enabled :=
        match SpotRestorePolicy.Enabled input with
        | Some b => b
        | None => false
        end in
      let restore :=
        match SpotRestorePolicy.RestoreTimeout input with
        | Some s => s
        | None => EmptyString
        end in
      mk_slice [VMap (<["enabled" := VBool enabled]>
                       (<["timeout" := VString restore]> ∅))]
  end.

(** *** Shapes of conforming values *)

(** Membership in a list given by its elements. *)
Ltac in_list := simpl; repeat (first [left; reflexivity | right]).

Lemma conforms_bool (v : value) :
  conforms TypeBool v = true -> exists b, v = VBool b.
Proof. destruct v; try discriminate. eauto. Qed.

Lemma conforms_int (v : value) :
  conforms TypeInt v = true -> exists n, v = VInt n.
Proof. destruct v; try discriminate. eauto. Qed.

Lemma conforms_string (v : value) :
  conforms TypeString v = true -> exists s, v = VString s.
Proof. destruct v; try discriminate. eauto. Qed.

Lemma conforms_lookup (attrs : list (string * schema)) (m : gmap string value)
      (k : string) (s : schema) :
  conforms (Resource attrs) (VMap m) = true ->
  In (k, s) attrs ->
  exists v, m !! k = Some v /\ conforms s v = true.
Proof.
  simpl. intros [_ H]%andb_true_iff. revert H.
  induction attrs as [|[k' s'] attrs IH]; intros H Hin; [destruct Hin|].
  apply andb_true_iff in H as [Hk H].
  destruct Hin as [[= -> ->]|Hin]; [|now apply IH].
  destruct (m !! k) as [v|]; [eauto | discriminate].
Qed.

Lemma conforms_resource_inv (attrs : list (string * schema)) (v : value) :
  conforms (Resource attrs) v = true ->
  exists m, v = VMap m /\ size m = length attrs.
Proof.
  destruct v; try discriminate. simpl.
  intros [Hs%Nat.eqb_eq _]%andb_true_iff. eauto.
Qed.

Lemma resource_of_one (m : gmap string value) (k : string) (v : value) :
  size m = 1 -> m !! k = Some v -> m = {[ k := v ]}.
Proof.
  intros Hs Hk. symmetry. apply map_subseteq_size_eq.
  - apply map_subseteq_spec. intros i x Hi.
    apply lookup_singleton_Some in Hi as [<- <-]. exact Hk.
  - rewrite map_size_singleton. lia.
Qed.

Lemma resource_of_two (m : gmap string value) (k1 k2 : string) (v1 v2 : value) :
  k1 <> k2 ->
  size m = 2 -> m !! k1 = Some v1 -> m !! k2 = Some v2 ->
  m = <[k1 := v1]> (<[k2 := v2]> ∅).
Proof.
  intros Hne Hs H1 H2. symmetry. apply map_subseteq_size_eq.
  - apply map_subseteq_spec. intros i x Hi.
    apply lookup_insert_Some in Hi as [[<- <-]|[_ Hi]]; [exact H1|].
    apply lookup_insert_Some in Hi as [[<- <-]|[_ Hi]]; [exact H2|].
    now rewrite lookup_empty in Hi.
  - rewrite !map_size_insert_None, map_size_empty; [lia | apply lookup_empty |].
    rewrite lookup_insert_ne by congruence. apply lookup_empty.
Qed.

Lemma conforms_list_one (elem : schema) (v : value) :
  conforms (TypeList elem) (VList (mk_slice [v])) = true ->
  conforms elem v = true.
Proof. simpl. now rewrite andb_true_r. Qed.

Lemma one_element_slice (x : slice value) :
  length (elems x) = 1 -> exists v, x = mk_slice [v].
Proof.
  destruct x as [|[|v [|w l]]]; try discriminate. eauto.
Qed.

(** C2. For a one-element configuration list [x] of the
    [additional_capabilities], [scale_in_policy] or [spot_restore_policy]
    block, expanding [x] and flattening the result returns [x]. *)
Theorem flatten_expand_stable (x : slice value) :
  length (elems x) = 1 ->
  (conforms VirtualMachineScaleSetAdditionalCapabilitiesSchema (VList x) = true ->
   (let! r := ExpandVirtualMachineScaleSetAdditionalCapabilities x in
    Return (FlattenVirtualMachineScaleSetAdditionalCapabilities r)) = Return x) /\
  (conforms VirtualMachineScaleSetScaleInPolicySchema (VList x) = true ->
   (let! r := ExpandVirtualMachineScaleSetScaleInPolicy x in
    Return (FlattenVirtualMachineScaleSetScaleInPolicy r)) = Return x) /\
  (conforms VirtualMachineScaleSetSpotRestorePolicySchema (VList x) = true ->
   (let! r := ExpandVirtualMachineScaleSetSpotRestorePolicy x in
    Return (FlattenVirtualMachineScaleSetSpotRestorePolicy r)) = Return x).
Proof.
  intros [v ->]%one_element_slice.
  repeat split; intros Hc%conforms_list_one.
  - destruct (conforms_resource_inv _ _ Hc) as (m & -> & Hs).
    destruct (conforms_lookup _ _ "ultra_ssd_enabled" TypeBool Hc)
      as (v1 & H1 & [b ->]%conforms_bool); [in_list|].
    rewrite (resource_of_one _ _ _ Hs H1).
    unfold ExpandVirtualMachineScaleSetAdditionalCapabilities, index. simpl.
    rewrite lookup_singleton_eq. reflexivity.
  - destruct (conforms_resource_inv _ _ Hc) as (m & -> & Hs).
    destruct (conforms_lookup _ _ "rule" TypeString Hc)
      as (v1 & H1 & [rule ->]%conforms_string); [in_list|].
    destruct (conforms_lookup _ _ "force_deletion_enabled" TypeBool Hc)
      as (v2 & H2 & [b ->]%conforms_bool); [in_list|].
    rewrite (resource_of_two m "rule" "force_deletion_enabled" _ _
               ltac:(intro; discriminate) Hs H1 H2).
    unfold ExpandVirtualMachineScaleSetScaleInPolicy, index. simpl.
    rewrite lookup_insert_eq. simpl.
    rewrite lookup_insert_ne, lookup_insert_eq by discriminate. reflexivity.
  - destruct (conforms_resource_inv _ _ Hc) as (m & -> & Hs).
    destruct (conforms_lookup _ _ "enabled" TypeBool Hc)
      as (v1 & H1 & [b ->]%conforms_bool); [in_list|].
    destruct (conforms_lookup _ _ "timeout" TypeString Hc)
      as (v2 & H2 & [timeout ->]%conforms_string); [in_list|].
    rewrite (resource_of_two m "enabled" "timeout" _ _
               ltac:(intro; discriminate) Hs H1 H2).
    unfold ExpandVirtualMachineScaleSetSpotRestorePolicy, index. simpl.
    rewrite lookup_insert_eq. simpl.
    rewrite lookup_insert_ne, lookup_insert_eq by discriminate. reflexivity.
Qed.

Definition exampleAdditionalCapabilities : slice value :=
  mk_slice [VMap {[ "ultra_ssd_enabled" := VBool true ]}].

Definition exampleScaleInPolicy : slice value :=
  mk_slice [VMap (<["rule" := VString "OldestVM"]>
                   (<["force_deletion_enabled" := VBool true]> ∅))].

Definition exampleSpotRestorePolicy : slice value :=
  mk_slice [VMap (<["enabled" := VBool true]>
                   (<["timeout" := VString "PT30M"]> ∅))].

Lemma flatten_expand_stable_witness :
  (let! r := ExpandVirtualMachineScaleSetAdditionalCapabilities
               exampleAdditionalCapabilities in
   Return (FlattenVirtualMachineScaleSetAdditionalCapabilities r))
  = Return exampleAdditionalCapabilities
  /\
  (let! r := ExpandVirtualMachineScaleSetScaleInPolicy exampleScaleInPolicy in
   Return (FlattenVirtualMachineScaleSetScaleInPolicy r))
  = Return exampleScaleInPolicy
  /\
  (let! r := ExpandVirtualMachineScaleSetSpotRestorePolicy exampleSpotRestorePolicy in
   Return (FlattenVirtualMachineScaleSetSpotRestorePolicy r))
  = Return exampleSpotRestorePolicy.
Proof.
  split; [|split].
  - apply (proj1 (flatten_expand_stable exampleAdditionalCapabilities eq_refl)).
    vm_compute. reflexivity.
  - apply (proj1 (proj2 (flatten_expand_stable exampleScaleInPolicy eq_refl))).
    vm_compute. reflexivity.
  - apply (proj2 (proj2 (flatten_expand_stable exampleSpotRestorePolicy eq_refl))).
    vm_compute. reflexivity.
Defined.

(** *** Helpers defined elsewhere in the provider *)

Section Helpers.

(** [expandIDsToSubResources], of the same package: the sub-resources
    named by a list of IDs. *)
Variable expandIDsToSubResources : slice value -> outcome (option (list SubResource.t)).

(** [flattenSubResourcesToIDs], of the same package. *)
Variable flattenSubResourcesToIDs : option (list SubResource.t) -> slice value.

(** [utils.FlattenStringSlice] *)
Variable FlattenStringSlice : option (list string) -> slice value.

(** [flattenProtectedSettingsFromKeyVault], of the same package. *)
Variable flattenProtectedSettingsFromKeyVault :
  option KeyVaultSecretReference.t -> slice value.

(** A decoded JSON object, the [map[string]interface{}] that
    [pluginsdk.ExpandJsonFromString] returns and
    [pluginsdk.FlattenJsonToString] serialises. *)
Variable jsonObject : Type.
Variable ExpandJsonFromString : string -> outcome jsonObject.
Variable FlattenJsonToString : jsonObject -> outcome string.

(** [pluginsdk.HashString] *)
Variable HashString : string -> Z.

(** [fmt.Sprintf("%s", v)] for a value of any type. *)
Variable formatS : value -> string.

(** *** IP configurations *)

Definition ipv6PrimaryUnsupported : string :=
  "an IPv6 Primary IP Configuration is unsupported - instead add a IPv4 IP Configuration as the Primary and make the IPv6 IP Configuration the secondary".

Definition expandVirtualMachineScaleSetPublicIPAddress (raw : gmap string value)
  : outcome (option VirtualMachineScaleSetPublicIPAddressConfiguration.t) :=
  let! ipTagsRaw := assertList (index raw "ip_tag") in
  let! ipTags :=
    forEach (fun ipTags ipTagV =>
               let! ipTagRaw := assertMap ipTagV in
               let! tag := assertString (index ipTagRaw "tag") in
               let! type := assertString (index ipTagRaw "type") in
               Return (ipTags ++ [ {| VirtualMachineScaleSetIPTag.Tag := Some tag;
                                      VirtualMachineScaleSetIPTag.IPTagType := Some type |} ]))
            (elems ipTagsRaw) [] in
  let! name := assertString (index raw "name") in
  let! version := assertString (index raw "version") in
  let! domainNameLabel := assertString (index raw "domain_name_label") in
  let dnsSettings :=
    if negb (String.eqb domainNameLabel "") then
      Some {| VirtualMachineScaleSetPublicIPAddressConfigurationDnsSettings.DomainNameLabel :=
                domainNameLabel |}
    else None in
  let! idleTimeout := assertInt (index raw "idle_timeout_in_minutes") in
  let idleTimeoutInMinutes :=
    if (0 <? idleTimeout)%Z then Some idleTimeout else None in
  let! publicIPPrefixID := assertString (index raw "public_ip_prefix_id") in
  let publicIPPrefix :=
    if negb (String.eqb publicIPPrefixID "") then
      Some {| SubResource.Id := Some publicIPPrefixID |}
    else None in
  Return (Some {|
    VirtualMachineScaleSetPublicIPAddressConfiguration.Name := name;
    VirtualMachineScaleSetPublicIPAddressConfiguration.Properties := Some {|
      VirtualMachineScaleSetPublicIPAddressConfigurationProperties.DnsSettings := dnsSettings;
      VirtualMachineScaleSetPublicIPAddressConfigurationProperties.IPTags := Some ipTags;
      VirtualMachineScaleSetPublicIPAddressConfigurationProperties.IdleTimeoutInMinutes :=
        idleTimeoutInMinutes;
      VirtualMachineScaleSetPublicIPAddressConfigurationProperties.PublicIPAddressVersion :=
        Some version;
      VirtualMachineScaleSetPublicIPAddressConfigurationProperties.PublicIPPrefix :=
        publicIPPrefix |} |}).

Definition expandVirtualMachineScaleSetIPConfiguration (raw : gmap string value)
  : outcome (option VirtualMachineScaleSetIPConfiguration.t) :=
  let! primary := assertBool (index raw "primary") in
  let! version := assertString (index raw "version") in
  if primary && String.eqb version IPVersionIPvSix then
    Error ipv6PrimaryUnsupported
  else
    let! name := assertString (index raw "name") in
    let! agwSet := assertSet (index raw "application_gateway_backend_address_pool_ids") in
    let! applicationGatewayBackendAddressPools :=
      expandIDsToSubResources (mk_slice agwSet) in
    let! asgSet := assertSet (index raw "application_security_group_ids") in
    let! applicationSecurityGroups := expandIDsToSubResources (mk_slice asgSet) in
    let! lbSet := assertSet (index raw "load_balancer_backend_address_pool_ids") in
    let! loadBalancerBackendAddressPools := expandIDsToSubResources (mk_slice lbSet) in
    let! natSet := assertSet (index raw "load_balancer_inbound_nat_rules_ids") in
    let! loadBalancerInboundNatPools := expandIDsToSubResources (mk_slice natSet) in
    let! subnetId := assertString (index raw "subnet_id") in
    let subnet :=
      if negb (String.eqb subnetId "") then
        Some {| ApiEntityReference.Id := Some subnetId |}
      else None in
    let! publicIPConfigsRaw := assertList (index raw "public_ip_address") in
    let! publicIPAddressConfiguration :=
      if (0 <? length (elems publicIPConfigsRaw))%nat then
        let! v0 := first publicIPConfigsRaw in
        let! publicIPConfigRaw := assertMap v0 in
        expandVirtualMachineScaleSetPublicIPAddress publicIPConfigRaw
      else Return None in
    Return (Some {|
      VirtualMachineScaleSetIPConfiguration.Name := name;
      VirtualMachineScaleSetIPConfiguration.Properties := Some {|
        VirtualMachineScaleSetIPConfigurationProperties.ApplicationGatewayBackendAddressPools :=
          applicationGatewayBackendAddressPools;
        VirtualMachineScaleSetIPConfigurationProperties.ApplicationSecurityGroups :=
          applicationSecurityGroups;
        VirtualMachineScaleSetIPConfigurationProperties.LoadBalancerBackendAddressPools :=
          loadBalancerBackendAddressPools;
        VirtualMachineScaleSetIPConfigurationProperties.LoadBalancerInboundNatPools :=
          loadBalancerInboundNatPools;
        VirtualMachineScaleSetIPConfigurationProperties.Primary := Some primary;
        VirtualMachineScaleSetIPConfigurationProperties.PrivateIPAddressVersion :=
          Some version;
        VirtualMachineScaleSetIPConfigurationProperties.PublicIPAddressConfiguration :=
          publicIPAddressConfiguration;
        VirtualMachineScaleSetIPConfigurationProperties.Subnet := subnet |} |}).

Definition expandVirtualMachineScaleSetPublicIPAddressUpdate (raw : gmap string value)
  : outcome (option VirtualMachineScaleSetUpdatePublicIPAddressConfiguration.t) :=
  let! name := assertString (index raw "name") in
  let! domainNameLabel := assertString (index raw "domain_name_label") in
  let dnsSettings :=
    if negb (String.eqb domainNameLabel "") then
      Some {| VirtualMachineScaleSetPublicIPAddressConfigurationDnsSettings.DomainNameLabel :=
                domainNameLabel |}
    else None in
  let! idleTimeout := assertInt (index raw "idle_timeout_in_minutes") in
  let idleTimeoutInMinutes :=
    if (0 <? idleTimeout)%Z then Some idleTimeout else None in
  Return (Some {|
    VirtualMachineScaleSetUpdatePublicIPAddressConfiguration.Name := Some name;
    VirtualMachineScaleSetUpdatePublicIPAddressConfiguration.Properties := Some {|
      VirtualMachineScaleSetUpdatePublicIPAddressConfigurationProperties.DnsSettings :=
        dnsSettings;
      VirtualMachineScaleSetUpdatePublicIPAddressConfigurationProperties.IdleTimeoutInMinutes :=
        idleTimeoutInMinutes |} |}).

Definition expandVirtualMachineScaleSetIPConfigurationUpdate (raw : gmap string value)
  : outcome (option VirtualMachineScaleSetUpdateIPConfiguration.t) :=
  let! applicationGatewayBackendAddressPoolIdsRaw :=
    assertSet (index raw "application_gateway_backend_address_pool_ids") in
  let! applicationGatewayBackendAddressPoolIds :=
    expandIDsToSubResources (mk_slice applicationGatewayBackendAddressPoolIdsRaw) in
  let! applicationSecurityGroupIdsRaw :=
    assertSet (index raw "application_security_group_ids") in
  let! applicationSecurityGroupIds :=
    expandIDsToSubResources (mk_slice applicationSecurityGroupIdsRaw) in
  let! loadBalancerBackendAddressPoolIdsRaw :=
    assertSet (index raw "load_balancer_backend_address_pool_ids") in
  let! loadBalancerBackendAddressPoolIds :=
    expandIDsToSubResources (mk_slice loadBalancerBackendAddressPoolIdsRaw) in
  let! loadBalancerInboundNatPoolIdsRaw :=
    assertSet (index raw "load_balancer_inbound_nat_rules_ids") in
  let! loadBalancerInboundNatPoolIds :=
    expandIDsToSubResources (mk_slice loadBalancerInboundNatPoolIdsRaw) in
  let! primary := assertBool (index raw "primary") in
  let! version := assertString (index raw "version") in
  if primary && String.eqb version IPVersionIPvSix then
    Error ipv6PrimaryUnsupported
  else
    let! name := assertString (index raw "name") in
    let! subnetId := assertString (index raw "subnet_id") in
    let subnet :=
      if negb (String.eqb subnetId "") then
        Some {| ApiEntityReference.Id := Some subnetId |}
      else None in
    let! publicIPConfigsRaw := assertList (index raw "public_ip_address") in
    let! publicIPAddressConfiguration :=
      if (0 <? length (elems publicIPConfigsRaw))%nat then
        let! v0 := first publicIPConfigsRaw in
        let! publicIPConfigRaw := assertMap v0 in
        expandVirtualMachineScaleSetPublicIPAddressUpdate publicIPConfigRaw
      else Return None in
    Return (Some {|
      VirtualMachineScaleSetUpdateIPConfiguration.Name := Some name;
      VirtualMachineScaleSetUpdateIPConfiguration.Properties := Some {|
        VirtualMachineScaleSetUpdateIPConfigurationProperties.ApplicationGatewayBackendAddressPools :=
          applicationGatewayBackendAddressPoolIds;
        VirtualMachineScaleSetUpdateIPConfigurationProperties.ApplicationSecurityGroups :=
          applicationSecurityGroupIds;
        VirtualMachineScaleSetUpdateIPConfigurationProperties.LoadBalancerBackendAddressPools :=
          loadBalancerBackendAddressPoolIds;
        VirtualMachineScaleSetUpdateIPConfigurationProperties.LoadBalancerInboundNatPools :=
          loadBalancerInboundNatPoolIds;
        VirtualMachineScaleSetUpdateIPConfigurationProperties.Primary := Some primary;
        VirtualMachineScaleSetUpdateIPConfigurationProperties.PrivateIPAddressVersion :=
          Some version;
        VirtualMachineScaleSetUpdateIPConfigurationProperties.PublicIPAddressConfiguration :=
          publicIPAddressConfiguration;
        VirtualMachineScaleSetUpdateIPConfigurationProperties.Subnet := subnet |} |}).

Lemma index_lookup (m : gmap string value) (k : string) (v : value) :
  m !! k = Some v -> index m k = v.
Proof. unfold index. now intros ->. Qed.

(** The value of attribute [k] of shape [s] in a conforming resource. *)
Ltac attribute Hc k s v H :=
  let Hk := fresh "Hk" in
  destruct (conforms_lookup _ _ k s Hc) as (v & Hk & H);
  [in_list | apply index_lookup in Hk; rewrite ?Hk].

Lemma expand_ip_tags_returns (l : list value) :
  forallb (conforms (Resource [("tag", TypeString); ("type", TypeString)])) l = true ->
  forall acc,
  exists ipTags,
    forEach (fun ipTags ipTagV =>
               let! ipTagRaw := assertMap ipTagV in
               let! tag := assertString (index ipTagRaw "tag") in
               let! type := assertString (index ipTagRaw "type") in
               Return (ipTags ++ [ {| VirtualMachineScaleSetIPTag.Tag := Some tag;
                                      VirtualMachineScaleSetIPTag.IPTagType := Some type |} ]))
            l acc = Return ipTags.
Proof.
  induction l as [|v l IH]; intros H acc; [simpl; eauto|].
  apply andb_true_iff in H as [Hv Hl].
  destruct (conforms_resource_inv _ _ Hv) as (m & -> & _).
  attribute Hv "tag" TypeString tag Htag.
  attribute Hv "type" TypeString type Htype.
  apply conforms_string in Htag as [t ->], Htype as [ty ->].
  cbn [forEach]. cbn [assertMap bind]. rewrite Hk, Hk0. cbn [assertString bind].
  apply IH, Hl.
Qed.

Lemma expandVirtualMachineScaleSetPublicIPAddress_returns (v : value) :
  conforms (Elem virtualMachineScaleSetPublicIPAddressSchema) v = true ->
  exists m cfg, v = VMap m
    /\ expandVirtualMachineScaleSetPublicIPAddress m = Return (Some cfg).
Proof.
  intros Hc. destruct (conforms_resource_inv _ _ Hc) as (m & -> & _).
  exists m. unfold expandVirtualMachineScaleSetPublicIPAddress.
  attribute Hc "ip_tag"
    (TypeList (Resource [("tag", TypeString); ("type", TypeString)])) tags Htags.
  attribute Hc "name" TypeString name Hname.
  attribute Hc "version" TypeString version Hversion.
  attribute Hc "domain_name_label" TypeString label Hlabel.
  attribute Hc "idle_timeout_in_minutes" TypeInt idle Hidle.
  attribute Hc "public_ip_prefix_id" TypeString pfx Hprefix.
  apply conforms_string in Hname as [? ->], Hversion as [? ->],
        Hlabel as [? ->], Hprefix as [? ->].
  apply conforms_int in Hidle as [? ->].
  destruct tags as [| | | | | |l| |]; try discriminate.
  cbn [assertList bind].
  destruct (expand_ip_tags_returns (elems l) Htags []) as [ipTags ->].
  cbn [bind assertString assertInt]. eauto.
Qed.

Lemma expandVirtualMachineScaleSetPublicIPAddressUpdate_returns (v : value) :
  conforms (Elem virtualMachineScaleSetPublicIPAddressSchema) v = true ->
  exists m cfg, v = VMap m
    /\ expandVirtualMachineScaleSetPublicIPAddressUpdate m = Return (Some cfg).
Proof.
  intros Hc. destruct (conforms_resource_inv _ _ Hc) as (m & -> & _).
  exists m. unfold expandVirtualMachineScaleSetPublicIPAddressUpdate.
  attribute Hc "name" TypeString name Hname.
  attribute Hc "domain_name_label" TypeString label Hlabel.
  attribute Hc "idle_timeout_in_minutes" TypeInt idle Hidle.
  apply conforms_string in Hname as [? ->], Hlabel as [? ->].
  apply conforms_int in Hidle as [? ->].
  cbn [bind assertString assertInt]. eauto.
Qed.

Lemma first_public_ip_returns {A : Type}
      (expand : gmap string value -> outcome (option A)) (l : slice value) :
  (forall v, conforms (Elem virtualMachineScaleSetPublicIPAddressSchema) v = true ->
             exists m cfg, v = VMap m /\ expand m = Return (Some cfg)) ->
  forallb (conforms (Elem virtualMachineScaleSetPublicIPAddressSchema)) (elems l) = true ->
  exists r,
    (if (0 <? length (elems l))%nat then
       let! v0 := first l in
       let! publicIPConfigRaw := assertMap v0 in
       expand publicIPConfigRaw
     else Return None) = Return r.
Proof.
  intros Hexp Hl. unfold first.
  destruct (elems l) as [|v vs]; [simpl; eauto|].
  apply andb_true_iff in Hl as [Hv _].
  destruct (Hexp v Hv) as (m & cfg & -> & E).
  simpl. rewrite E. eauto.
Qed.

(** C5. For an IP configuration with [primary] true and [version] IPv6,
    [expandVirtualMachineScaleSetIPConfiguration] and
    [expandVirtualMachineScaleSetIPConfigurationUpdate] return an error;
    for one with [primary] false or a version other than IPv6 (IPv4) they
    return a value and no error. *)
Theorem ipv6_primary_ip_configuration_rejected (raw : gmap string value) :
  conforms (Elem virtualMachineScaleSetIPConfigurationSchema) (VMap raw) = true ->
  (forall ids, forallb (conforms TypeString) ids = true ->
               exists r, expandIDsToSubResources (mk_slice ids) = Return r) ->
  (index raw "primary" = VBool true ->
   index raw "version" = VString IPVersionIPvSix ->
   expandVirtualMachineScaleSetIPConfiguration raw = Error ipv6PrimaryUnsupported
   /\ expandVirtualMachineScaleSetIPConfigurationUpdate raw
      = Error ipv6PrimaryUnsupported)
  /\
  (index raw "primary" = VBool false
   \/ index raw "version" <> VString IPVersionIPvSix ->
   (exists cfg, expandVirtualMachineScaleSetIPConfiguration raw = Return (Some cfg))
   /\ (exists cfg,
         expandVirtualMachineScaleSetIPConfigurationUpdate raw = Return (Some cfg))).
Proof.
  intros Hc Hids.
  unfold expandVirtualMachineScaleSetIPConfiguration,
    expandVirtualMachineScaleSetIPConfigurationUpdate.
  attribute Hc "name" TypeString name Hname.
  attribute Hc "application_gateway_backend_address_pool_ids"
    (TypeSet TypeString) agw Hagw.
  attribute Hc "application_security_group_ids" (TypeSet TypeString) asg Hasg.
  attribute Hc "load_balancer_backend_address_pool_ids" (TypeSet TypeString) lb Hlb.
  attribute Hc "load_balancer_inbound_nat_rules_ids" (TypeSet TypeString) natr Hnat.
  attribute Hc "primary" TypeBool primary Hprimary.
  attribute Hc "public_ip_address" virtualMachineScaleSetPublicIPAddressSchema
    pips Hpips.
  attribute Hc "subnet_id" TypeString subnet Hsubnet.
  attribute Hc "version" TypeString version Hversion.
  apply conforms_string in Hname as [? ->], Hsubnet as [? ->],
        Hversion as [ver ->].
  apply conforms_bool in Hprimary as [p ->].
  destruct agw as [| | | | | | |agw|]; try discriminate.
  destruct asg as [| | | | | | |asg|]; try discriminate.
  destruct lb as [| | | | | | |lb|]; try discriminate.
  destruct natr as [| | | | | | |natr|]; try discriminate.
  destruct pips as [| | | | | |pips| |]; try discriminate.
  destruct (Hids agw Hagw) as [r1 E1], (Hids asg Hasg) as [r2 E2],
           (Hids lb Hlb) as [r3 E3], (Hids natr Hnat) as [r4 E4].
  destruct (first_public_ip_returns _ pips
              expandVirtualMachineScaleSetPublicIPAddress_returns Hpips)
    as [c1 Ec1].
  destruct (first_public_ip_returns _ pips
              expandVirtualMachineScaleSetPublicIPAddressUpdate_returns Hpips)
    as [c2 Ec2].
  split.
  - intros [= ->] [= ->].
    repeat (cbn [bind assertBool assertString assertSet assertList];
            rewrite ?E1, ?E2, ?E3, ?E4).
    split; reflexivity.
  - intros Hok.
    assert (p && String.eqb ver IPVersionIPvSix = false) as Hcheck.
    { destruct Hok as [[= ->]|Hv]; [reflexivity|].
      destruct p; [|reflexivity]. simpl.
      apply String.eqb_neq. congruence. }
    repeat (cbn [bind assertBool assertString assertSet assertList];
            rewrite ?E1, ?E2, ?E3, ?E4, ?Hcheck, ?Ec1, ?Ec2).
    eauto.
Qed.

(** *** Data disks *)

Definition ultraSsdDiskIopsUnsupported : string :=
  "`ultra_ssd_disk_iops_read_write` can only be set when `storage_account_type` is set to `PremiumV2_LRS` or `UltraSSD_LRS`".

Definition ultraSsdDiskMbpsUnsupported : string :=
  "`ultra_ssd_disk_mbps_read_write` can only be set when `storage_account_type` is set to `PremiumV2_LRS` or `UltraSSD_LRS`".

(** [raw[k]] read as [v, ok := raw[k]; ok && v.(int) > 0]: the value when
    it is positive, zero otherwise. *)
Definition positiveInt (raw : gmap string value) (k : string) : outcome Z :=
  let '(v, ok) := indexOk raw k in
  if ok then
    let! n := assertInt v in
    Return (if (0 <? n)%Z then n else 0%Z)
  else Return 0%Z.

(** [name != nil && name.(string) != ""]: the string to set, if any. *)
Definition nonEmptyString (name : value) : outcome (option string) :=
  if isNil name then Return None
  else
    let! s := assertString name in
    Return (if negb (String.eqb s "") then Some s else None).

(** The body of the loop of [ExpandVirtualMachineScaleSetDataDisk]: the
    disk of one element of the input. *)
Definition expandDataDisk (ultraSSDEnabled : bool) (v : value)
  : outcome VirtualMachineScaleSetDataDisk.t :=
  let! raw := assertMap v in
  let! storageAccountType := assertString (index raw "storage_account_type") in
  let! caching := assertString (index raw "caching") in
  let! diskSizeGB := assertInt (index raw "disk_size_gb") in
  let! lun := assertInt (index raw "lun") in
  let! writeAcceleratorEnabled := assertBool (index raw "write_accelerator_enabled") in
  let! createOption := assertString (index raw "create_option") in
  let! diskName := nonEmptyString (index raw "name") in
  let! id := assertString (index raw "disk_encryption_set_id") in
  let diskEncryptionSet :=
    if negb (String.eqb id "") then Some {| SubResource.Id := Some id |} else None in
  let! iops := positiveInt raw "ultra_ssd_disk_iops_read_write" in
  if (0 <? iops)%Z && negb ultraSSDEnabled
     && negb (String.eqb storageAccountType StorageAccountTypesPremiumVTwoLRS)
  then Error ultraSsdDiskIopsUnsupported
  else
    let! mbps := positiveInt raw "ultra_ssd_disk_mbps_read_write" in
    if (0 <? mbps)%Z && negb ultraSSDEnabled
       && negb (String.eqb storageAccountType StorageAccountTypesPremiumVTwoLRS)
    then Error ultraSsdDiskMbpsUnsupported
    else
      Return {|
        VirtualMachineScaleSetDataDisk.Caching := Some caching;
        VirtualMachineScaleSetDataDisk.CreateOption := createOption;
        (* Do not set value unless value is greater than 0 - issue 15516 *)
        VirtualMachineScaleSetDataDisk.DiskIOPSReadWrite :=
          if (0 <? iops)%Z then Some iops else None;
        VirtualMachineScaleSetDataDisk.DiskMBpsReadWrite :=
          if (0 <? mbps)%Z then Some mbps else None;
        VirtualMachineScaleSetDataDisk.DiskSizeGB := Some diskSizeGB;
        VirtualMachineScaleSetDataDisk.Lun := lun;
        VirtualMachineScaleSetDataDisk.ManagedDisk := Some {|
          VirtualMachineScaleSetManagedDiskParameters.DiskEncryptionSet :=
            diskEncryptionSet;
          VirtualMachineScaleSetManagedDiskParameters.SecurityProfile := None;
          VirtualMachineScaleSetManagedDiskParameters.StorageAccountType :=
            Some storageAccountType |};
        VirtualMachineScaleSetDataDisk.Name := diskName;
        VirtualMachineScaleSetDataDisk.WriteAcceleratorEnabled :=
          Some writeAcceleratorEnabled |}.

Definition ExpandVirtualMachineScaleSetDataDisk
           (input : slice value) (ultraSSDEnabled : bool)
  : outcome (option (list VirtualMachineScaleSetDataDisk.t)) :=
  let! disks :=
    forEach (fun disks v =>
               let! disk := expandDataDisk ultraSSDEnabled v in
               Return (disks ++ [disk]))
            (elems input) [] in
  Return (Some disks).

(** What the type assertions of the loop need of an element: the
    attributes read unconditionally are there with their types; [name] is
    absent, nil or a string; the two throughput attributes are absent or
    integers. *)
Definition dataDiskTyped (v : value) : bool :=
  match v with
  | VMap raw =>
      conforms TypeString (index raw "storage_account_type")
      && conforms TypeString (index raw "caching")
      && conforms TypeInt (index raw "disk_size_gb")
      && conforms TypeInt (index raw "lun")
      && conforms TypeBool (index raw "write_accelerator_enabled")
      && conforms TypeString (index raw "create_option")
      && (isNil (index raw "name") || conforms TypeString (index raw "name"))
      && conforms TypeString (index raw "disk_encryption_set_id")
      && match raw !! "ultra_ssd_disk_iops_read_write" with
         | Some v' => conforms TypeInt v'
         | None => true
         end
      && match raw !! "ultra_ssd_disk_mbps_read_write" with
         | Some v' => conforms TypeInt v'
         | None => true
         end
  | _ => false
  end.

(** The integer attribute [k] of a disk, zero when it is not set. *)
Definition intAttribute (v : value) (k : string) : Z :=
  match v with
  | VMap raw => match raw !! k with Some (VInt n) => n | _ => 0%Z end
  | _ => 0%Z
  end.

Definition stringAttribute (v : value) (k : string) : string :=
  match v with
  | VMap raw => match raw !! k with Some (VString s) => s | _ => EmptyString end
  | _ => EmptyString
  end.

(** The disk asks for a throughput setting that neither the
    [ultraSSDEnabled] argument nor its storage account type allows. *)
Definition throughputUnsupported (ultraSSDEnabled : bool) (v : value) : bool :=
  ((0 <? intAttribute v "ultra_ssd_disk_iops_read_write")%Z
   || (0 <? intAttribute v "ultra_ssd_disk_mbps_read_write")%Z)
  && negb ultraSSDEnabled
  && negb (String.eqb (stringAttribute v "storage_account_type") "PremiumV2_LRS").

(** The throughput field of the expanded disk: set only for a value
    greater than zero. *)
Definition setWhenPositive (n : Z) : option Z :=
  if (0 <? n)%Z then Some n else None.

Lemma positiveInt_typed (raw : gmap string value) (k : string) :
  match raw !! k with Some v' => conforms TypeInt v' | None => true end = true ->
  positiveInt raw k
  = Return (if (0 <? intAttribute (VMap raw) k)%Z
            then intAttribute (VMap raw) k else 0%Z).
Proof.
  unfold positiveInt, indexOk, intAttribute.
  destruct (raw !! k) as [[]|]; try discriminate; reflexivity.
Qed.

Lemma positive_or_zero (n : Z) :
  (0 <? (if (0 <? n)%Z then n else 0%Z))%Z = (0 <? n)%Z.
Proof. destruct (0 <? n)%Z eqn:E; [exact E | reflexivity]. Qed.

Lemma expandDataDisk_typed (ultraSSDEnabled : bool) (v : value) :
  dataDiskTyped v = true ->
  if throughputUnsupported ultraSSDEnabled v
  then exists msg, expandDataDisk ultraSSDEnabled v = Error msg
  else exists disk,
      expandDataDisk ultraSSDEnabled v = Return disk
      /\ VirtualMachineScaleSetDataDisk.DiskIOPSReadWrite disk
         = setWhenPositive (intAttribute v "ultra_ssd_disk_iops_read_write")
      /\ VirtualMachineScaleSetDataDisk.DiskMBpsReadWrite disk
         = setWhenPositive (intAttribute v "ultra_ssd_disk_mbps_read_write").
Proof.
  destruct v as [| | | | | | | |raw]; try discriminate.
  unfold dataDiskTyped. rewrite !andb_true_iff.
  intros (((((((((Hsat & Hcaching) & Hsize) & Hlun) & Hwae) & Hco) & Hname) & Hid)
            & Hiops) & Hmbps).
  unfold expandDataDisk, throughputUnsupported, stringAttribute.
  cbn [bind assertMap].
  rewrite (positiveInt_typed _ _ Hiops), (positiveInt_typed _ _ Hmbps).
  unfold index in *.
  destruct (raw !! "storage_account_type") as [[]|]; try discriminate Hsat.
  destruct (raw !! "caching") as [[]|]; try discriminate Hcaching.
  destruct (raw !! "disk_size_gb") as [[]|]; try discriminate Hsize.
  destruct (raw !! "lun") as [[]|]; try discriminate Hlun.
  destruct (raw !! "write_accelerator_enabled") as [[]|]; try discriminate Hwae.
  destruct (raw !! "create_option") as [[]|]; try discriminate Hco.
  destruct (raw !! "disk_encryption_set_id") as [[]|]; try discriminate Hid.
  assert (exists diskName,
             nonEmptyString match raw !! "name" with Some v => v | None => VNil end
             = Return diskName) as [diskName ->].
  { unfold nonEmptyString.
    destruct (raw !! "name") as [[]|]; try discriminate Hname; simpl; eauto. }
  cbn [bind assertMap assertString assertInt assertBool].
  rewrite !positive_or_zero.
  change (String.eqb s StorageAccountTypesPremiumVTwoLRS)
    with (String.eqb s "PremiumV2_LRS").
  set (iops := intAttribute (VMap raw) "ultra_ssd_disk_iops_read_write").
  set (mbps := intAttribute (VMap raw) "ultra_ssd_disk_mbps_read_write").
  unfold setWhenPositive.
  destruct (0 <? iops)%Z eqn:Ei, (0 <? mbps)%Z eqn:Em, ultraSSDEnabled,
           (String.eqb s "PremiumV2_LRS"); simpl; eauto.
Qed.

Lemma expand_data_disks_loop (ultraSSDEnabled : bool) (l : list value) :
  forallb dataDiskTyped l = true ->
  forall acc,
    if existsb (throughputUnsupported ultraSSDEnabled) l
    then exists msg,
        forEach (fun disks v =>
                   let! disk := expandDataDisk ultraSSDEnabled v in
                   Return (disks ++ [disk])) l acc = Error msg
    else exists disks,
        forEach (fun disks v =>
                   let! disk := expandDataDisk ultraSSDEnabled v in
                   Return (disks ++ [disk])) l acc = Return (acc ++ disks)
        /\ Forall2 (fun v disk =>
                      VirtualMachineScaleSetDataDisk.DiskIOPSReadWrite disk
                      = setWhenPositive (intAttribute v "ultra_ssd_disk_iops_read_write")
                      /\ VirtualMachineScaleSetDataDisk.DiskMBpsReadWrite disk
                         = setWhenPositive
                             (intAttribute v "ultra_ssd_disk_mbps_read_write"))
                   l disks.
Proof.
  induction l as [|v l IH]; intros Ht acc.
  - simpl. exists []. rewrite app_nil_r. split; [reflexivity | constructor].
  - simpl in Ht. apply andb_true_iff in Ht as [Hv Hl].
    pose proof (expandDataDisk_typed ultraSSDEnabled v Hv) as Hd.
    cbn [existsb forEach].
    destruct (throughputUnsupported ultraSSDEnabled v).
    + destruct Hd as [msg ->]. simpl. eauto.
    + destruct Hd as (disk & -> & Hi & Hm). cbn [bind orb].
      specialize (IH Hl (acc ++ [disk])).
      destruct (existsb (throughputUnsupported ultraSSDEnabled) l).
      * exact IH.
      * destruct IH as (disks & -> & Hall).
        exists (disk :: disks). split.
        -- now rewrite <- app_assoc.
        -- constructor; auto.
Qed.

(** C6. On an input whose elements carry the attributes the function
    reads, [ExpandVirtualMachineScaleSetDataDisk] returns an error exactly
    when some disk has [ultra_ssd_disk_iops_read_write] or
    [ultra_ssd_disk_mbps_read_write] greater than zero while
    [ultraSSDEnabled] is false and the disk's [storage_account_type] is not
    [PremiumV2_LRS]; otherwise it returns one disk per element, whose
    IOPS and MBps fields are set only for values greater than zero. *)
Theorem data_disk_throughput_check (input : slice value) (ultraSSDEnabled : bool) :
  forallb dataDiskTyped (elems input) = true ->
  ((exists msg, ExpandVirtualMachineScaleSetDataDisk input ultraSSDEnabled = Error msg)
   <-> existsb (throughputUnsupported ultraSSDEnabled) (elems input) = true)
  /\
  (existsb (throughputUnsupported ultraSSDEnabled) (elems input) = false ->
   exists disks,
     ExpandVirtualMachineScaleSetDataDisk input ultraSSDEnabled = Return (Some disks)
     /\ Forall2 (fun v disk =>
                   VirtualMachineScaleSetDataDisk.DiskIOPSReadWrite disk
                   = setWhenPositive (intAttribute v "ultra_ssd_disk_iops_read_write")
                   /\ VirtualMachineScaleSetDataDisk.DiskMBpsReadWrite disk
                      = setWhenPositive
                          (intAttribute v "ultra_ssd_disk_mbps_read_write"))
                (elems input) disks).
Proof.
  intros Ht. unfold ExpandVirtualMachineScaleSetDataDisk.
  pose proof (expand_data_disks_loop ultraSSDEnabled (elems input) Ht []) as H.
  destruct (existsb (throughputUnsupported ultraSSDEnabled) (elems input)).
  - destruct H as [msg ->]. split; [|discriminate].
    split; [reflexivity | simpl; eauto].
  - destruct H as (disks & -> & Hall). split.
    + split; [intros [msg [=]] | discriminate].
    + intros _. simpl. eauto.
Qed.

(** *** Flattening network interfaces and disks *)

Definition fromBool (p : option bool) : bool :=
  match p with Some b => b | None => false end.

Definition flattenVirtualMachineScaleSetPublicIPAddress
           (input : VirtualMachineScaleSetPublicIPAddressConfiguration.t)
  : gmap string value :=
  match VirtualMachineScaleSetPublicIPAddressConfiguration.Properties input with
  | None => ∅
  | Some props =>
      let ipTags :=
        match VirtualMachineScaleSetPublicIPAddressConfigurationProperties.IPTags props with
        | Some rawTags =>
            fold_left
              (fun ipTags rawTag =>
                 let tagType :=
                   fromString (VirtualMachineScaleSetIPTag.IPTagType rawTag) in
                 let tag := fromString (VirtualMachineScaleSetIPTag.Tag rawTag) in
                 append ipTags
                   (VMap (<["tag" := VString tag]>
                            (<["type" := VString tagType]> ∅))))
              rawTags (mk_slice [])
        | None => mk_slice []
        end in
      let domainNameLabel :=
        match VirtualMachineScaleSetPublicIPAddressConfigurationProperties.DnsSettings props with
        | Some dns =>
            VirtualMachineScaleSetPublicIPAddressConfigurationDnsSettings.DomainNameLabel dns
        | None => EmptyString
        end in
      let publicIPPrefixId :=
        match VirtualMachineScaleSetPublicIPAddressConfigurationProperties.PublicIPPrefix props with
        | Some {| SubResource.Id := Some id |} => id
        | _ => EmptyString
        end in
      let version :=
        let from :=
          fromString
            (VirtualMachineScaleSetPublicIPAddressConfigurationProperties.PublicIPAddressVersion
               props) in
        if negb (String.eqb from "") then from else EmptyString in
      let idleTimeoutInMinutes :=
        match VirtualMachineScaleSetPublicIPAddressConfigurationProperties.IdleTimeoutInMinutes
                props with
        | Some n => n
        | None => 0%Z
        end in
      <["name" := VString (VirtualMachineScaleSetPublicIPAddressConfiguration.Name input)]>
        (<["domain_name_label" := VString domainNameLabel]>
           (<["idle_timeout_in_minutes" := VInt idleTimeoutInMinutes]>
              (<["ip_tag" := VList ipTags]>
                 (<["public_ip_prefix_id" := VString publicIPPrefixId]>
                    (<["version" := VString version]> ∅)))))
  end.

Definition flattenVirtualMachineScaleSetIPConfiguration
           (input : VirtualMachineScaleSetIPConfiguration.t) : gmap string value :=
  match VirtualMachineScaleSetIPConfiguration.Properties input with
  | None => ∅
  | Some props =>
      let subnetId :=
        match VirtualMachineScaleSetIPConfigurationProperties.Subnet props with
        | Some {| ApiEntityReference.Id := Some id |} => id
        | _ => EmptyString
        end in
      let primary :=
        fromBool (VirtualMachineScaleSetIPConfigurationProperties.Primary props) in
      let publicIPAddresses :=
        match VirtualMachineScaleSetIPConfigurationProperties.PublicIPAddressConfiguration
                props with
        | Some config =>
            append nil_slice
              (VMap (flattenVirtualMachineScaleSetPublicIPAddress config))
        | None => nil_slice
        end in
      let applicationGatewayBackendAddressPoolIds :=
        flattenSubResourcesToIDs
          (VirtualMachineScaleSetIPConfigurationProperties.ApplicationGatewayBackendAddressPools
             props) in
      let applicationSecurityGroupIds :=
        flattenSubResourcesToIDs
          (VirtualMachineScaleSetIPConfigurationProperties.ApplicationSecurityGroups props) in
      let loadBalancerBackendAddressPoolIds :=
        flattenSubResourcesToIDs
          (VirtualMachineScaleSetIPConfigurationProperties.LoadBalancerBackendAddressPools
             props) in
      let loadBalancerInboundNatRuleIds :=
        flattenSubResourcesToIDs
          (VirtualMachineScaleSetIPConfigurationProperties.LoadBalancerInboundNatPools
             props) in
      <["name" := VString (VirtualMachineScaleSetIPConfiguration.Name input)]>
        (<["primary" := VBool primary]>
           (<["public_ip_address" := VList publicIPAddresses]>
              (<["subnet_id" := VString subnetId]>
                 (<["version" :=
                      VString (fromString
                        (VirtualMachineScaleSetIPConfigurationProperties.PrivateIPAddressVersion
                           props))]>
                    (<["application_gateway_backend_address_pool_ids" :=
                         VList applicationGatewayBackendAddressPoolIds]>
                       (<["application_security_group_ids" :=
                            VList applicationSecurityGroupIds]>
                          (<["load_balancer_backend_address_pool_ids" :=
                               VList loadBalancerBackendAddressPoolIds]>
                             (<["load_balancer_inbound_nat_rules_ids" :=
                                  VList loadBalancerInboundNatRuleIds]> ∅))))))))
  end.

Definition FlattenVirtualMachineScaleSetNetworkInterface
           (input : option (list VirtualMachineScaleSetNetworkConfiguration.t))
  : slice value :=
  match input with
  | None => mk_slice []
  | Some configs =>
      fold_left
        (fun results v =>
           match VirtualMachineScaleSetNetworkConfiguration.Properties v with
           | None => results
           | Some props =>
               let networkSecurityGroupId :=
                 match VirtualMachineScaleSetNetworkConfigurationProperties.NetworkSecurityGroup
                         props with
                 | Some {| SubResource.Id := Some id |} => id
                 | _ => EmptyString
                 end in
               let enableAcceleratedNetworking :=
                 fromBool
                   (VirtualMachineScaleSetNetworkConfigurationProperties.EnableAcceleratedNetworking
                      props) in
               let enableIPForwarding :=
                 fromBool
                   (VirtualMachineScaleSetNetworkConfigurationProperties.EnableIPForwarding
                      props) in
               let primary :=
                 fromBool (VirtualMachineScaleSetNetworkConfigurationProperties.Primary props) in
               let dnsServers :=
                 match VirtualMachineScaleSetNetworkConfigurationProperties.DnsSettings props with
                 | Some settings =>
                     FlattenStringSlice
                       (VirtualMachineScaleSetNetworkConfigurationDnsSettings.DnsServers settings)
                 | None => nil_slice
                 end in
               let ipConfigurations :=
                 fold_left
                   (fun ipConfigurations configRaw =>
                      append ipConfigurations
                        (VMap (flattenVirtualMachineScaleSetIPConfiguration configRaw)))
                   (VirtualMachineScaleSetNetworkConfigurationProperties.IPConfigurations props)
                   nil_slice in
               append results
                 (VMap
                    (<["name" := VString (VirtualMachineScaleSetNetworkConfiguration.Name v)]>
                       (<["dns_servers" := VList dnsServers]>
                          (<["enable_accelerated_networking" :=
                               VBool enableAcceleratedNetworking]>
                             (<["enable_ip_forwarding" := VBool enableIPForwarding]>
                                (<["ip_configuration" := VList ipConfigurations]>
                                   (<["network_security_group_id" :=
                                        VString networkSecurityGroupId]>
                                      (<["primary" := VBool primary]> ∅))))))))
           end)
        configs (mk_slice [])
  end.

(** [storageAccountType] and [diskEncryptionSetId] of a managed disk. *)
Definition managedDiskStorageAccountType
           (managedDisk : option VirtualMachineScaleSetManagedDiskParameters.t) : string :=
  match managedDisk with
  | Some md =>
      fromString (VirtualMachineScaleSetManagedDiskParameters.StorageAccountType md)
  | None => EmptyString
  end.

Definition managedDiskEncryptionSetId
           (managedDisk : option VirtualMachineScaleSetManagedDiskParameters.t) : string :=
  match managedDisk with
  | Some md =>
      match VirtualMachineScaleSetManagedDiskParameters.DiskEncryptionSet md with
      | Some {| SubResource.Id := Some id |} => id
      | _ => EmptyString
      end
  | None => EmptyString
  end.

(** [diskSizeGb := 0; if p != nil && *p != 0 { diskSizeGb = int( *p) }] *)
Definition diskSizeOf (p : option Z) : Z :=
  match p with
  | Some n => if negb (n =? 0)%Z then n else 0%Z
  | None => 0%Z
  end.

Definition fromInt64 (p : option Z) : Z :=
  match p with Some n => n | None => 0%Z end.

Definition FlattenVirtualMachineScaleSetDataDisk
           (input : option (list VirtualMachineScaleSetDataDisk.t)) : slice value :=
  match input with
  | None => mk_slice []
  | Some disks =>
      fold_left
        (fun output v =>
           let name := fromString (VirtualMachineScaleSetDataDisk.Name v) in
           let diskSizeGb := diskSizeOf (VirtualMachineScaleSetDataDisk.DiskSizeGB v) in
           let storageAccountType :=
             managedDiskStorageAccountType (VirtualMachineScaleSetDataDisk.ManagedDisk v) in
           let diskEncryptionSetId :=
             managedDiskEncryptionSetId (VirtualMachineScaleSetDataDisk.ManagedDisk v) in
           let writeAcceleratorEnabled :=
             fromBool (VirtualMachineScaleSetDataDisk.WriteAcceleratorEnabled v) in
           let iops := fromInt64 (VirtualMachineScaleSetDataDisk.DiskIOPSReadWrite v) in
           let mbps := fromInt64 (VirtualMachineScaleSetDataDisk.DiskMBpsReadWrite v) in
           let dataDisk : gmap string value :=
             <["name" := VString name]>
               (<["caching" :=
                    VString (fromString (VirtualMachineScaleSetDataDisk.Caching v))]>
                  (<["create_option" :=
                       VString (VirtualMachineScaleSetDataDisk.CreateOption v)]>
                     (<["lun" := VInt64 (VirtualMachineScaleSetDataDisk.Lun v)]>
                        (<["disk_encryption_set_id" := VString diskEncryptionSetId]>
                           (<["disk_size_gb" := VInt diskSizeGb]>
                              (<["storage_account_type" := VString storageAccountType]>
                                 (<["ultra_ssd_disk_iops_read_write" := VInt iops]>
                                    (<["ultra_ssd_disk_mbps_read_write" := VInt mbps]>
                                       (<["write_accelerator_enabled" :=
                                            VBool writeAcceleratorEnabled]> ∅))))))))) in
           append output (VMap dataDisk))
        disks (mk_slice [])
  end.

Definition FlattenVirtualMachineScaleSetOSDisk
           (input : option VirtualMachineScaleSetOSDisk.t) : slice value :=
  match input with
  | None => mk_slice []
  | Some input =>
      let diffDiskSettings :=
        match VirtualMachineScaleSetOSDisk.DiffDiskSettings input with
        | Some settings =>
            append (mk_slice [])
              (VMap (<["option" := VString (fromString (DiffDiskSettings.Option settings))]>
                       (<["placement" :=
                            VString (fromString (DiffDiskSettings.Placement settings))]> ∅)))
        | None => mk_slice []
        end in
      let diskSizeGb := diskSizeOf (VirtualMachineScaleSetOSDisk.DiskSizeGB input) in
      let managedDisk := VirtualMachineScaleSetOSDisk.ManagedDisk input in
      let storageAccountType := managedDiskStorageAccountType managedDisk in
      let diskEncryptionSetId := managedDiskEncryptionSetId managedDisk in
      let securityProfile :=
        match managedDisk with
        | Some md => VirtualMachineScaleSetManagedDiskParameters.SecurityProfile md
        | None => None
        end in
      let securityEncryptionType :=
        match securityProfile with
        | Some profile => fromString (VMDiskSecurityProfile.SecurityEncryptionType profile)
        | None => EmptyString
        end in
      let secureVMDiskEncryptionSetId :=
        match securityProfile with
        | Some profile =>
            match VMDiskSecurityProfile.DiskEncryptionSet profile with
            | Some {| SubResource.Id := Some id |} => id
            | _ => EmptyString
            end
        | None => EmptyString
        end in
      let writeAcceleratorEnabled :=
        fromBool (VirtualMachineScaleSetOSDisk.WriteAcceleratorEnabled input) in
      mk_slice [VMap
        (<["caching" := VString (fromString (VirtualMachineScaleSetOSDisk.Caching input))]>
           (<["disk_size_gb" := VInt diskSizeGb]>
              (<["diff_disk_settings" := VList diffDiskSettings]>
                 (<["storage_account_type" := VString storageAccountType]>
                    (<["write_accelerator_enabled" := VBool writeAcceleratorEnabled]>
                       (<["disk_encryption_set_id" := VString diskEncryptionSetId]>
                          (<["secure_vm_disk_encryption_set_id" :=
                               VString secureVMDiskEncryptionSetId]>
                             (<["security_encryption_type" :=
                                  VString securityEncryptionType]> ∅))))))))]
  end.

(** C9. Given the nil pointer, each of
    [FlattenVirtualMachineScaleSetAdditionalCapabilities],
    [FlattenVirtualMachineScaleSetNetworkInterface],
    [FlattenVirtualMachineScaleSetDataDisk] and
    [FlattenVirtualMachineScaleSetOSDisk] returns the empty list. *)
Theorem flatten_nil_is_empty :
  FlattenVirtualMachineScaleSetAdditionalCapabilities None = mk_slice []
  /\ FlattenVirtualMachineScaleSetNetworkInterface None = mk_slice []
  /\ FlattenVirtualMachineScaleSetDataDisk None = mk_slice []
  /\ FlattenVirtualMachineScaleSetOSDisk None = mk_slice [].
Proof. repeat split. Qed.

(** *** Extensions *)

(** A value held in an [interface{}] field of the API response: a JSON
    object, for which the assertion [.(map[string]interface{})] succeeds,
    or anything else. *)
Inductive decoded : Type :=
| DecodedObject (o : jsonObject)
| DecodedOther.

(** A [*pluginsdk.ResourceData], for what the helpers ask of it:
    [d.GetOk(key)], the value in the prior state and whether it is set. *)
Record ResourceData : Type := mkResourceData {
  GetOk : string -> value * bool
}.

(** [s, err := f(x); if err == nil { ... s ... }]: the string when there
    is no error. *)
Definition withoutError (c : outcome string) : outcome (option string) :=
  match c with
  | Return s => Return (Some s)
  | Error _ => Return None
  | Panic => Panic
  end.

(** The settings re-serialised, as both the [settings] and the
    [protected_settings] branch of the hash compute it: expanded from the
    string and flattened back, when neither step fails. *)
Definition reserialized (settings : string) : outcome (option string) :=
  match ExpandJsonFromString settings with
  | Return expandedSettings => withoutError (FlattenJsonToString expandedSettings)
  | Error _ => Return None
  | Panic => Panic
  end.

(** [buf.WriteString(fmt.Sprintf("%s-", s))] *)
Definition write (buf s : string) : string := buf +:+ s +:+ "-".

Definition writeSettings (buf settings : string) : outcome string :=
  if negb (String.eqb settings "") then
    let! serializedSettings := reserialized settings in
    Return match serializedSettings with
           | Some s => write buf s
           | None => buf
           end
  else Return buf.

Definition virtualMachineScaleSetExtensionHash (v : value) : outcome Z :=
  let! buf :=
    match v with
    | VMap m =>
        let buf := EmptyString in
        let! name := assertString (index m "name") in
        let buf := write buf name in
        let! publisher := assertString (index m "publisher") in
        let buf := write buf publisher in
        let! type := assertString (index m "type") in
        let buf := write buf type in
        let! typeHandlerVersion := assertString (index m "type_handler_version") in
        let buf := write buf typeHandlerVersion in
        let! autoUpgradeMinorVersion :=
          assertBool (index m "auto_upgrade_minor_version") in
        let buf := write buf (formatBool autoUpgradeMinorVersion) in
        let buf :=
          let '(v, ok) := indexOk m "force_update_tag" in
          if ok then write buf (formatS v) else buf in
        let buf :=
          let '(v, ok) := indexOk m "provision_after_extensions" in
          if ok then write buf (formatS v) else buf in
        (* we need to ensure the whitespace is consistent *)
        let! settings := assertString (index m "settings") in
        let! buf := writeSettings buf settings in
        let! buf :=
          let '(v, ok) := indexOk m "protected_settings" in
          if ok then
            let! settings := assertString v in
            writeSettings buf settings
          else Return buf in
        let '(v, ok) := indexOk m "protected_settings_from_key_vault" in
        if ok then
          let! protectedSettingsFromKeyVault := assertList v in
          if (0 <? length (elems protectedSettingsFromKeyVault))%nat then
            let! v0 := first protectedSettingsFromKeyVault in
            let! m0 := assertMap v0 in
            let! secretUrl := assertString (index m0 "secret_url") in
            let buf := write buf secretUrl in
            let! v0' := first protectedSettingsFromKeyVault in
            let! m0' := assertMap v0' in
            let! sourceVaultId := assertString (index m0' "source_vault_id") in
            Return (write buf sourceVaultId)
          else Return buf
        else Return buf
    | _ => Return EmptyString
    end in
  Return (HashString buf).

Lemma index_insert_ne (m : gmap string value) (k k' : string) (v : value) :
  k <> k' -> index (<[k := v]> m) k' = index m k'.
Proof. intros H. unfold index. now rewrite lookup_insert_ne. Qed.

Lemma index_insert_eq (m : gmap string value) (k : string) (v : value) :
  index (<[k := v]> m) k = v.
Proof. unfold index. now rewrite lookup_insert_eq. Qed.

Lemma indexOk_insert_ne (m : gmap string value) (k k' : string) (v : value) :
  k <> k' -> indexOk (<[k := v]> m) k' = indexOk m k'.
Proof. intros H. unfold indexOk. now rewrite lookup_insert_ne. Qed.

Lemma indexOk_insert_eq (m : gmap string value) (k : string) (v : value) :
  indexOk (<[k := v]> m) k = (v, true).
Proof. unfold indexOk. now rewrite lookup_insert_eq. Qed.

Lemma writeSettings_same_object (buf s1 s2 : string) (o : jsonObject) :
  s1 <> EmptyString -> s2 <> EmptyString ->
  ExpandJsonFromString s1 = Return o ->
  ExpandJsonFromString s2 = Return o ->
  writeSettings buf s1 = writeSettings buf s2.
Proof.
  intros H1%String.eqb_neq H2%String.eqb_neq E1 E2.
  unfold writeSettings, reserialized. now rewrite H1, H2, E1, E2.
Qed.

(** C8. The hash of an extension does not depend on how its [settings]
    or its [protected_settings] are written: two JSON texts that expand to
    the same object give the same hash, all other attributes being
    equal. *)
Theorem extension_hash_ignores_json_formatting
        (m : gmap string value) (s1 s2 : string) (o : jsonObject) :
  s1 <> EmptyString -> s2 <> EmptyString ->
  ExpandJsonFromString s1 = Return o ->
  ExpandJsonFromString s2 = Return o ->
  virtualMachineScaleSetExtensionHash (VMap (<["settings" := VString s1]> m))
  = virtualMachineScaleSetExtensionHash (VMap (<["settings" := VString s2]> m))
  /\
  virtualMachineScaleSetExtensionHash (VMap (<["protected_settings" := VString s1]> m))
  = virtualMachineScaleSetExtensionHash (VMap (<["protected_settings" := VString s2]> m)).
Proof.
  intros H1 H2 E1 E2.
  unfold virtualMachineScaleSetExtensionHash. split.
  - rewrite !index_insert_eq.
    rewrite !index_insert_ne, !indexOk_insert_ne by (intro; discriminate).
    cbn [assertString].
    destruct (assertString (index m "name")); [|reflexivity..].
    destruct (assertString (index m "publisher")); [|reflexivity..].
    destruct (assertString (index m "type")); [|reflexivity..].
    destruct (assertString (index m "type_handler_version")); [|reflexivity..].
    destruct (assertBool (index m "auto_upgrade_minor_version")); [|reflexivity..].
    cbn [bind].
    now rewrite (writeSettings_same_object _ s1 s2 o H1 H2 E1 E2).
  - rewrite !indexOk_insert_eq.
    rewrite !index_insert_ne, !indexOk_insert_ne by (intro; discriminate).
    destruct (assertString (index m "name")); [|reflexivity..].
    destruct (assertString (index m "publisher")); [|reflexivity..].
    destruct (assertString (index m "type")); [|reflexivity..].
    destruct (assertString (index m "type_handler_version")); [|reflexivity..].
    destruct (assertBool (index m "auto_upgrade_minor_version")); [|reflexivity..].
    destruct (assertString (index m "settings")) as [settings| |];
      [|reflexivity..].
    cbn [bind assertString].
    destruct (writeSettings _ settings); [|reflexivity..].
    cbn [bind].
    now rewrite (writeSettings_same_object _ s1 s2 o H1 H2 E1 E2).
Qed.

(** [extensionsFromState]: the [extension] blocks of the prior state by
    name, used to retrieve [protected_settings], which the API does not
    return. *)
Definition extensionsFromStateOf (d : ResourceData)
  : outcome (gmap string (gmap string value)) :=
  let '(extSet, ok) := GetOk d "extension" in
  if ok && negb (isNil extSet) then
    let! extensions := assertSet extSet in
    forEach (fun (extensionsFromState : gmap string (gmap string value)) ext =>
               if isNil ext then Return extensionsFromState
               else
                 let! ext := assertMap ext in
                 let! name := assertString (index ext "name") in
                 Return (<[name := ext]> extensionsFromState))
            extensions ∅
  else Return ∅.

(** protected_settings isn't returned, so we attempt to get it from state
    otherwise set to empty string *)
Definition protectedSettingsFromState
           (extensionsFromState : gmap string (gmap string value)) (name : string)
  : outcome string :=
  match extensionsFromState !! name with
  | Some ext =>
      let '(protectedSettingsFromState, ok) := indexOk ext "protected_settings" in
      if ok then
        let! s := assertString protectedSettingsFromState in
        let! s' := assertString protectedSettingsFromState in
        Return (if negb (String.eqb s "") && negb (String.eqb s' "{}")
                then s else EmptyString)
      else Return EmptyString
  | None => Return EmptyString
  end.

(** The body of the loop of [flattenVirtualMachineScaleSetExtensions]: the
    flattened block of one extension of the response. *)
Definition flattenExtension
           (extensionsFromState : gmap string (gmap string value))
           (v : VirtualMachineScaleSetExtension.t decoded)
  : outcome (gmap string value) :=
  let name := fromString (VirtualMachineScaleSetExtension.Name v) in
  let props := VirtualMachineScaleSetExtension.Properties v in
  let fromProps {A B : Type} (field : VirtualMachineScaleSetExtensionProperties.t decoded -> option A)
                (zero : B) (use : A -> B) : B :=
    match props with
    | Some props => match field props with Some x => use x | None => zero end
    | None => zero
    end in
  let autoUpgradeMinorVersion :=
    fromProps VirtualMachineScaleSetExtensionProperties.AutoUpgradeMinorVersion
              false (fun b => b) in
  let enableAutomaticUpgrade :=
    fromProps VirtualMachineScaleSetExtensionProperties.EnableAutomaticUpgrade
              false (fun b => b) in
  let forceUpdateTag :=
    fromProps VirtualMachineScaleSetExtensionProperties.ForceUpdateTag
              EmptyString (fun s => s) in
  let provisionAfterExtension :=
    fromProps VirtualMachineScaleSetExtensionProperties.ProvisionAfterExtensions
              (mk_slice []) (fun l => FlattenStringSlice (Some l)) in
  let extPublisher :=
    fromProps VirtualMachineScaleSetExtensionProperties.Publisher
              EmptyString (fun s => s) in
  let extType :=
    fromProps VirtualMachineScaleSetExtensionProperties.Type_
              EmptyString (fun s => s) in
  let extTypeVersion :=
    fromProps VirtualMachineScaleSetExtensionProperties.TypeHandlerVersion
              EmptyString (fun s => s) in
  let! extSettings :=
    fromProps VirtualMachineScaleSetExtensionProperties.Settings
              (Return EmptyString)
              (fun settingsRaw =>
                 match settingsRaw with
                 | DecodedObject settings => FlattenJsonToString settings
                 | DecodedOther => Return EmptyString
                 end) in
  let protectedSettingsFromKeyVault :=
    match props with
    | Some props =>
        VirtualMachineScaleSetExtensionProperties.ProtectedSettingsFromKeyVault props
    | None => None
    end in
  let! protectedSettings := protectedSettingsFromState extensionsFromState name in
  Return (<["name" := VString name]>
            (<["auto_upgrade_minor_version" := VBool autoUpgradeMinorVersion]>
               (<["automatic_upgrade_enabled" := VBool enableAutomaticUpgrade]>
                  (<["force_update_tag" := VString forceUpdateTag]>
                     (<["provision_after_extensions" := VList provisionAfterExtension]>
                        (<["protected_settings" := VString protectedSettings]>
                           (<["protected_settings_from_key_vault" :=
                                VList (flattenProtectedSettingsFromKeyVault
                                         protectedSettingsFromKeyVault)]>
                              (<["publisher" := VString extPublisher]>
                                 (<["settings" := VString extSettings]>
                                    (<["type" := VString extType]>
                                       (<["type_handler_version" :=
                                            VString extTypeVersion]> ∅))))))))))).

Definition flattenVirtualMachineScaleSetExtensions
           (input : option (VirtualMachineScaleSetExtensionProfile.t decoded))
           (d : ResourceData)
  : outcome (list (gmap string value)) :=
  let result : list (gmap string value) := [] in
  match input with
  | None => Return result
  | Some profile =>
      match VirtualMachineScaleSetExtensionProfile.Extensions profile with
      | None => Return result
      | Some extensions =>
          let! extensionsFromState := extensionsFromStateOf d in
          forEach (fun result v =>
                     let! block := flattenExtension extensionsFromState v in
                     Return (result ++ [block]))
                  extensions result
      end
  end.

(** The extensions of a response, none for a nil profile or list. *)
Definition extensionsOf
           (input : option (VirtualMachineScaleSetExtensionProfile.t decoded))
  : list (VirtualMachineScaleSetExtension.t decoded) :=
  match input with
  | Some {| VirtualMachineScaleSetExtensionProfile.Extensions := Some extensions |} =>
      extensions
  | _ => []
  end.

(** The [extension] blocks of the prior state, none when the attribute is
    not set. *)
Definition priorState (d : ResourceData) : list value :=
  match GetOk d "extension" with
  | (VSet l, true) => l
  | _ => []
  end.

(** The block called [name] that comes last among the blocks. *)
Fixpoint lastNamed (name : string) (blocks : list value) : option (gmap string value) :=
  match blocks with
  | [] => None
  | ext :: blocks' =>
      match lastNamed name blocks' with
      | Some m => Some m
      | None =>
          match ext with
          | VMap m =>
              if String.eqb (stringAttribute ext "name") name then Some m else None
          | _ => None
          end
      end
  end.

(** The [protected_settings] kept in the prior state for the extension
    [name]: the stored string when it is neither empty nor ["{}"], the
    empty string otherwise. *)
Definition storedProtectedSettings (d : ResourceData) (name : string) : string :=
  match lastNamed name (priorState d) with
  | Some m =>
      let stored := stringAttribute (VMap m) "protected_settings" in
      if negb (String.eqb stored "") && negb (String.eqb stored "{}")
      then stored else EmptyString
  | None => EmptyString
  end.

(** A block of the prior state carries a string [name] and, when it has
    [protected_settings], a string there; a nil entry is skipped. *)
Definition blockTyped (ext : value) : bool :=
  match ext with
  | VNil => true
  | VMap m =>
      conforms TypeString (index m "name")
      && match m !! "protected_settings" with
         | Some v => conforms TypeString v
         | None => true
         end
  | _ => false
  end.

Definition stateTyped (d : ResourceData) : bool :=
  match GetOk d "extension" with
  | (_, false) => true
  | (VNil, true) => true
  | (VSet l, true) => forallb blockTyped l
  | _ => false
  end.

(** The response with the [ProtectedSettings] of every extension
    replaced. *)
Definition overrideProtectedSettings
           (f : VirtualMachineScaleSetExtension.t decoded -> option decoded)
           (input : option (VirtualMachineScaleSetExtensionProfile.t decoded))
  : option (VirtualMachineScaleSetExtensionProfile.t decoded) :=
  let override (v : VirtualMachineScaleSetExtension.t decoded) :=
    {| VirtualMachineScaleSetExtension.Name := VirtualMachineScaleSetExtension.Name v;
       VirtualMachineScaleSetExtension.Properties :=
         match VirtualMachineScaleSetExtension.Properties v with
         | Some p =>
             Some {|
               VirtualMachineScaleSetExtensionProperties.AutoUpgradeMinorVersion :=
                 VirtualMachineScaleSetExtensionProperties.AutoUpgradeMinorVersion p;
               VirtualMachineScaleSetExtensionProperties.EnableAutomaticUpgrade :=
                 VirtualMachineScaleSetExtensionProperties.EnableAutomaticUpgrade p;
               VirtualMachineScaleSetExtensionProperties.ForceUpdateTag :=
                 VirtualMachineScaleSetExtensionProperties.ForceUpdateTag p;
               VirtualMachineScaleSetExtensionProperties.ProtectedSettings := f v;
               VirtualMachineScaleSetExtensionProperties.ProtectedSettingsFromKeyVault :=
                 VirtualMachineScaleSetExtensionProperties.ProtectedSettingsFromKeyVault p;
               VirtualMachineScaleSetExtensionProperties.ProvisionAfterExtensions :=
                 VirtualMachineScaleSetExtensionProperties.ProvisionAfterExtensions p;
               VirtualMachineScaleSetExtensionProperties.Publisher :=
                 VirtualMachineScaleSetExtensionProperties.Publisher p;
               VirtualMachineScaleSetExtensionProperties.Settings :=
                 VirtualMachineScaleSetExtensionProperties.Settings p;
               VirtualMachineScaleSetExtensionProperties.Type_ :=
                 VirtualMachineScaleSetExtensionProperties.Type_ p;
               VirtualMachineScaleSetExtensionProperties.TypeHandlerVersion :=
                 VirtualMachineScaleSetExtensionProperties.TypeHandlerVersion p |}
         | None => None
         end |} in
  match input with
  | Some profile =>
      Some {| VirtualMachineScaleSetExtensionProfile.Extensions :=
                match VirtualMachineScaleSetExtensionProfile.Extensions profile with
                | Some extensions => Some (map override extensions)
                | None => None
                end |}
  | None => None
  end.

(** The settings of the extension, when they are a JSON object, can be
    serialised. *)
Definition settingsSerializable (v : VirtualMachineScaleSetExtension.t decoded) : Prop :=
  forall p o,
    VirtualMachineScaleSetExtension.Properties v = Some p ->
    VirtualMachineScaleSetExtensionProperties.Settings p = Some (DecodedObject o) ->
    exists s, FlattenJsonToString o = Return s.

Lemma lastNamed_typed (name : string) (blocks : list value) (m : gmap string value) :
  forallb blockTyped blocks = true ->
  lastNamed name blocks = Some m ->
  blockTyped (VMap m) = true.
Proof.
  induction blocks as [|ext blocks IH]; intros Ht H; [discriminate|].
  simpl in Ht, H. apply andb_true_iff in Ht as [Hext Hblocks].
  destruct (lastNamed name blocks) as [m'|].
  - injection H as <-. now apply IH.
  - destruct ext; try discriminate.
    destruct (String.eqb _ name); [|discriminate].
    now injection H as <-.
Qed.

Lemma extensions_from_state_loop (blocks : list value) :
  forallb blockTyped blocks = true ->
  forall acc : gmap string (gmap string value),
  exists st,
    forEach (fun (extensionsFromState : gmap string (gmap string value)) ext =>
               if isNil ext then Return extensionsFromState
               else
                 let! ext := assertMap ext in
                 let! name := assertString (index ext "name") in
                 Return (<[name := ext]> extensionsFromState))
            blocks acc = Return st
    /\ forall name,
        st !! name = match lastNamed name blocks with
                     | Some m => Some m
                     | None => acc !! name
                     end.
Proof.
  induction blocks as [|ext blocks IH]; intros Ht acc.
  - exists acc. split; [reflexivity | intros; reflexivity].
  - simpl in Ht. apply andb_true_iff in Ht as [Hext Hblocks].
    cbn [forEach lastNamed].
    destruct ext as [| | | | | | | |m]; try discriminate.
    + cbn [isNil bind].
      destruct (IH Hblocks acc) as (st & -> & Hst). exists st.
      split; [reflexivity|]. intros name. rewrite Hst.
      now destruct (lastNamed name blocks).
    + cbn [isNil assertMap bind].
      simpl in Hext. apply andb_true_iff in Hext as [Hname _].
      unfold stringAttribute. unfold index in *.
      destruct (m !! "name") as [[]|]; try discriminate Hname.
      cbn [assertString bind].
      destruct (IH Hblocks (<[s := m]> acc)) as (st & -> & Hst). exists st.
      split; [reflexivity|]. intros name. rewrite Hst.
      destruct (lastNamed name blocks); [reflexivity|].
      rewrite lookup_insert.
      destruct (String.eqb_spec s name); case_decide; congruence.
Qed.

Lemma extensionsFromStateOf_spec (d : ResourceData) :
  stateTyped d = true ->
  exists st,
    extensionsFromStateOf d = Return st
    /\ forall name, st !! name = lastNamed name (priorState d).
Proof.
  unfold stateTyped, extensionsFromStateOf, priorState.
  destruct (GetOk d "extension") as [extSet [|]]; intros Ht.
  - destruct extSet; try discriminate.
    + exists ∅. split; [reflexivity | intros; apply lookup_empty].
    + cbn [isNil negb andb assertSet bind].
      destruct (extensions_from_state_loop l Ht ∅) as (st & -> & Hst).
      exists st. split; [reflexivity|]. intros name. rewrite Hst.
      destruct (lastNamed name l); [reflexivity | apply lookup_empty].
  - exists ∅. split; [reflexivity|]. intros name.
    rewrite lookup_empty. now destruct extSet.
Qed.

Lemma protectedSettingsFromState_spec
      (d : ResourceData) (st : gmap string (gmap string value)) (name : string) :
  stateTyped d = true ->
  (forall n, st !! n = lastNamed n (priorState d)) ->
  protectedSettingsFromState st name = Return (storedProtectedSettings d name).
Proof.
  intros Ht Hst. unfold protectedSettingsFromState, storedProtectedSettings.
  rewrite Hst. destruct (lastNamed name (priorState d)) as [m|] eqn:E;
    [|reflexivity].
  assert (blockTyped (VMap m) = true) as Hm.
  { apply (lastNamed_typed name (priorState d)); [|exact E].
    unfold stateTyped, priorState in *.
    destruct (GetOk d "extension") as [[] []]; auto. }
  simpl in Hm. apply andb_true_iff in Hm as [_ Hps].
  unfold indexOk, stringAttribute.
  destruct (m !! "protected_settings") as [[]|]; try discriminate Hps;
    reflexivity.
Qed.

Lemma flattenExtension_spec
      (d : ResourceData) (st : gmap string (gmap string value))
      (v : VirtualMachineScaleSetExtension.t decoded) :
  stateTyped d = true ->
  (forall n, st !! n = lastNamed n (priorState d)) ->
  settingsSerializable v ->
  exists block,
    flattenExtension st v = Return block
    /\ block !! "protected_settings"
       = Some (VString (storedProtectedSettings d
                          (fromString (VirtualMachineScaleSetExtension.Name v)))).
Proof.
  intros Ht Hst Hser. unfold flattenExtension.
  rewrite (protectedSettingsFromState_spec d st _ Ht Hst).
  assert (exists extSettings,
             match VirtualMachineScaleSetExtension.Properties v with
             | Some props =>
                 match VirtualMachineScaleSetExtensionProperties.Settings props with
                 | Some (DecodedObject settings) => FlattenJsonToString settings
                 | Some DecodedOther => Return EmptyString
                 | None => Return EmptyString
                 end
             | None => Return EmptyString
             end = Return extSettings) as [extSettings E].
  { destruct (VirtualMachineScaleSetExtension.Properties v) as [p|] eqn:Ep; [|eauto].
    destruct (VirtualMachineScaleSetExtensionProperties.Settings p) as [[o|]|] eqn:Es;
      eauto. }
  rewrite E. cbn [bind]. eexists. split; [reflexivity|].
  repeat (rewrite lookup_insert_ne by (intro; discriminate)).
  apply lookup_insert_eq.
Qed.

Lemma flatten_extensions_loop
      (d : ResourceData) (st : gmap string (gmap string value))
      (extensions : list (VirtualMachineScaleSetExtension.t decoded)) :
  stateTyped d = true ->
  (forall n, st !! n = lastNamed n (priorState d)) ->
  Forall settingsSerializable extensions ->
  forall acc,
  exists blocks,
    forEach (fun result v =>
               let! block := flattenExtension st v in
               Return (result ++ [block]))
            extensions acc = Return (acc ++ blocks)
    /\ Forall2 (fun v block =>
                  block !! "protected_settings"
                  = Some (VString (storedProtectedSettings d
                            (fromString (VirtualMachineScaleSetExtension.Name v)))))
               extensions blocks.
Proof.
  intros Ht Hst Hser. induction Hser as [|v extensions Hv _ IH]; intros acc.
  - exists []. rewrite app_nil_r. split; [reflexivity | constructor].
  - destruct (flattenExtension_spec d st v Ht Hst Hv) as (block & E & Hblock).
    cbn [forEach]. rewrite E. cbn [bind].
    destruct (IH (acc ++ [block])) as (blocks & -> & Hall).
    exists (block :: blocks). split.
    + now rewrite <- app_assoc.
    + now constructor.
Qed.

Lemma flattenExtension_override
      (f : VirtualMachineScaleSetExtension.t decoded -> option decoded)
      (st : gmap string (gmap string value))
      (extensions : list (VirtualMachineScaleSetExtension.t decoded)) :
  forall acc,
    forEach (fun result v =>
               let! block := flattenExtension st v in
               Return (result ++ [block]))
            (extensionsOf
               (overrideProtectedSettings f
                  (Some (VirtualMachineScaleSetExtensionProfile.mk (Some extensions)))))
            acc
    = forEach (fun result v =>
                 let! block := flattenExtension st v in
                 Return (result ++ [block]))
              extensions acc.
Proof.
  cbn [extensionsOf overrideProtectedSettings
         VirtualMachineScaleSetExtensionProfile.Extensions].
  induction extensions as [|v extensions IH]; intros acc; [reflexivity|].
  cbn [map forEach].
  replace (flattenExtension st _) with (flattenExtension st v).
  - destruct (flattenExtension st v); [|reflexivity..]. cbn [bind]. apply IH.
  - destruct v as [name [p|]]; reflexivity.
Qed.

(** C7. [flattenVirtualMachineScaleSetExtensions] takes no
    [protected_settings] from the response: its result is the same
    whatever the response holds there, and for every extension of the
    response the flattened [protected_settings] is the string stored in the
    prior state under the extension's name when that string is neither
    empty nor ["{}"], and the empty string otherwise. *)
Theorem protected_settings_come_from_state
        (input : option (VirtualMachineScaleSetExtensionProfile.t decoded))
        (d : ResourceData) :
  stateTyped d = true ->
  Forall settingsSerializable (extensionsOf input) ->
  (exists blocks,
     flattenVirtualMachineScaleSetExtensions input d = Return blocks
     /\ Forall2 (fun v block =>
                   block !! "protected_settings"
                   = Some (VString (storedProtectedSettings d
                             (fromString (VirtualMachineScaleSetExtension.Name v)))))
                (extensionsOf input) blocks)
  /\
  (forall f,
     flattenVirtualMachineScaleSetExtensions (overrideProtectedSettings f input) d
     = flattenVirtualMachineScaleSetExtensions input d).
Proof.
  intros Ht Hser. split.
  - unfold flattenVirtualMachineScaleSetExtensions.
    destruct input as [[[extensions|]]|];
      try (exists []; split; [reflexivity | constructor]).
    cbn [VirtualMachineScaleSetExtensionProfile.Extensions extensionsOf] in *.
    destruct (extensionsFromStateOf_spec d Ht) as (st & -> & Hst).
    cbn [bind].
    destruct (flatten_extensions_loop d st extensions Ht Hst Hser [])
      as (blocks & -> & Hall).
    exists blocks. split; [reflexivity | exact Hall].
  - intros f. unfold flattenVirtualMachineScaleSetExtensions.
    destruct input as [[[extensions|]]|]; try reflexivity.
    change (overrideProtectedSettings f
              (Some (VirtualMachineScaleSetExtensionProfile.mk (Some extensions))))
      with (Some (VirtualMachineScaleSetExtensionProfile.mk
                    (Some (extensionsOf
                             (overrideProtectedSettings f
                                (Some (VirtualMachineScaleSetExtensionProfile.mk
                                         (Some extensions)))))))).
    cbn [VirtualMachineScaleSetExtensionProfile.Extensions].
    destruct (extensionsFromStateOf d); [|reflexivity..].
    cbn [bind]. apply flattenExtension_override.
Qed.

End Helpers.

(** *** Instances *)

(** An instance of the package's [expandIDsToSubResources]: one
    sub-resource per ID of the list. *)
Definition subResourcesOfIDs (input : slice value)
  : outcome (option (list SubResource.t)) :=
  let! ids :=
    forEach (fun ids v =>
               let! id := assertString v in
               Return (ids ++ [ {| SubResource.Id := Some id |} ]))
            (elems input) [] in
  Return (Some ids).

Lemma subResourcesOfIDs_loop (ids : list value) :
  forallb (conforms TypeString) ids = true ->
  forall acc,
  exists r,
    forEach (fun ids v =>
               let! id := assertString v in
               Return (ids ++ [ {| SubResource.Id := Some id |} ]))
            ids acc = Return r.
Proof.
  induction ids as [|v ids IH]; intros H acc; [simpl; eauto|].
  simpl in H. apply andb_true_iff in H as [[s ->]%conforms_string Hids].
  cbn [forEach assertString bind]. now apply IH.
Qed.

Lemma subResourcesOfIDs_returns (ids : list value) :
  forallb (conforms TypeString) ids = true ->
  exists r, subResourcesOfIDs (mk_slice ids) = Return r.
Proof.
  intros H. unfold subResourcesOfIDs. cbn [elems].
  destruct (subResourcesOfIDs_loop ids H []) as [r ->]. simpl. eauto.
Qed.

Definition exampleIPConfiguration (primary : bool) (version : string)
  : gmap string value :=
  <["name" := VString "internal"]>
    (<["application_gateway_backend_address_pool_ids" := VSet []]>
       (<["application_security_group_ids" := VSet []]>
          (<["load_balancer_backend_address_pool_ids" := VSet [VString "pool1"]]>
             (<["load_balancer_inbound_nat_rules_ids" := VSet []]>
                (<["primary" := VBool primary]>
                   (<["public_ip_address" := VList (mk_slice [])]>
                      (<["subnet_id" := VString "subnet1"]>
                         (<["version" := VString version]> ∅)))))))).

Lemma ipv6_primary_ip_configuration_rejected_witness :
  (expandVirtualMachineScaleSetIPConfiguration subResourcesOfIDs
     (exampleIPConfiguration true "IPv6") = Error ipv6PrimaryUnsupported
   /\ expandVirtualMachineScaleSetIPConfigurationUpdate subResourcesOfIDs
        (exampleIPConfiguration true "IPv6") = Error ipv6PrimaryUnsupported)
  /\
  ((exists cfg,
      expandVirtualMachineScaleSetIPConfiguration subResourcesOfIDs
        (exampleIPConfiguration true "IPv4") = Return (Some cfg))
   /\ (exists cfg,
         expandVirtualMachineScaleSetIPConfigurationUpdate subResourcesOfIDs
           (exampleIPConfiguration true "IPv4") = Return (Some cfg))).
Proof.
  split.
  - refine (proj1 (ipv6_primary_ip_configuration_rejected subResourcesOfIDs
                     (exampleIPConfiguration true "IPv6") _
                     subResourcesOfIDs_returns) _ _).
    + vm_compute. reflexivity.
    + vm_compute. reflexivity.
    + vm_compute. reflexivity.
  - refine (proj2 (ipv6_primary_ip_configuration_rejected subResourcesOfIDs
                     (exampleIPConfiguration true "IPv4") _
                     subResourcesOfIDs_returns) _).
    + vm_compute. reflexivity.
    + right. vm_compute. discriminate.
Defined.

Definition exampleDataDisk (storageAccountType : string) (iops : Z) : value :=
  VMap (<["name" := VString "data1"]>
          (<["caching" := VString "None"]>
             (<["create_option" := VString "Empty"]>
                (<["disk_encryption_set_id" := VString ""]>
                   (<["disk_size_gb" := VInt 128]>
                      (<["lun" := VInt 0]>
                         (<["storage_account_type" := VString storageAccountType]>
                            (<["write_accelerator_enabled" := VBool false]>
                               (<["ultra_ssd_disk_iops_read_write" := VInt iops]>
                                  (<["ultra_ssd_disk_mbps_read_write" := VInt 0]> ∅)))))))))).

Lemma data_disk_throughput_check_witness :
  (exists msg,
     ExpandVirtualMachineScaleSetDataDisk
       (mk_slice [exampleDataDisk "PremiumV2_LRS" 3000;
                  exampleDataDisk "Premium_LRS" 3000]) false = Error msg)
  /\
  (exists disks,
     ExpandVirtualMachineScaleSetDataDisk
       (mk_slice [exampleDataDisk "PremiumV2_LRS" 3000;
                  exampleDataDisk "Premium_LRS" 0]) false = Return (Some disks)
     /\ Forall2 (fun v disk =>
                   VirtualMachineScaleSetDataDisk.DiskIOPSReadWrite disk
                   = setWhenPositive (intAttribute v "ultra_ssd_disk_iops_read_write")
                   /\ VirtualMachineScaleSetDataDisk.DiskMBpsReadWrite disk
                      = setWhenPositive
                          (intAttribute v "ultra_ssd_disk_mbps_read_write"))
                [exampleDataDisk "PremiumV2_LRS" 3000;
                 exampleDataDisk "Premium_LRS" 0] disks).
Proof.
  split.
  - refine (proj2 (proj1 (data_disk_throughput_check
                            (mk_slice [exampleDataDisk "PremiumV2_LRS" 3000;
                                       exampleDataDisk "Premium_LRS" 3000])
                            false _)) _).
    + vm_compute. reflexivity.
    + vm_compute. reflexivity.
  - refine (proj2 (data_disk_throughput_check
                     (mk_slice [exampleDataDisk "PremiumV2_LRS" 3000;
                                exampleDataDisk "Premium_LRS" 0])
                     false _) _).
    + vm_compute. reflexivity.
    + vm_compute. reflexivity.
Defined.

(** An instance of [utils.FlattenStringSlice]. *)
Definition stringsToSlice (input : option (list string)) : slice value :=
  match input with
  | Some l => mk_slice (map VString l)
  | None => mk_slice []
  end.

(** An instance of [flattenProtectedSettingsFromKeyVault]. *)
Definition keyVaultReferenceToSlice (input : option KeyVaultSecretReference.t)
  : slice value :=
  match input with
  | Some ref =>
      mk_slice [VMap (<["secret_url" := VString (KeyVaultSecretReference.SecretUrl ref)]>
                        (<["source_vault_id" :=
                             VString (fromString
                                        (SubResource.Id
                                           (KeyVaultSecretReference.SourceVault ref)))]> ∅))]
  | None => nil_slice
  end.

(** An instance of the JSON functions in which an object is its text
    without blanks. *)
Fixpoint withoutBlanks (s : string) : string :=
  match s with
  | EmptyString => EmptyString
  | String c s' =>
      if Ascii.eqb c " " then withoutBlanks s' else String c (withoutBlanks s')
  end.

Definition expandCompact (s : string) : outcome string :=
  match s with
  | EmptyString => Error "unexpected end of JSON input"
  | _ => Return (withoutBlanks s)
  end.

Definition flattenCompact (o : string) : outcome string := Return o.

Definition examplePriorState : ResourceData :=
  {| GetOk := fun key =>
       if String.eqb key "extension" then
         (VSet [VMap (<["name" := VString "monitoring"]>
                        (<["protected_settings" := VString "{ }"]> ∅));
                VMap (<["name" := VString "bootstrap"]>
                        (<["protected_settings" := VString "[1]"]> ∅));
                VMap (<["name" := VString "health"]>
                        (<["protected_settings" := VString "{}"]> ∅))],
          true)
       else (VNil, false) |}.

Definition exampleResponse
  : option (VirtualMachineScaleSetExtensionProfile.t (decoded string)) :=
  let extension (name : string) (protected : option (decoded string)) :=
    {| VirtualMachineScaleSetExtension.Name := Some name;
       VirtualMachineScaleSetExtension.Properties := Some {|
         VirtualMachineScaleSetExtensionProperties.AutoUpgradeMinorVersion := Some true;
         VirtualMachineScaleSetExtensionProperties.EnableAutomaticUpgrade := None;
         VirtualMachineScaleSetExtensionProperties.ForceUpdateTag := None;
         VirtualMachineScaleSetExtensionProperties.ProtectedSettings := protected;
         VirtualMachineScaleSetExtensionProperties.ProtectedSettingsFromKeyVault := None;
         VirtualMachineScaleSetExtensionProperties.ProvisionAfterExtensions := None;
         VirtualMachineScaleSetExtensionProperties.Publisher := Some "Microsoft";
         VirtualMachineScaleSetExtensionProperties.Settings :=
           Some (DecodedObject string "{}");
         VirtualMachineScaleSetExtensionProperties.Type_ := Some "Agent";
         VirtualMachineScaleSetExtensionProperties.TypeHandlerVersion := Some "1.0" |} |} in
  Some {| VirtualMachineScaleSetExtensionProfile.Extensions :=
            Some [extension "bootstrap" (Some (DecodedObject string "leaked"));
                  extension "health" None;
                  extension "unknown" None] |}.

Lemma protected_settings_come_from_state_witness :
  exists blocks,
    flattenVirtualMachineScaleSetExtensions
      stringsToSlice keyVaultReferenceToSlice string flattenCompact
      exampleResponse examplePriorState = Return blocks
    /\ Forall2 (fun v block =>
                  block !! "protected_settings"
                  = Some (VString (storedProtectedSettings examplePriorState
                            (fromString (VirtualMachineScaleSetExtension.Name v)))))
               (extensionsOf string exampleResponse) blocks.
Proof.
  refine (proj1 (protected_settings_come_from_state
                   stringsToSlice keyVaultReferenceToSlice string flattenCompact
                   exampleResponse examplePriorState _ _)).
  - vm_compute. reflexivity.
  - repeat constructor; intros p o _ _; eexists; reflexivity.
Defined.

Example stored_protected_settings_examples :
  map (storedProtectedSettings examplePriorState)
      ["monitoring"; "bootstrap"; "health"; "unknown"]
  = ["{ }"; "[1]"; ""; ""].
Proof. vm_compute. reflexivity. Qed.

Lemma extension_hash_ignores_json_formatting_witness :
  let hash :=
    virtualMachineScaleSetExtensionHash
      string expandCompact flattenCompact
      (fun s => Z.of_nat (String.length s))
      (fun v => match v with VString s => s | _ => EmptyString end) in
  let extension : gmap string value :=
    <["name" := VString "monitoring"]>
      (<["publisher" := VString "Microsoft"]>
         (<["type" := VString "Agent"]>
            (<["type_handler_version" := VString "1.0"]>
               (<["auto_upgrade_minor_version" := VBool true]> ∅)))) in
  hash (VMap (<["settings" := VString "{ }"]> extension))
  = hash (VMap (<["settings" := VString "{}"]> extension)).
Proof.
  cbv zeta.
  refine (proj1 (extension_hash_ignores_json_formatting
                   string expandCompact flattenCompact _ _ _ "{ }" "{}" "{}"
                   _ _ _ _)).
  - discriminate.
  - discriminate.
  - vm_compute. reflexivity.
  - vm_compute. reflexivity.
Defined.

End Compute.

(* ===================================================================== *)
(** ** Further blocks of the scale set: gallery applications and policies *)
(* ===================================================================== *)

Module ScaleSetBlocks.
Import Go GoNotations virtualmachinescalesets Compute.

(** *** Conforming resources as maps *)

Lemma resource_of_list (m : gmap string value) (kvs : list (string * value)) :
  NoDup kvs.*1 ->
  size m = length kvs ->
  Forall (fun kv => m !! kv.1 = Some kv.2) kvs ->
  m = list_to_map kvs.
Proof.
  intros Hnd Hs Hall. symmetry. apply map_subseteq_size_eq.
  - apply map_subseteq_spec. intros i x Hi.
    apply elem_of_list_to_map_2 in Hi.
    rewrite Forall_forall in Hall. exact (Hall (i, x) Hi).
  - rewrite map_size_list_to_map by exact Hnd. lia.
Qed.

(** A conforming resource is the map of its attributes, and of nothing
    else. *)
Lemma conforms_resource_eq (attrs : list (string * schema)) (m : gmap string value) :
  NoDup attrs.*1 ->
  conforms (Resource attrs) (VMap m) = true ->
  m = list_to_map (map (fun a => (a.1, index m a.1)) attrs).
Proof.
  intros Hnd Hc. apply resource_of_list.
  - rewrite <- list_fmap_compose.
    replace (fst ∘ (fun a : string * schema => (a.1, index m a.1))) with
      (fst : string * schema -> string) by reflexivity.
    exact Hnd.
  - rewrite length_map. destruct (conforms_resource_inv _ _ Hc) as (m' & [= <-] & Hs).
    exact Hs.
  - apply Forall_forall. intros kv Hkv.
    apply list_elem_of_fmap in Hkv as ([k s] & -> & Hin). simpl.
    apply list_elem_of_In in Hin.
    destruct (conforms_lookup _ _ k s Hc Hin) as (v & Hk & _).
    rewrite Hk. f_equal. symmetry. now apply index_lookup.
Qed.

(** The value of attribute [k] of shape [s] in a conforming resource. *)
Ltac member := simpl; repeat (first [left; reflexivity | right]).

Ltac field Hc k s v H :=
  let Hk := fresh "Hk" in
  destruct (conforms_lookup _ _ k s Hc) as (v & Hk & H);
  [member | apply index_lookup in Hk].

(** A conforming resource [m], written out attribute by attribute. *)
Ltac resource_eq Hc m Hm :=
  pose proof (fun Hnd => conforms_resource_eq _ m Hnd Hc) as Hm;
  let Hnd := fresh "Hnd" in
  match type of Hm with
  | ?P -> _ => assert P as Hnd by compute_done
  end;
  specialize (Hm Hnd); clear Hnd; cbn [map fst] in Hm.

Lemma fold_append {A : Type} (f : A -> value) (l : list A) (acc : list value) :
  fold_left (fun out v => append out (f v)) l (mk_slice acc)
  = mk_slice (acc ++ map f l).
Proof.
  revert acc. induction l as [|x l IH]; intros acc; simpl.
  - now rewrite app_nil_r.
  - unfold append at 2. cbn [elems]. rewrite IH, <- app_assoc. reflexivity.
Qed.

(** *** Gallery applications *)

Definition VirtualMachineScaleSetGalleryApplicationSchema : schema :=
  TypeList (Resource [("version_id", TypeString);
                      ("configuration_blob_uri", TypeString);
                      ("order", TypeInt);
                      ("tag", TypeString)]).

Definition VirtualMachineScaleSetGalleryApplicationsSchema : schema :=
  TypeList (Resource [("package_reference_id", TypeString);
                      ("configuration_reference_blob_uri", TypeString);
                      ("order", TypeInt);
                      ("tag", TypeString)]).

Definition expandVirtualMachineScaleSetGalleryApplication (input : slice value)
  : outcome (option (list VMGalleryApplication.t)) :=
  if (length (elems input) =? 0)%nat then Return None
  else
    let! out :=
      forEach (fun out v =>
                 let! m1 := assertMap v in
                 let! packageReferenceId := assertString (index m1 "version_id") in
                 let! m2 := assertMap v in
                 let! configurationReference :=
                   assertString (index m2 "configuration_blob_uri") in
                 let! m3 := assertMap v in
                 let! order := assertInt (index m3 "order") in
                 let! m4 := assertMap v in
                 let! tag := assertString (index m4 "tag") in
                 Return (out ++ [ {|
                   VMGalleryApplication.PackageReferenceId := packageReferenceId;
                   VMGalleryApplication.ConfigurationReference :=
                     Some configurationReference;
                   VMGalleryApplication.Order := Some order;
                   VMGalleryApplication.Tags := Some tag |} ]))
              (elems input) [] in
    Return (Some out).

(** The body of the loop of
    [flattenVirtualMachineScaleSetGalleryApplication]: the block of one
    application. *)
Definition galleryApplicationBlock (v : VMGalleryApplication.t) : gmap string value :=
  let configurationReference :=
    fromString (VMGalleryApplication.ConfigurationReference v) in
  let order := fromInt64 (VMGalleryApplication.Order v) in
  let tag := fromString (VMGalleryApplication.Tags v) in
  <["version_id" := VString (VMGalleryApplication.PackageReferenceId v)]>
    (<["configuration_blob_uri" := VString configurationReference]>
       (<["order" := VInt order]>
          (<["tag" := VString tag]> ∅))).

(** [len( *input)] comes first: a nil pointer is dereferenced. *)
Definition flattenVirtualMachineScaleSetGalleryApplication
           (input : option (list VMGalleryApplication.t)) : outcome (slice value) :=
  match input with
  | None => Panic
  | Some apps =>
      if (length apps =? 0)%nat then Return nil_slice
      else
        Return (fold_left (fun out v => append out (VMap (galleryApplicationBlock v)))
                          apps (mk_slice []))
  end.

Definition expandVirtualMachineScaleSetGalleryApplications (input : slice value)
  : outcome (option (list VMGalleryApplication.t)) :=
  if (length (elems input) =? 0)%nat then Return None
  else
    let! out :=
      forEach (fun out v =>
                 let! m1 := assertMap v in
                 let! packageReferenceId :=
                   assertString (index m1 "package_reference_id") in
                 let! m2 := assertMap v in
                 let! configurationReference :=
                   assertString (index m2 "configuration_reference_blob_uri") in
                 let! m3 := assertMap v in
                 let! order := assertInt (index m3 "order") in
                 let! m4 := assertMap v in
                 let! tag := assertString (index m4 "tag") in
                 Return (out ++ [ {|
                   VMGalleryApplication.PackageReferenceId := packageReferenceId;
                   VMGalleryApplication.ConfigurationReference :=
                     Some configurationReference;
                   VMGalleryApplication.Order := Some order;
                   VMGalleryApplication.Tags := Some tag |} ]))
              (elems input) [] in
    Return (Some out).

(** The body of the loop of
    [flattenVirtualMachineScaleSetGalleryApplications]. *)
Definition galleryApplicationsBlock (v : VMGalleryApplication.t) : gmap string value :=
  let configurationReference :=
    fromString (VMGalleryApplication.ConfigurationReference v) in
  let order := fromInt64 (VMGalleryApplication.Order v) in
  let tag := fromString (VMGalleryApplication.Tags v) in
  <["package_reference_id" := VString (VMGalleryApplication.PackageReferenceId v)]>
    (<["configuration_reference_blob_uri" := VString configurationReference]>
       (<["order" := VInt order]>
          (<["tag" := VString tag]> ∅))).

Definition flattenVirtualMachineScaleSetGalleryApplications
           (input : option (list VMGalleryApplication.t)) : outcome (slice value) :=
  match input with
  | None => Panic
  | Some apps =>
      if (length apps =? 0)%nat then Return nil_slice
      else
        Return (fold_left (fun out v => append out (VMap (galleryApplicationsBlock v)))
                          apps (mk_slice []))
  end.

Lemma gallery_application_loop (l : list value) :
  forallb (conforms (Elem VirtualMachineScaleSetGalleryApplicationSchema)) l = true ->
  forall acc,
  exists apps,
    forEach (fun out v =>
               let! m1 := assertMap v in
               let! packageReferenceId := assertString (index m1 "version_id") in
               let! m2 := assertMap v in
               let! configurationReference :=
                 assertString (index m2 "configuration_blob_uri") in
               let! m3 := assertMap v in
               let! order := assertInt (index m3 "order") in
               let! m4 := assertMap v in
               let! tag := assertString (index m4 "tag") in
               Return (out ++ [ {|
                 VMGalleryApplication.PackageReferenceId := packageReferenceId;
                 VMGalleryApplication.ConfigurationReference :=
                   Some configurationReference;
                 VMGalleryApplication.Order := Some order;
                 VMGalleryApplication.Tags := Some tag |} ]))
            l acc = Return (acc ++ apps)
    /\ map (fun v => VMap (galleryApplicationBlock v)) apps = l.
Proof.
  induction l as [|v l IH]; intros H acc.
  - exists []. now rewrite app_nil_r.
  - cbn [forallb] in H. apply andb_true_iff in H as [Hv Hl].
    destruct (conforms_resource_inv _ _ Hv) as (m & -> & _).
    resource_eq Hv m Hm.
    field Hv "version_id" TypeString vid Hid.
    field Hv "configuration_blob_uri" TypeString vuri Huri.
    field Hv "order" TypeInt vorder Horder.
    field Hv "tag" TypeString vtag Htag.
    apply conforms_string in Hid as [pid ->], Huri as [uri ->], Htag as [tag ->].
    apply conforms_int in Horder as [order ->].
    cbn [forEach assertMap bind]. rewrite Hk, Hk0, Hk1, Hk2.
    cbn [assertString assertInt bind].
    destruct (IH Hl (acc ++ [ {|
                 VMGalleryApplication.PackageReferenceId := pid;
                 VMGalleryApplication.ConfigurationReference := Some uri;
                 VMGalleryApplication.Order := Some order;
                 VMGalleryApplication.Tags := Some tag |} ])) as (apps & -> & Hflat).
    eexists (_ :: apps). split; [now rewrite <- app_assoc|].
    cbn [map]. rewrite Hflat. f_equal.
    rewrite Hk, Hk0, Hk1, Hk2 in Hm.
    rewrite Hm. reflexivity.
Qed.

Lemma gallery_applications_loop (l : list value) :
  forallb (conforms (Elem VirtualMachineScaleSetGalleryApplicationsSchema)) l = true ->
  forall acc,
  exists apps,
    forEach (fun out v =>
               let! m1 := assertMap v in
               let! packageReferenceId :=
                 assertString (index m1 "package_reference_id") in
               let! m2 := assertMap v in
               let! configurationReference :=
                 assertString (index m2 "configuration_reference_blob_uri") in
               let! m3 := assertMap v in
               let! order := assertInt (index m3 "order") in
               let! m4 := assertMap v in
               let! tag := assertString (index m4 "tag") in
               Return (out ++ [ {|
                 VMGalleryApplication.PackageReferenceId := packageReferenceId;
                 VMGalleryApplication.ConfigurationReference :=
                   Some configurationReference;
                 VMGalleryApplication.Order := Some order;
                 VMGalleryApplication.Tags := Some tag |} ]))
            l acc = Return (acc ++ apps)
    /\ map (fun v => VMap (galleryApplicationsBlock v)) apps = l.
Proof.
  induction l as [|v l IH]; intros H acc.
  - exists []. now rewrite app_nil_r.
  - cbn [forallb] in H. apply andb_true_iff in H as [Hv Hl].
    destruct (conforms_resource_inv _ _ Hv) as (m & -> & _).
    resource_eq Hv m Hm.
    field Hv "package_reference_id" TypeString vid Hid.
    field Hv "configuration_reference_blob_uri" TypeString vuri Huri.
    field Hv "order" TypeInt vorder Horder.
    field Hv "tag" TypeString vtag Htag.
    apply conforms_string in Hid as [pid ->], Huri as [uri ->], Htag as [tag ->].
    apply conforms_int in Horder as [order ->].
    cbn [forEach assertMap bind]. rewrite Hk, Hk0, Hk1, Hk2.
    cbn [assertString assertInt bind].
    destruct (IH Hl (acc ++ [ {|
                 VMGalleryApplication.PackageReferenceId := pid;
                 VMGalleryApplication.ConfigurationReference := Some uri;
                 VMGalleryApplication.Order := Some order;
                 VMGalleryApplication.Tags := Some tag |} ])) as (apps & -> & Hflat).
    eexists (_ :: apps). split; [now rewrite <- app_assoc|].
    cbn [map]. rewrite Hflat. f_equal.
    rewrite Hk, Hk0, Hk1, Hk2 in Hm.
    rewrite Hm. reflexivity.
Qed.

(** X1. A non-empty [gallery_application] list (and a non-empty list of the
    deprecated [gallery_applications]) is given back by expanding it and
    flattening the result. *)
Theorem gallery_application_flatten_expand (x : slice value) :
  elems x <> [] ->
  (conforms VirtualMachineScaleSetGalleryApplicationSchema (VList x) = true ->
   (let! r := expandVirtualMachineScaleSetGalleryApplication x in
    flattenVirtualMachineScaleSetGalleryApplication r) = Return x)
  /\
  (conforms VirtualMachineScaleSetGalleryApplicationsSchema (VList x) = true ->
   (let! r := expandVirtualMachineScaleSetGalleryApplications x in
    flattenVirtualMachineScaleSetGalleryApplications r) = Return x).
Proof.
  intros Hne. destruct x as [|[|v l]]; try (exfalso; apply Hne; reflexivity).
  clear Hne.
  split; intros Hc.
  - unfold expandVirtualMachineScaleSetGalleryApplication.
    cbn [elems length Nat.eqb].
    destruct (gallery_application_loop (v :: l) Hc []) as (apps & -> & Hflat).
    cbn [bind app flattenVirtualMachineScaleSetGalleryApplication].
    destruct apps as [|a apps]; [discriminate|].
    cbn [length Nat.eqb]. now rewrite fold_append, Hflat.
  - unfold expandVirtualMachineScaleSetGalleryApplications.
    cbn [elems length Nat.eqb].
    destruct (gallery_applications_loop (v :: l) Hc []) as (apps & -> & Hflat).
    cbn [bind app flattenVirtualMachineScaleSetGalleryApplications].
    destruct apps as [|a apps]; [discriminate|].
    cbn [length Nat.eqb]. now rewrite fold_append, Hflat.
Qed.

Definition exampleGalleryApplications : slice value :=
  mk_slice [VMap (<["version_id" := VString "app1/versions/1.0.0"]>
                    (<["configuration_blob_uri" := VString ""]>
                       (<["order" := VInt 1]>
                          (<["tag" := VString "first"]> ∅))));
            VMap (<["version_id" := VString "app2/versions/2.1.0"]>
                    (<["configuration_blob_uri" := VString "https://example/config"]>
                       (<["order" := VInt 0]>
                          (<["tag" := VString ""]> ∅))))].

Lemma gallery_application_flatten_expand_witness :
  (let! r := expandVirtualMachineScaleSetGalleryApplication exampleGalleryApplications in
   flattenVirtualMachineScaleSetGalleryApplication r)
  = Return exampleGalleryApplications.
Proof.
  refine (proj1 (gallery_application_flatten_expand exampleGalleryApplications _) _).
  - discriminate.
  - vm_compute. reflexivity.
Defined.

(** X2. On an empty list the expansion is the nil pointer, and flattening that
    result panics: neither flatten function checks its argument before
    dereferencing it.  A pointer to an empty list flattens to the nil
    slice. *)
Theorem gallery_application_empty (x : slice value) :
  elems x = [] ->
  (expandVirtualMachineScaleSetGalleryApplication x = Return None
   /\ (let! r := expandVirtualMachineScaleSetGalleryApplication x in
       flattenVirtualMachineScaleSetGalleryApplication r) = Panic
   /\ flattenVirtualMachineScaleSetGalleryApplication (Some []) = Return nil_slice)
  /\
  (expandVirtualMachineScaleSetGalleryApplications x = Return None
   /\ (let! r := expandVirtualMachineScaleSetGalleryApplications x in
       flattenVirtualMachineScaleSetGalleryApplications r) = Panic
   /\ flattenVirtualMachineScaleSetGalleryApplications (Some []) = Return nil_slice).
Proof.
  intros H.
  unfold expandVirtualMachineScaleSetGalleryApplication,
    expandVirtualMachineScaleSetGalleryApplications.
  rewrite H. cbn. auto.
Qed.

Lemma gallery_application_empty_witness :
  (let! r := expandVirtualMachineScaleSetGalleryApplication (mk_slice []) in
   flattenVirtualMachineScaleSetGalleryApplication r) = Panic
  /\
  (let! r := expandVirtualMachineScaleSetGalleryApplications nil_slice in
   flattenVirtualMachineScaleSetGalleryApplications r) = Panic.
Proof.
  split.
  - exact (proj1 (proj2 (proj1 (gallery_application_empty (mk_slice []) eq_refl)))).
  - exact (proj1 (proj2 (proj2 (gallery_application_empty nil_slice eq_refl)))).
Defined.

(** *** The blocks of at most one element on the empty list *)

(** X3. On the empty list, [additional_capabilities] expands to a struct with
    no field set, which flattens to a block with the default value; the
    scale-in policy expands to nil and flattens to the empty list, and the
    spot restore policy to the nil slice. *)
Theorem one_element_blocks_on_empty_list (x : slice value) :
  elems x = [] ->
  (let! r := ExpandVirtualMachineScaleSetAdditionalCapabilities x in
   Return (FlattenVirtualMachineScaleSetAdditionalCapabilities r))
  = Return (mk_slice [VMap {[ "ultra_ssd_enabled" := VBool false ]}])
  /\
  (let! r := ExpandVirtualMachineScaleSetScaleInPolicy x in
   Return (FlattenVirtualMachineScaleSetScaleInPolicy r)) = Return (mk_slice [])
  /\
  (let! r := ExpandVirtualMachineScaleSetSpotRestorePolicy x in
   Return (FlattenVirtualMachineScaleSetSpotRestorePolicy r)) = Return nil_slice.
Proof.
  intros H.
  unfold ExpandVirtualMachineScaleSetAdditionalCapabilities,
    ExpandVirtualMachineScaleSetScaleInPolicy,
    ExpandVirtualMachineScaleSetSpotRestorePolicy.
  rewrite H. cbn. auto.
Qed.

Lemma one_element_blocks_on_empty_list_witness :
  (let! r := ExpandVirtualMachineScaleSetAdditionalCapabilities (mk_slice []) in
   Return (FlattenVirtualMachineScaleSetAdditionalCapabilities r))
  = Return (mk_slice [VMap {[ "ultra_ssd_enabled" := VBool false ]}]).
Proof.
  exact (proj1 (one_element_blocks_on_empty_list (mk_slice []) eq_refl)).
Defined.

(** *** Automatic OS upgrade policy *)

Definition VirtualMachineScaleSetAutomatedOSUpgradePolicySchema : schema :=
  TypeList (Resource [("disable_automatic_rollback", TypeBool);
                      ("enable_automatic_os_upgrade", TypeBool)]).

Definition ExpandVirtualMachineScaleSetAutomaticUpgradePolicy (input : slice value)
  : outcome (option AutomaticOSUpgradePolicy.t) :=
  if (length (elems input) =? 0)%nat then Return None
  else
    let! v0 := first input in
    let! raw := assertMap v0 in
    let! disableAutomaticRollback :=
      assertBool (index raw "disable_automatic_rollback") in
    let! enableAutomaticOSUpgrade :=
      assertBool (index raw "enable_automatic_os_upgrade") in
    Return (Some {|
      AutomaticOSUpgradePolicy.DisableAutomaticRollback := Some disableAutomaticRollback;
      AutomaticOSUpgradePolicy.EnableAutomaticOSUpgrade := Some enableAutomaticOSUpgrade |}).

Definition FlattenVirtualMachineScaleSetAutomaticOSUpgradePolicy
           (input : option AutomaticOSUpgradePolicy.t) : slice value :=
  match input with
  | None => mk_slice []
  | Some input =>
      let disableAutomaticRollback :=
        fromBool (AutomaticOSUpgradePolicy.DisableAutomaticRollback input) in
      let enableAutomaticOSUpgrade :=
        fromBool (AutomaticOSUpgradePolicy.EnableAutomaticOSUpgrade input) in
      mk_slice [VMap (<["disable_automatic_rollback" := VBool disableAutomaticRollback]>
                        (<["enable_automatic_os_upgrade" :=
                             VBool enableAutomaticOSUpgrade]> ∅))]
  end.

(** X4. Expanding a conforming list of at most one element and flattening the
    result gives a list with the same elements: the same block, or none. *)
Theorem automatic_os_upgrade_policy_flatten_expand (x : slice value) :
  conforms VirtualMachineScaleSetAutomatedOSUpgradePolicySchema (VList x) = true ->
  length (elems x) <= 1 ->
  exists r,
    (let! p := ExpandVirtualMachineScaleSetAutomaticUpgradePolicy x in
     Return (FlattenVirtualMachineScaleSetAutomaticOSUpgradePolicy p)) = Return r
    /\ elems r = elems x.
Proof.
  intros Hc Hlen. unfold ExpandVirtualMachineScaleSetAutomaticUpgradePolicy, first.
  destruct x as [|[|v [|w l]]]; [cbn; eauto..| |simpl in Hlen; lia].
  - apply conforms_list_one in Hc. rename Hc into Hv.
    destruct (conforms_resource_inv _ _ Hv) as (m & -> & _).
    resource_eq Hv m Hm.
    field Hv "disable_automatic_rollback" TypeBool v1 H1.
    field Hv "enable_automatic_os_upgrade" TypeBool v2 H2.
    apply conforms_bool in H1 as [b1 ->], H2 as [b2 ->].
    cbn [elems length Nat.eqb assertMap bind]. rewrite Hk, Hk0.
    cbn [assertBool bind]. eexists. split; [reflexivity|].
    rewrite Hk, Hk0 in Hm. cbn. now rewrite Hm.
Qed.

Definition exampleAutomaticOSUpgradePolicy : slice value :=
  mk_slice [VMap (<["disable_automatic_rollback" := VBool true]>
                    (<["enable_automatic_os_upgrade" := VBool false]> ∅))].

Lemma automatic_os_upgrade_policy_flatten_expand_witness :
  exists r,
    (let! p := ExpandVirtualMachineScaleSetAutomaticUpgradePolicy
                 exampleAutomaticOSUpgradePolicy in
     Return (FlattenVirtualMachineScaleSetAutomaticOSUpgradePolicy p)) = Return r
    /\ elems r = elems exampleAutomaticOSUpgradePolicy.
Proof.
  refine (automatic_os_upgrade_policy_flatten_expand
            exampleAutomaticOSUpgradePolicy _ _).
  - vm_compute. reflexivity.
  - vm_compute. lia.
Defined.

(** *** Rolling upgrade policy *)

Definition VirtualMachineScaleSetRollingUpgradePolicySchema : schema :=
  TypeList (Resource [("cross_zone_upgrades_enabled", TypeBool);
                      ("max_batch_instance_percent", TypeInt);
                      ("max_unhealthy_instance_percent", TypeInt);
                      ("max_unhealthy_upgraded_instance_percent", TypeInt);
                      ("pause_time_between_batches", TypeString);
                      ("prioritize_unhealthy_instances_enabled", TypeBool)]).

Definition crossZoneUpgradesNeedZones : string :=
  "`rolling_upgrade_policy.0.cross_zone_upgrades_enabled` can only be set to `true` when `zones` is specified".

Definition ExpandVirtualMachineScaleSetRollingUpgradePolicy
           (input : slice value) (isZonal : bool)
  : outcome (option RollingUpgradePolicy.t) :=
  if (length (elems input) =? 0)%nat then Return None
  else
    let! v0 := first input in
    let! raw := assertMap v0 in
    let! maxBatchInstancePercent :=
      assertInt (index raw "max_batch_instance_percent") in
    let! maxUnhealthyInstancePercent :=
      assertInt (index raw "max_unhealthy_instance_percent") in
    let! maxUnhealthyUpgradedInstancePercent :=
      assertInt (index raw "max_unhealthy_upgraded_instance_percent") in
    let! pauseTimeBetweenBatches :=
      assertString (index raw "pause_time_between_batches") in
    let! prioritizeUnhealthyInstances :=
      assertBool (index raw "prioritize_unhealthy_instances_enabled") in
    let rollingUpgradePolicy (enableCrossZoneUpgrade : option bool) := {|
      RollingUpgradePolicy.EnableCrossZoneUpgrade := enableCrossZoneUpgrade;
      RollingUpgradePolicy.MaxBatchInstancePercent := Some maxBatchInstancePercent;
      RollingUpgradePolicy.MaxUnhealthyInstancePercent :=
        Some maxUnhealthyInstancePercent;
      RollingUpgradePolicy.MaxUnhealthyUpgradedInstancePercent :=
        Some maxUnhealthyUpgradedInstancePercent;
      RollingUpgradePolicy.PauseTimeBetweenBatches := Some pauseTimeBetweenBatches;
      RollingUpgradePolicy.PrioritizeUnhealthyInstances :=
        Some prioritizeUnhealthyInstances |} in
    let! enableCrossZoneUpgrade :=
      assertBool (index raw "cross_zone_upgrades_enabled") in
    if isZonal then
      (* EnableCrossZoneUpgrade can only be set when for zonal scale set *)
      Return (Some (rollingUpgradePolicy (Some enableCrossZoneUpgrade)))
    else if enableCrossZoneUpgrade then
      Error crossZoneUpgradesNeedZones
    else Return (Some (rollingUpgradePolicy None)).

Definition FlattenVirtualMachineScaleSetRollingUpgradePolicy
           (input : option RollingUpgradePolicy.t) : slice value :=
  match input with
  | None => mk_slice []
  | Some input =>
      let enableCrossZoneUpgrade :=
        fromBool (RollingUpgradePolicy.EnableCrossZoneUpgrade input) in
      let maxBatchInstancePercent :=
        fromInt64 (RollingUpgradePolicy.MaxBatchInstancePercent input) in
      let maxUnhealthyInstancePercent :=
        fromInt64 (RollingUpgradePolicy.MaxUnhealthyInstancePercent input) in
      let maxUnhealthyUpgradedInstancePercent :=
        fromInt64 (RollingUpgradePolicy.MaxUnhealthyUpgradedInstancePercent input) in
      let pauseTimeBetweenBatches :=
        fromString (RollingUpgradePolicy.PauseTimeBetweenBatches input) in
      let prioritizeUnhealthyInstances :=
        fromBool (RollingUpgradePolicy.PrioritizeUnhealthyInstances input) in
      mk_slice [VMap
        (<["cross_zone_upgrades_enabled" := VBool enableCrossZoneUpgrade]>
           (<["max_batch_instance_percent" := VInt maxBatchInstancePercent]>
              (<["max_unhealthy_instance_percent" := VInt maxUnhealthyInstancePercent]>
                 (<["max_unhealthy_upgraded_instance_percent" :=
                      VInt maxUnhealthyUpgradedInstancePercent]>
                    (<["pause_time_between_batches" := VString pauseTimeBetweenBatches]>
                       (<["prioritize_unhealthy_instances_enabled" :=
                            VBool prioritizeUnhealthyInstances]> ∅))))))]
  end.

(** The first block of a list, as a map; the empty map when there is
    none. *)
Definition firstBlock (x : slice value) : gmap string value :=
  match elems x with
  | VMap m :: _ => m
  | _ => ∅
  end.

(** The boolean attribute [k] of a block, false when it is not set. *)
Definition boolAttribute (m : gmap string value) (k : string) : bool :=
  match m !! k with
  | Some (VBool b) => b
  | _ => false
  end.

(** X5. For a conforming one-element [rolling_upgrade_policy],
    [ExpandVirtualMachineScaleSetRollingUpgradePolicy] returns an error
    exactly when [cross_zone_upgrades_enabled] is true and the scale set
    is not zonal; whenever it returns a policy, flattening the policy gives
    the input back -- also for a scale set that is not zonal, where the
    cross-zone field is left unset. *)
Theorem rolling_upgrade_policy_cross_zone (x : slice value) (isZonal : bool) :
  conforms VirtualMachineScaleSetRollingUpgradePolicySchema (VList x) = true ->
  length (elems x) = 1 ->
  if negb isZonal && boolAttribute (firstBlock x) "cross_zone_upgrades_enabled"
  then ExpandVirtualMachineScaleSetRollingUpgradePolicy x isZonal
       = Error crossZoneUpgradesNeedZones
  else exists p,
      ExpandVirtualMachineScaleSetRollingUpgradePolicy x isZonal = Return (Some p)
      /\ FlattenVirtualMachineScaleSetRollingUpgradePolicy (Some p) = x.
Proof.
  intros Hc [v ->]%one_element_slice.
  apply conforms_list_one in Hc. rename Hc into Hv.
  destruct (conforms_resource_inv _ _ Hv) as (m & -> & _).
  resource_eq Hv m Hm.
  field Hv "cross_zone_upgrades_enabled" TypeBool v1 H1.
  field Hv "max_batch_instance_percent" TypeInt v2 H2.
  field Hv "max_unhealthy_instance_percent" TypeInt v3 H3.
  field Hv "max_unhealthy_upgraded_instance_percent" TypeInt v4 H4.
  field Hv "pause_time_between_batches" TypeString v5 H5.
  field Hv "prioritize_unhealthy_instances_enabled" TypeBool v6 H6.
  apply conforms_bool in H1 as [cross ->], H6 as [prio ->].
  apply conforms_int in H2 as [n2 ->], H3 as [n3 ->], H4 as [n4 ->].
  apply conforms_string in H5 as [pause ->].
  unfold ExpandVirtualMachineScaleSetRollingUpgradePolicy, first, firstBlock.
  cbn [elems length Nat.eqb assertMap bind].
  assert (boolAttribute m "cross_zone_upgrades_enabled" = cross) as ->.
  { unfold boolAttribute. unfold index in Hk.
    destruct (m !! "cross_zone_upgrades_enabled"); now subst. }
  rewrite Hk, Hk0, Hk1, Hk2, Hk3, Hk4.
  cbn [assertBool assertInt assertString bind].
  rewrite Hk, Hk0, Hk1, Hk2, Hk3, Hk4 in Hm.
  destruct isZonal, cross; cbn [negb andb]; try reflexivity;
    (eexists; split; [reflexivity|]; cbn; now rewrite Hm).
Qed.

Definition exampleRollingUpgradePolicy (crossZone : bool) : slice value :=
  mk_slice [VMap (<["cross_zone_upgrades_enabled" := VBool crossZone]>
                    (<["max_batch_instance_percent" := VInt 20]>
                       (<["max_unhealthy_instance_percent" := VInt 20]>
                          (<["max_unhealthy_upgraded_instance_percent" := VInt 5]>
                             (<["pause_time_between_batches" := VString "PT0S"]>
                                (<["prioritize_unhealthy_instances_enabled" :=
                                     VBool false]> ∅))))))].

Lemma rolling_upgrade_policy_cross_zone_witness :
  ExpandVirtualMachineScaleSetRollingUpgradePolicy (exampleRollingUpgradePolicy true) false
  = Error crossZoneUpgradesNeedZones
  /\
  exists p,
    ExpandVirtualMachineScaleSetRollingUpgradePolicy
      (exampleRollingUpgradePolicy false) false = Return (Some p)
    /\ FlattenVirtualMachineScaleSetRollingUpgradePolicy (Some p)
       = exampleRollingUpgradePolicy false.
Proof.
  split.
  - refine (rolling_upgrade_policy_cross_zone
              (exampleRollingUpgradePolicy true) false _ _).
    + vm_compute. reflexivity.
    + reflexivity.
  - refine (rolling_upgrade_policy_cross_zone
              (exampleRollingUpgradePolicy false) false _ _).
    + vm_compute. reflexivity.
    + reflexivity.
Defined.

(** *** Termination notification and automatic repairs *)

Definition VirtualMachineScaleSetTerminationNotificationSchema : schema :=
  TypeList (Resource [("enabled", TypeBool); ("timeout", TypeString)]).

Definition VirtualMachineScaleSetAutomaticRepairsPolicySchema : schema :=
  TypeList (Resource [("enabled", TypeBool); ("grace_period", TypeString)]).

Definition ExpandVirtualMachineScaleSetScheduledEventsProfile (input : slice value)
  : outcome (option ScheduledEventsProfile.t) :=
  if (length (elems input) =? 0)%nat then Return None
  else
    let! v0 := first input in
    let! raw := assertMap v0 in
    let! enabled := assertBool (index raw "enabled") in
    let! timeout := assertString (index raw "timeout") in
    Return (Some {|
      ScheduledEventsProfile.TerminateNotificationProfile := Some {|
        TerminateNotificationProfile.Enable := Some enabled;
        TerminateNotificationProfile.NotBeforeTimeout := Some timeout |} |}).

(** if enabled is set to false, there will be no ScheduledEventsProfile in
    response, to avoid plan non empty when a user explicitly set enabled to
    false, we need to assign a default block to this field *)
Definition FlattenVirtualMachineScaleSetScheduledEventsProfile
           (input : option ScheduledEventsProfile.t) : slice value :=
  let enabled :=
    match input with
    | Some {| ScheduledEventsProfile.TerminateNotificationProfile :=
                Some {| TerminateNotificationProfile.Enable := Some b |} |} => b
    | _ => false
    end in
  let timeout :=
    match input with
    | Some {| ScheduledEventsProfile.TerminateNotificationProfile :=
                Some {| TerminateNotificationProfile.NotBeforeTimeout := Some t |} |} => t
    | _ => "PT5M"
    end in
  mk_slice [VMap (<["enabled" := VBool enabled]>
                    (<["timeout" := VString timeout]> ∅))].

Definition ExpandVirtualMachineScaleSetAutomaticRepairsPolicy (input : slice value)
  : outcome (option AutomaticRepairsPolicy.t) :=
  if (length (elems input) =? 0)%nat then Return None
  else
    let! v0 := first input in
    let! raw := assertMap v0 in
    let! enabled := assertBool (index raw "enabled") in
    let! gracePeriod := assertString (index raw "grace_period") in
    Return (Some {| AutomaticRepairsPolicy.Enabled := Some enabled;
                    AutomaticRepairsPolicy.GracePeriod := Some gracePeriod |}).

Definition FlattenVirtualMachineScaleSetAutomaticRepairsPolicy
           (input : option AutomaticRepairsPolicy.t) : slice value :=
  let enabled :=
    match input with
    | Some {| AutomaticRepairsPolicy.Enabled := Some b |} => b
    | _ => false
    end in
  let gracePeriod :=
    match input with
    | Some {| AutomaticRepairsPolicy.GracePeriod := Some g |} => g
    | _ => "PT30M"
    end in
  mk_slice [VMap (<["enabled" := VBool enabled]>
                    (<["grace_period" := VString gracePeriod]> ∅))].

(** X6. The two flatten functions that assign a default block return exactly
    one block whatever they are given -- for the nil pointer the block
    [enabled = false] with the default timeout [PT5M], or grace period
    [PT30M] -- so that an empty configuration list does not come back
    empty, while a conforming one-element list comes back as it is. *)
Theorem default_block_policies (x : slice value) :
  (forall input,
     length (elems (FlattenVirtualMachineScaleSetScheduledEventsProfile input)) = 1)
  /\ (forall input,
        length (elems (FlattenVirtualMachineScaleSetAutomaticRepairsPolicy input)) = 1)
  /\ (elems x = [] ->
      (let! p := ExpandVirtualMachineScaleSetScheduledEventsProfile x in
       Return (FlattenVirtualMachineScaleSetScheduledEventsProfile p))
      = Return (mk_slice [VMap (<["enabled" := VBool false]>
                                  (<["timeout" := VString "PT5M"]> ∅))])
      /\ (let! p := ExpandVirtualMachineScaleSetAutomaticRepairsPolicy x in
          Return (FlattenVirtualMachineScaleSetAutomaticRepairsPolicy p))
         = Return (mk_slice [VMap (<["enabled" := VBool false]>
                                     (<["grace_period" := VString "PT30M"]> ∅))]))
  /\ (length (elems x) = 1 ->
      (conforms VirtualMachineScaleSetTerminationNotificationSchema (VList x) = true ->
       (let! p := ExpandVirtualMachineScaleSetScheduledEventsProfile x in
        Return (FlattenVirtualMachineScaleSetScheduledEventsProfile p)) = Return x)
      /\
      (conforms VirtualMachineScaleSetAutomaticRepairsPolicySchema (VList x) = true ->
       (let! p := ExpandVirtualMachineScaleSetAutomaticRepairsPolicy x in
        Return (FlattenVirtualMachineScaleSetAutomaticRepairsPolicy p)) = Return x)).
Proof.
  split; [reflexivity|]. split; [reflexivity|]. split.
  - intros H.
    unfold ExpandVirtualMachineScaleSetScheduledEventsProfile,
      ExpandVirtualMachineScaleSetAutomaticRepairsPolicy.
    rewrite H. cbn. auto.
  - intros [v ->]%one_element_slice. split; intros Hv%conforms_list_one.
    + destruct (conforms_resource_inv _ _ Hv) as (m & -> & _).
      resource_eq Hv m Hm.
      field Hv "enabled" TypeBool v1 H1.
      field Hv "timeout" TypeString v2 H2.
      apply conforms_bool in H1 as [b ->]. apply conforms_string in H2 as [t ->].
      unfold ExpandVirtualMachineScaleSetScheduledEventsProfile, first.
      cbn [elems length Nat.eqb assertMap bind]. rewrite Hk, Hk0.
      rewrite Hk, Hk0 in Hm. cbn. now rewrite Hm.
    + destruct (conforms_resource_inv _ _ Hv) as (m & -> & _).
      resource_eq Hv m Hm.
      field Hv "enabled" TypeBool v1 H1.
      field Hv "grace_period" TypeString v2 H2.
      apply conforms_bool in H1 as [b ->]. apply conforms_string in H2 as [t ->].
      unfold ExpandVirtualMachineScaleSetAutomaticRepairsPolicy, first.
      cbn [elems length Nat.eqb assertMap bind]. rewrite Hk, Hk0.
      rewrite Hk, Hk0 in Hm. cbn. now rewrite Hm.
Qed.

Definition exampleAutomaticRepairsPolicy : slice value :=
  mk_slice [VMap (<["enabled" := VBool true]>
                    (<["grace_period" := VString "PT45M"]> ∅))].

Lemma default_block_policies_witness :
  (let! p := ExpandVirtualMachineScaleSetScheduledEventsProfile nil_slice in
   Return (FlattenVirtualMachineScaleSetScheduledEventsProfile p))
  = Return (mk_slice [VMap (<["enabled" := VBool false]>
                              (<["timeout" := VString "PT5M"]> ∅))])
  /\
  (let! p := ExpandVirtualMachineScaleSetAutomaticRepairsPolicy
               exampleAutomaticRepairsPolicy in
   Return (FlattenVirtualMachineScaleSetAutomaticRepairsPolicy p))
  = Return exampleAutomaticRepairsPolicy.
Proof.
  split.
  - exact (proj1 (proj1 (proj2 (proj2 (default_block_policies nil_slice))) eq_refl)).
  - refine (proj2 (proj2 (proj2 (proj2 (default_block_policies
                                          exampleAutomaticRepairsPolicy))) eq_refl) _).
    vm_compute. reflexivity.
Defined.

End ScaleSetBlocks.

(* ===================================================================== *)
(** ** The OS disk and the data disks of a scale set *)
(* ===================================================================== *)

Module ScaleSetDisks.
Import Go GoNotations virtualmachinescalesets Compute ScaleSetBlocks.

Section OSDisk.

(** [virtualmachinescalesets.DiskCreateOptionTypesFromImage], a constant of
    the vendored package. *)
Variable DiskCreateOptionTypesFromImage : string.

Definition VirtualMachineScaleSetOSDiskSchema : schema :=
  TypeList (Resource [
    ("caching", TypeString);
    ("storage_account_type", TypeString);
    ("diff_disk_settings",
     TypeList (Resource [("option", TypeString); ("placement", TypeString)]));
    ("disk_encryption_set_id", TypeString);
    ("disk_size_gb", TypeInt);
    ("secure_vm_disk_encryption_set_id", TypeString);
    ("security_encryption_type", TypeString);
    ("write_accelerator_enabled", TypeBool)]).

(** Modelled from the spec: two constants of the vendored packages,
    [SecurityEncryptionTypesDiskWithVMGuestState] and
    [compute.CachingTypesReadOnly], with the values the error messages
    below spell out. *)
Definition SecurityEncryptionTypesDiskWithVMGuestState : string :=
  "DiskWithVMGuestState".
Definition CachingTypesReadOnly : string := "ReadOnly".

Definition secureVMDiskEncryptionNeedsGuestState : string :=
  "`secure_vm_disk_encryption_set_id` can only be specified when `security_encryption_type` is set to `DiskWithVMGuestState`".

Definition diffDiskSettingsNeedReadOnly : string :=
  "`diff_disk_settings` can only be set when `caching` is set to `ReadOnly`".

(** [if id := raw[k].(string); id != "" { ... &SubResource{Id: &id} }] *)
Definition subResourceOf (id : string) : option SubResource.t :=
  if negb (String.eqb id "") then Some {| SubResource.Id := Some id |} else None.

(** [if n := raw[k].(int); n > 0 { ... = utils.Int64(int64(n)) }] *)
Definition sizeOf (n : Z) : option Z := if (0 <? n)%Z then Some n else None.

Definition ExpandVirtualMachineScaleSetOSDisk (input : slice value) (osType : string)
  : outcome (option VirtualMachineScaleSetOSDisk.t) :=
  let! v0 := first input in
  let! raw := assertMap v0 in
  let! caching := assertString (index raw "caching") in
  let! storageAccountType := assertString (index raw "storage_account_type") in
  let! writeAcceleratorEnabled := assertBool (index raw "write_accelerator_enabled") in
  let! securityEncryptionType := assertString (index raw "security_encryption_type") in
  let securityProfile :=
    if negb (String.eqb securityEncryptionType "") then
      Some {| VMDiskSecurityProfile.DiskEncryptionSet := None;
              VMDiskSecurityProfile.SecurityEncryptionType :=
                Some securityEncryptionType |}
    else None in
  let! secureVMDiskEncryptionId :=
    assertString (index raw "secure_vm_disk_encryption_set_id") in
  let! securityProfile :=
    if negb (String.eqb secureVMDiskEncryptionId "") then
      if negb (String.eqb SecurityEncryptionTypesDiskWithVMGuestState
                          securityEncryptionType) then
        Error secureVMDiskEncryptionNeedsGuestState
      else
        (* disk.ManagedDisk.SecurityProfile.DiskEncryptionSet = ... *)
        match securityProfile with
        | Some profile =>
            Return (Some {|
              VMDiskSecurityProfile.DiskEncryptionSet :=
                Some {| SubResource.Id := Some secureVMDiskEncryptionId |};
              VMDiskSecurityProfile.SecurityEncryptionType :=
                VMDiskSecurityProfile.SecurityEncryptionType profile |})
        | None => Panic
        end
    else Return securityProfile in
  let! diskEncryptionSetId := assertString (index raw "disk_encryption_set_id") in
  let! osDiskSize := assertInt (index raw "disk_size_gb") in
  let! diffDiskSettingsRaw := assertList (index raw "diff_disk_settings") in
  let! diffDiskSettings :=
    if (0 <? length (elems diffDiskSettingsRaw))%nat then
      if negb (String.eqb caching CachingTypesReadOnly) then
        (* Restriction per https://docs.microsoft.com/azure/virtual-machines/ephemeral-os-disks-deploy#vm-template-deployment *)
        Error diffDiskSettingsNeedReadOnly
      else
        let! d0 := first diffDiskSettingsRaw in
        let! diffDiskRaw := assertMap d0 in
        let! option := assertString (index diffDiskRaw "option") in
        let! placement := assertString (index diffDiskRaw "placement") in
        Return (Some {| DiffDiskSettings.Option := Some option;
                        DiffDiskSettings.Placement := Some placement |})
    else Return None in
  Return (Some {|
    VirtualMachineScaleSetOSDisk.Caching := Some caching;
    (* these have to be hard-coded so there's no point exposing them *)
    VirtualMachineScaleSetOSDisk.CreateOption := DiskCreateOptionTypesFromImage;
    VirtualMachineScaleSetOSDisk.DiffDiskSettings := diffDiskSettings;
    VirtualMachineScaleSetOSDisk.DiskSizeGB := sizeOf osDiskSize;
    VirtualMachineScaleSetOSDisk.ManagedDisk := Some {|
      VirtualMachineScaleSetManagedDiskParameters.DiskEncryptionSet :=
        subResourceOf diskEncryptionSetId;
      VirtualMachineScaleSetManagedDiskParameters.SecurityProfile := securityProfile;
      VirtualMachineScaleSetManagedDiskParameters.StorageAccountType :=
        Some storageAccountType |};
    VirtualMachineScaleSetOSDisk.OsType := Some osType;
    VirtualMachineScaleSetOSDisk.WriteAcceleratorEnabled :=
      Some writeAcceleratorEnabled |}).

Definition ExpandVirtualMachineScaleSetOSDiskUpdate (input : slice value)
  : outcome (option VirtualMachineScaleSetUpdateOSDisk.t) :=
  let! v0 := first input in
  let! raw := assertMap v0 in
  let! caching := assertString (index raw "caching") in
  let! storageAccountType := assertString (index raw "storage_account_type") in
  let! writeAcceleratorEnabled := assertBool (index raw "write_accelerator_enabled") in
  let! diskEncryptionSetId := assertString (index raw "disk_encryption_set_id") in
  let! osDiskSize := assertInt (index raw "disk_size_gb") in
  Return (Some {|
    VirtualMachineScaleSetUpdateOSDisk.Caching := Some caching;
    VirtualMachineScaleSetUpdateOSDisk.DiskSizeGB := sizeOf osDiskSize;
    VirtualMachineScaleSetUpdateOSDisk.ManagedDisk := Some {|
      VirtualMachineScaleSetManagedDiskParameters.DiskEncryptionSet :=
        subResourceOf diskEncryptionSetId;
      VirtualMachineScaleSetManagedDiskParameters.SecurityProfile := None;
      VirtualMachineScaleSetManagedDiskParameters.StorageAccountType :=
        Some storageAccountType |};
    VirtualMachineScaleSetUpdateOSDisk.WriteAcceleratorEnabled :=
      Some writeAcceleratorEnabled |}).

(** The elements of the list attribute [k] of a block. *)
Definition listAttribute (m : gmap string value) (k : string) : list value :=
  match m !! k with
  | Some (VList l) => elems l
  | _ => []
  end.

(** [secure_vm_disk_encryption_set_id] is given without the security
    encryption type that allows it. *)
Definition secureDiskEncryptionMisused (m : gmap string value) : bool :=
  negb (String.eqb (stringAttribute (VMap m) "secure_vm_disk_encryption_set_id") "")
  && negb (String.eqb (stringAttribute (VMap m) "security_encryption_type")
                      "DiskWithVMGuestState").

(** [diff_disk_settings] is given with a caching other than [ReadOnly]. *)
Definition diffDiskSettingsMisused (m : gmap string value) : bool :=
  (0 <? length (listAttribute m "diff_disk_settings"))%nat
  && negb (String.eqb (stringAttribute (VMap m) "caching") "ReadOnly").

Lemma stringAttribute_index (m : gmap string value) (k s : string) :
  index m k = VString s -> stringAttribute (VMap m) k = s.
Proof.
  unfold index, stringAttribute. destruct (m !! k); intros; now subst.
Qed.

Lemma intAttribute_index (m : gmap string value) (k : string) (n : Z) :
  index m k = VInt n -> intAttribute (VMap m) k = n.
Proof.
  unfold index, intAttribute. destruct (m !! k); intros; now subst.
Qed.

Lemma listAttribute_index (m : gmap string value) (k : string) (l : slice value) :
  index m k = VList l -> listAttribute m k = elems l.
Proof.
  unfold index, listAttribute. destruct (m !! k); intros; now subst.
Qed.

Lemma conforms_list (elem : schema) (l : slice value) :
  conforms (TypeList elem) (VList l) = forallb (conforms elem) (elems l).
Proof. reflexivity. Qed.

Lemma eqb_sym_string (a b : string) : String.eqb a b = String.eqb b a.
Proof.
  destruct (String.eqb_spec a b) as [->|H].
  - now rewrite String.eqb_refl.
  - symmetry. apply String.eqb_neq. congruence.
Qed.

(** X7. What the expansion of a conforming one-element [os_disk] is: one of
    the two errors, in the order the function checks them, or a disk.  It
    never panics: where it writes through [SecurityProfile], the profile
    has been set. *)
Theorem os_disk_expand_outcome (x : slice value) (osType : string) :
  conforms VirtualMachineScaleSetOSDiskSchema (VList x) = true ->
  length (elems x) = 1 ->
  if secureDiskEncryptionMisused (firstBlock x) then
    ExpandVirtualMachineScaleSetOSDisk x osType
    = Error secureVMDiskEncryptionNeedsGuestState
  else if diffDiskSettingsMisused (firstBlock x) then
    ExpandVirtualMachineScaleSetOSDisk x osType = Error diffDiskSettingsNeedReadOnly
  else
    exists disk,
      ExpandVirtualMachineScaleSetOSDisk x osType = Return (Some disk)
      /\ VirtualMachineScaleSetOSDisk.CreateOption disk = DiskCreateOptionTypesFromImage
      /\ VirtualMachineScaleSetOSDisk.OsType disk = Some osType
      /\ VirtualMachineScaleSetOSDisk.DiskSizeGB disk
         = sizeOf (intAttribute (VMap (firstBlock x)) "disk_size_gb").
Proof.
  intros Hc [v ->]%one_element_slice.
  apply conforms_list_one in Hc. rename Hc into Hv.
  destruct (conforms_resource_inv _ _ Hv) as (m & -> & _).
  field Hv "caching" TypeString v1 H1.
  field Hv "storage_account_type" TypeString v2 H2.
  field Hv "diff_disk_settings"
    (TypeList (Resource [("option", TypeString); ("placement", TypeString)])) v3 H3.
  field Hv "disk_encryption_set_id" TypeString v4 H4.
  field Hv "disk_size_gb" TypeInt v5 H5.
  field Hv "secure_vm_disk_encryption_set_id" TypeString v6 H6.
  field Hv "security_encryption_type" TypeString v7 H7.
  field Hv "write_accelerator_enabled" TypeBool v8 H8.
  apply conforms_string in H1 as [caching ->], H2 as [sat ->], H4 as [des ->],
        H6 as [secure ->], H7 as [setype ->].
  apply conforms_int in H5 as [size ->]. apply conforms_bool in H8 as [wae ->].
  destruct v3 as [| | | | | |diff| |]; try discriminate.
  rewrite conforms_list in H3.
  unfold secureDiskEncryptionMisused, diffDiskSettingsMisused, firstBlock.
  cbn [elems].
  rewrite (stringAttribute_index _ _ _ Hk), (stringAttribute_index _ _ _ Hk4),
    (stringAttribute_index _ _ _ Hk5), (listAttribute_index _ _ _ Hk1),
    (intAttribute_index _ _ _ Hk3).
  unfold ExpandVirtualMachineScaleSetOSDisk, first. cbn [elems assertMap bind].
  rewrite Hk, Hk0, Hk1, Hk2, Hk3, Hk4, Hk5, Hk6.
  cbn [assertString assertBool assertInt assertList bind].
  unfold SecurityEncryptionTypesDiskWithVMGuestState, CachingTypesReadOnly.
  rewrite (eqb_sym_string "DiskWithVMGuestState" setype).
  destruct (String.eqb secure "") eqn:Es; cbn [negb andb].
  - cbn [bind]. destruct (elems diff) as [|d0 ds] eqn:Ed; cbn [length Nat.ltb Nat.leb andb].
    + cbn [bind]. eauto 10.
    + destruct (String.eqb caching "ReadOnly"); cbn [negb]; [|reflexivity].
      cbn [forallb] in H3. apply andb_true_iff in H3 as [Hd _].
      destruct (conforms_resource_inv _ _ Hd) as (dm & -> & _).
      field Hd "option" TypeString o1 Ho1. field Hd "placement" TypeString o2 Ho2.
      apply conforms_string in Ho1 as [opt ->], Ho2 as [pl ->].
      cbn [assertMap bind]. rewrite Hk7, Hk8. cbn [assertString bind]. eauto 10.
  - destruct (String.eqb setype "DiskWithVMGuestState") eqn:Et; cbn [negb];
      [|reflexivity].
    apply String.eqb_eq in Et. subst setype. cbn [String.eqb negb bind].
    destruct (elems diff) as [|d0 ds] eqn:Ed; cbn [length Nat.ltb Nat.leb andb].
    + cbn [bind]. eauto 10.
    + destruct (String.eqb caching "ReadOnly"); cbn [negb]; [|reflexivity].
      cbn [forallb] in H3. apply andb_true_iff in H3 as [Hd _].
      destruct (conforms_resource_inv _ _ Hd) as (dm & -> & _).
      field Hd "option" TypeString o1 Ho1. field Hd "placement" TypeString o2 Ho2.
      apply conforms_string in Ho1 as [opt ->], Ho2 as [pl ->].
      cbn [assertMap bind]. rewrite Hk7, Hk8. cbn [assertString bind]. eauto 10.
Qed.

Lemma lookup_of_index (m : gmap string value) (k : string) (v : value) :
  index m k = v -> isNil v = false -> m !! k = Some v.
Proof.
  unfold index. destruct (m !! k); intros <- H; [reflexivity | discriminate].
Qed.

Lemma diskSizeOf_sizeOf (n : Z) : (0 <= n)%Z -> diskSizeOf (sizeOf n) = n.
Proof.
  intros H. unfold sizeOf, diskSizeOf.
  destruct (0 <? n)%Z eqn:E.
  - apply Z.ltb_lt in E. destruct (n =? 0)%Z eqn:E0; [apply Z.eqb_eq in E0; lia|].
    reflexivity.
  - apply Z.ltb_ge in E. lia.
Qed.

Lemma subResourceOf_id (s : string) :
  match subResourceOf s with
  | Some {| SubResource.Id := Some id |} => id
  | _ => EmptyString
  end = s.
Proof.
  unfold subResourceOf. destruct (String.eqb_spec s ""); simpl; congruence.
Qed.

(** A list value that is not the nil slice and has at most one element. *)
Definition atMostOneBlock (v : value) : bool :=
  match v with
  | VList (mk_slice l) => (length l <=? 1)%nat
  | _ => false
  end.

(** X8. When the expansion of a conforming one-element [os_disk] returns a
    disk, flattening that disk gives the configuration back, provided
    [disk_size_gb] is not negative and [diff_disk_settings] holds at most
    one block. *)
Theorem os_disk_flatten_expand
        (x : slice value) (osType : string) (disk : VirtualMachineScaleSetOSDisk.t) :
  conforms VirtualMachineScaleSetOSDiskSchema (VList x) = true ->
  length (elems x) = 1 ->
  (0 <= intAttribute (VMap (firstBlock x)) "disk_size_gb")%Z ->
  atMostOneBlock (index (firstBlock x) "diff_disk_settings") = true ->
  ExpandVirtualMachineScaleSetOSDisk x osType = Return (Some disk) ->
  FlattenVirtualMachineScaleSetOSDisk (Some disk) = x.
Proof.
  intros Hc [v ->]%one_element_slice.
  apply conforms_list_one in Hc. rename Hc into Hv.
  destruct (conforms_resource_inv _ _ Hv) as (m & -> & Hsize).
  field Hv "caching" TypeString v1 H1.
  field Hv "storage_account_type" TypeString v2 H2.
  field Hv "diff_disk_settings"
    (TypeList (Resource [("option", TypeString); ("placement", TypeString)])) v3 H3.
  field Hv "disk_encryption_set_id" TypeString v4 H4.
  field Hv "disk_size_gb" TypeInt v5 H5.
  field Hv "secure_vm_disk_encryption_set_id" TypeString v6 H6.
  field Hv "security_encryption_type" TypeString v7 H7.
  field Hv "write_accelerator_enabled" TypeBool v8 H8.
  apply conforms_string in H1 as [caching ->], H2 as [sat ->], H4 as [des ->],
        H6 as [secure ->], H7 as [setype ->].
  apply conforms_int in H5 as [size ->]. apply conforms_bool in H8 as [wae ->].
  destruct v3 as [| | | | | |diff| |]; try discriminate.
  rewrite conforms_list in H3.
  unfold firstBlock. cbn [elems].
  rewrite (intAttribute_index _ _ _ Hk3), Hk1.
  intros Hnonneg Hdiff Hexp.
  assert (m = list_to_map
                [("caching", VString caching);
                 ("disk_size_gb", VInt size);
                 ("diff_disk_settings", VList diff);
                 ("storage_account_type", VString sat);
                 ("write_accelerator_enabled", VBool wae);
                 ("disk_encryption_set_id", VString des);
                 ("secure_vm_disk_encryption_set_id", VString secure);
                 ("security_encryption_type", VString setype)]) as Hm.
  { apply resource_of_list; [compute_done | exact Hsize |].
    repeat constructor; cbn [fst snd]; now apply lookup_of_index. }
  revert Hexp.
  unfold ExpandVirtualMachineScaleSetOSDisk, first. cbn [elems assertMap bind].
  rewrite Hk, Hk0, Hk1, Hk2, Hk3, Hk4, Hk5, Hk6.
  cbn [assertString assertBool assertInt assertList bind].
  unfold SecurityEncryptionTypesDiskWithVMGuestState, CachingTypesReadOnly.
  rewrite (eqb_sym_string "DiskWithVMGuestState" setype).
  destruct diff as [|[|d0 [|d1 ds]]]; try discriminate Hdiff; clear Hdiff;
    cbn [elems length Nat.ltb Nat.leb] in *.
  - (* no ephemeral disk settings *)
    destruct (String.eqb_spec secure "") as [->|Hs]; cbn [negb bind].
    + intros [= <-]. unfold FlattenVirtualMachineScaleSetOSDisk,
        managedDiskStorageAccountType, managedDiskEncryptionSetId.
      cbn [VirtualMachineScaleSetOSDisk.DiffDiskSettings
             VirtualMachineScaleSetOSDisk.DiskSizeGB
             VirtualMachineScaleSetOSDisk.ManagedDisk
             VirtualMachineScaleSetOSDisk.Caching
             VirtualMachineScaleSetOSDisk.WriteAcceleratorEnabled
             VirtualMachineScaleSetManagedDiskParameters.DiskEncryptionSet
             VirtualMachineScaleSetManagedDiskParameters.SecurityProfile
             VirtualMachineScaleSetManagedDiskParameters.StorageAccountType
             fromString fromBool].
      rewrite subResourceOf_id, (diskSizeOf_sizeOf _ Hnonneg).
      destruct (String.eqb_spec setype "") as [->|Ht]; cbn [negb];
        rewrite Hm; reflexivity.
    + destruct (String.eqb_spec setype "DiskWithVMGuestState") as [->|Ht];
        cbn [negb String.eqb bind]; [|discriminate].
      intros [= <-]. unfold FlattenVirtualMachineScaleSetOSDisk,
        managedDiskStorageAccountType, managedDiskEncryptionSetId.
      cbn. rewrite subResourceOf_id, (diskSizeOf_sizeOf _ Hnonneg).
      rewrite Hm; reflexivity.
  - (* one block of ephemeral disk settings *)
    cbn [forallb] in H3. apply andb_true_iff in H3 as [Hd _].
    destruct (conforms_resource_inv _ _ Hd) as (dm & -> & Hdsize).
    field Hd "option" TypeString o1 Ho1. field Hd "placement" TypeString o2 Ho2.
    apply conforms_string in Ho1 as [opt ->], Ho2 as [pl ->].
    assert (dm = list_to_map [("option", VString opt); ("placement", VString pl)])
      as Hdm.
    { apply resource_of_list; [compute_done | exact Hdsize |].
      repeat constructor; cbn [fst snd]; now apply lookup_of_index. }
    cbn [assertMap bind]. rewrite Hk7, Hk8. cbn [assertString bind].
    destruct (String.eqb_spec secure "") as [->|Hs]; cbn [negb bind].
    + destruct (String.eqb caching "ReadOnly"); cbn [negb bind]; [|discriminate].
      intros [= <-]. unfold FlattenVirtualMachineScaleSetOSDisk,
        managedDiskStorageAccountType, managedDiskEncryptionSetId.
      cbn [VirtualMachineScaleSetOSDisk.DiffDiskSettings
             VirtualMachineScaleSetOSDisk.DiskSizeGB
             VirtualMachineScaleSetOSDisk.ManagedDisk
             VirtualMachineScaleSetOSDisk.Caching
             VirtualMachineScaleSetOSDisk.WriteAcceleratorEnabled
             VirtualMachineScaleSetManagedDiskParameters.DiskEncryptionSet
             VirtualMachineScaleSetManagedDiskParameters.SecurityProfile
             VirtualMachineScaleSetManagedDiskParameters.StorageAccountType
             DiffDiskSettings.Option DiffDiskSettings.Placement
             fromString fromBool append elems app].
      rewrite subResourceOf_id, (diskSizeOf_sizeOf _ Hnonneg).
      destruct (String.eqb_spec setype "") as [->|Ht]; cbn [negb];
        rewrite Hm, Hdm; reflexivity.
    + destruct (String.eqb_spec setype "DiskWithVMGuestState") as [->|Ht];
        cbn [negb String.eqb bind]; [|discriminate].
      destruct (String.eqb caching "ReadOnly"); cbn [negb bind]; [|discriminate].
      intros [= <-]. unfold FlattenVirtualMachineScaleSetOSDisk,
        managedDiskStorageAccountType, managedDiskEncryptionSetId.
      cbn. rewrite subResourceOf_id, (diskSizeOf_sizeOf _ Hnonneg).
      rewrite Hm, Hdm; reflexivity.
Qed.

End OSDisk.

Definition exampleOSDisk (caching securityEncryptionType secureId : string)
           (diffDiskSettings : list value) : slice value :=
  mk_slice [VMap (<["caching" := VString caching]>
                    (<["storage_account_type" := VString "Premium_LRS"]>
                       (<["diff_disk_settings" := VList (mk_slice diffDiskSettings)]>
                          (<["disk_encryption_set_id" := VString ""]>
                             (<["disk_size_gb" := VInt 64]>
                                (<["secure_vm_disk_encryption_set_id" := VString secureId]>
                                   (<["security_encryption_type" :=
                                        VString securityEncryptionType]>
                                      (<["write_accelerator_enabled" :=
                                           VBool false]> ∅))))))))].

Definition exampleDiffDiskSettings : list value :=
  [VMap (<["option" := VString "Local"]>
           (<["placement" := VString "CacheDisk"]> ∅))].

Lemma os_disk_expand_outcome_witness :
  ExpandVirtualMachineScaleSetOSDisk "FromImage"
    (exampleOSDisk "ReadWrite" "VMGuestStateOnly" "set1" []) "Linux"
  = Error secureVMDiskEncryptionNeedsGuestState
  /\
  ExpandVirtualMachineScaleSetOSDisk "FromImage"
    (exampleOSDisk "ReadWrite" "" "" exampleDiffDiskSettings) "Linux"
  = Error diffDiskSettingsNeedReadOnly.
Proof.
  split.
  - refine (os_disk_expand_outcome "FromImage"
              (exampleOSDisk "ReadWrite" "VMGuestStateOnly" "set1" []) "Linux" _ _).
    + vm_compute. reflexivity.
    + reflexivity.
  - refine (os_disk_expand_outcome "FromImage"
              (exampleOSDisk "ReadWrite" "" "" exampleDiffDiskSettings) "Linux" _ _).
    + vm_compute. reflexivity.
    + reflexivity.
Defined.

Lemma os_disk_flatten_expand_witness :
  exists disk,
    ExpandVirtualMachineScaleSetOSDisk "FromImage"
      (exampleOSDisk "ReadOnly" "DiskWithVMGuestState" "set1" exampleDiffDiskSettings)
      "Linux" = Return (Some disk)
    /\ FlattenVirtualMachineScaleSetOSDisk (Some disk)
       = exampleOSDisk "ReadOnly" "DiskWithVMGuestState" "set1" exampleDiffDiskSettings.
Proof.
  eexists. split; [vm_compute; reflexivity|].
  refine (os_disk_flatten_expand "FromImage"
            (exampleOSDisk "ReadOnly" "DiskWithVMGuestState" "set1"
                           exampleDiffDiskSettings)
            "Linux" _ _ _ _ _ _).
  - vm_compute. reflexivity.
  - reflexivity.
  - vm_compute. discriminate.
  - vm_compute. reflexivity.
  - vm_compute. reflexivity.
Defined.

(** X9. The expansion for an update never fails on a conforming one-element
    [os_disk] -- it reads neither the security settings nor the ephemeral
    disk settings -- and whenever the expansion for creation returns a
    disk, the two agree on the caching, the size, the write accelerator
    and the managed disk's storage account type and encryption set. *)
Theorem os_disk_update_agrees_with_create
        (fromImage : string) (x : slice value) (osType : string) :
  conforms VirtualMachineScaleSetOSDiskSchema (VList x) = true ->
  length (elems x) = 1 ->
  exists update,
    ExpandVirtualMachineScaleSetOSDiskUpdate x = Return (Some update)
    /\ forall disk,
        ExpandVirtualMachineScaleSetOSDisk fromImage x osType = Return (Some disk) ->
        VirtualMachineScaleSetUpdateOSDisk.Caching update
        = VirtualMachineScaleSetOSDisk.Caching disk
        /\ VirtualMachineScaleSetUpdateOSDisk.DiskSizeGB update
           = VirtualMachineScaleSetOSDisk.DiskSizeGB disk
        /\ VirtualMachineScaleSetUpdateOSDisk.WriteAcceleratorEnabled update
           = VirtualMachineScaleSetOSDisk.WriteAcceleratorEnabled disk
        /\ exists md md',
            VirtualMachineScaleSetUpdateOSDisk.ManagedDisk update = Some md
            /\ VirtualMachineScaleSetOSDisk.ManagedDisk disk = Some md'
            /\ VirtualMachineScaleSetManagedDiskParameters.StorageAccountType md
               = VirtualMachineScaleSetManagedDiskParameters.StorageAccountType md'
            /\ VirtualMachineScaleSetManagedDiskParameters.DiskEncryptionSet md
               = VirtualMachineScaleSetManagedDiskParameters.DiskEncryptionSet md'.
Proof.
  intros Hc [v ->]%one_element_slice.
  apply conforms_list_one in Hc. rename Hc into Hv.
  destruct (conforms_resource_inv _ _ Hv) as (m & -> & Hsize).
  field Hv "caching" TypeString v1 H1.
  field Hv "storage_account_type" TypeString v2 H2.
  field Hv "diff_disk_settings"
    (TypeList (Resource [("option", TypeString); ("placement", TypeString)])) v3 H3.
  field Hv "disk_encryption_set_id" TypeString v4 H4.
  field Hv "disk_size_gb" TypeInt v5 H5.
  field Hv "secure_vm_disk_encryption_set_id" TypeString v6 H6.
  field Hv "security_encryption_type" TypeString v7 H7.
  field Hv "write_accelerator_enabled" TypeBool v8 H8.
  apply conforms_string in H1 as [caching ->], H2 as [sat ->], H4 as [des ->],
        H6 as [secure ->], H7 as [setype ->].
  apply conforms_int in H5 as [size ->]. apply conforms_bool in H8 as [wae ->].
  destruct v3 as [| | | | | |diff| |]; try discriminate.
  unfold ExpandVirtualMachineScaleSetOSDiskUpdate,
    ExpandVirtualMachineScaleSetOSDisk, first.
  cbn [elems assertMap bind].
  rewrite Hk, Hk0, Hk1, Hk2, Hk3, Hk4, Hk5, Hk6.
  cbn [assertString assertBool assertInt assertList bind].
  eexists. split; [reflexivity|]. intros disk.
  destruct (if negb (String.eqb secure "") then _ else _) as [profile| |];
    cbn [bind]; try discriminate.
  destruct (if (0 <? length (elems diff))%nat then _ else _) as [settings| |];
    cbn [bind]; try discriminate.
  intros [= <-]. cbn. eauto 10.
Qed.

Lemma os_disk_update_agrees_with_create_witness :
  exists update,
    ExpandVirtualMachineScaleSetOSDiskUpdate
      (exampleOSDisk "ReadWrite" "VMGuestStateOnly" "set1" [])
    = Return (Some update).
Proof.
  destruct (os_disk_update_agrees_with_create "FromImage"
              (exampleOSDisk "ReadWrite" "VMGuestStateOnly" "set1" []) "Linux")
    as (update & H & _).
  - vm_compute. reflexivity.
  - reflexivity.
  - exists update. exact H.
Defined.

(** *** Data disks, flattened *)

(** The block of one data disk, as the loop of
    [FlattenVirtualMachineScaleSetDataDisk] builds it. *)
Definition dataDiskBlock (v : VirtualMachineScaleSetDataDisk.t) : value :=
  VMap (<["name" := VString (fromString (VirtualMachineScaleSetDataDisk.Name v))]>
          (<["caching" :=
               VString (fromString (VirtualMachineScaleSetDataDisk.Caching v))]>
             (<["create_option" :=
                  VString (VirtualMachineScaleSetDataDisk.CreateOption v)]>
                (<["lun" := VInt64 (VirtualMachineScaleSetDataDisk.Lun v)]>
                   (<["disk_encryption_set_id" :=
                        VString (managedDiskEncryptionSetId
                                   (VirtualMachineScaleSetDataDisk.ManagedDisk v))]>
                      (<["disk_size_gb" :=
                           VInt (diskSizeOf (VirtualMachineScaleSetDataDisk.DiskSizeGB v))]>
                         (<["storage_account_type" :=
                              VString (managedDiskStorageAccountType
                                         (VirtualMachineScaleSetDataDisk.ManagedDisk v))]>
                            (<["ultra_ssd_disk_iops_read_write" :=
                                 VInt (fromInt64
                                         (VirtualMachineScaleSetDataDisk.DiskIOPSReadWrite v))]>
                               (<["ultra_ssd_disk_mbps_read_write" :=
                                    VInt (fromInt64
                                            (VirtualMachineScaleSetDataDisk.DiskMBpsReadWrite
                                               v))]>
                                  (<["write_accelerator_enabled" :=
                                       VBool (fromBool
                                                (VirtualMachineScaleSetDataDisk.WriteAcceleratorEnabled
                                                   v))]> ∅)))))))))).

Lemma FlattenVirtualMachineScaleSetDataDisk_blocks
      (disks : list VirtualMachineScaleSetDataDisk.t) :
  FlattenVirtualMachineScaleSetDataDisk (Some disks)
  = mk_slice (map dataDiskBlock disks).
Proof.
  unfold FlattenVirtualMachineScaleSetDataDisk.
  exact (fold_append dataDiskBlock disks []).
Qed.

(** The configured block with its [lun] held as an [int64], the type the
    flattened block gives it. *)
Definition withInt64Lun (v : value) : value :=
  match v with
  | VMap m => VMap (<["lun" := VInt64 (intAttribute v "lun")]> m)
  | _ => v
  end.

Definition throughputNotNegative (v : value) : bool :=
  (0 <=? intAttribute v "ultra_ssd_disk_iops_read_write")%Z
  && (0 <=? intAttribute v "ultra_ssd_disk_mbps_read_write")%Z.

Lemma fromInt64_setWhenPositive (n : Z) :
  (0 <= n)%Z -> fromInt64 (setWhenPositive n) = n.
Proof.
  intros H. unfold setWhenPositive, fromInt64.
  destruct (0 <? n)%Z eqn:E; [reflexivity|]. apply Z.ltb_ge in E. lia.
Qed.

Lemma diskSizeOf_Some (n : Z) : diskSizeOf (Some n) = n.
Proof.
  unfold diskSizeOf. destruct (n =? 0)%Z eqn:E; [|reflexivity].
  apply Z.eqb_eq in E. now subst.
Qed.

Lemma nonEmptyString_of_string (s : string) :
  exists r, nonEmptyString (VString s) = Return r /\ fromString r = s.
Proof.
  unfold nonEmptyString. cbn.
  destruct (String.eqb_spec s ""); subst; eauto.
Qed.

Lemma expandDataDisk_block
      (ultraSSDEnabled : bool) (v : value) (disk : VirtualMachineScaleSetDataDisk.t) :
  conforms (Elem VirtualMachineScaleSetDataDiskSchema) v = true ->
  throughputNotNegative v = true ->
  expandDataDisk ultraSSDEnabled v = Return disk ->
  dataDiskBlock disk = withInt64Lun v.
Proof.
  intros Hv Hnn.
  destruct (conforms_resource_inv _ _ Hv) as (m & -> & Hsize).
  field Hv "name" TypeString v1 H1.
  field Hv "caching" TypeString v2 H2.
  field Hv "create_option" TypeString v3 H3.
  field Hv "disk_encryption_set_id" TypeString v4 H4.
  field Hv "disk_size_gb" TypeInt v5 H5.
  field Hv "lun" TypeInt v6 H6.
  field Hv "storage_account_type" TypeString v7 H7.
  field Hv "write_accelerator_enabled" TypeBool v8 H8.
  field Hv "ultra_ssd_disk_iops_read_write" TypeInt v9 H9.
  field Hv "ultra_ssd_disk_mbps_read_write" TypeInt v10 H10.
  apply conforms_string in H1 as [name ->], H2 as [caching ->], H3 as [co ->],
        H4 as [des ->], H7 as [sat ->].
  apply conforms_int in H5 as [size ->], H6 as [lun ->], H9 as [iops ->],
        H10 as [mbps ->].
  apply conforms_bool in H8 as [wae ->].
  assert (m = list_to_map
                [("name", VString name);
                 ("caching", VString caching);
                 ("create_option", VString co);
                 ("lun", VInt lun);
                 ("disk_encryption_set_id", VString des);
                 ("disk_size_gb", VInt size);
                 ("storage_account_type", VString sat);
                 ("ultra_ssd_disk_iops_read_write", VInt iops);
                 ("ultra_ssd_disk_mbps_read_write", VInt mbps);
                 ("write_accelerator_enabled", VBool wae)]) as Hm.
  { apply resource_of_list; [compute_done | exact Hsize |].
    repeat constructor; cbn [fst snd]; now apply lookup_of_index. }
  unfold throughputNotNegative in Hnn.
  rewrite (intAttribute_index _ _ _ Hk7), (intAttribute_index _ _ _ Hk8) in Hnn.
  apply andb_true_iff in Hnn as [Hi%Z.leb_le Hb%Z.leb_le].
  unfold withInt64Lun. rewrite (intAttribute_index _ _ _ Hk4).
  unfold expandDataDisk. cbn [assertMap bind].
  rewrite !positiveInt_typed
    by (apply lookup_of_index in Hk7, Hk8; [now rewrite ?Hk7, ?Hk8 | reflexivity..]).
  rewrite (intAttribute_index _ _ _ Hk7), (intAttribute_index _ _ _ Hk8).
  rewrite Hk, Hk0, Hk1, Hk2, Hk3, Hk4, Hk5, Hk6.
  destruct (nonEmptyString_of_string name) as (r & -> & Hr).
  cbn [assertString assertBool assertInt bind].
  destruct (_ && _ && _); [discriminate|].
  destruct (_ && _ && _); [discriminate|].
  intros [= <-]. unfold dataDiskBlock, managedDiskEncryptionSetId,
    managedDiskStorageAccountType.
  cbn [VirtualMachineScaleSetDataDisk.Name VirtualMachineScaleSetDataDisk.Caching
         VirtualMachineScaleSetDataDisk.CreateOption VirtualMachineScaleSetDataDisk.Lun
         VirtualMachineScaleSetDataDisk.ManagedDisk
         VirtualMachineScaleSetDataDisk.DiskSizeGB
         VirtualMachineScaleSetDataDisk.DiskIOPSReadWrite
         VirtualMachineScaleSetDataDisk.DiskMBpsReadWrite
         VirtualMachineScaleSetDataDisk.WriteAcceleratorEnabled
         VirtualMachineScaleSetManagedDiskParameters.DiskEncryptionSet
         VirtualMachineScaleSetManagedDiskParameters.StorageAccountType
         fromString fromBool].
  rewrite Hr, diskSizeOf_Some.
  change (if (0 <? (if (0 <? iops)%Z then iops else 0%Z))%Z
          then Some (if (0 <? iops)%Z then iops else 0%Z) else None)
    with (setWhenPositive (if (0 <? iops)%Z then iops else 0%Z)).
  change (if (0 <? (if (0 <? mbps)%Z then mbps else 0%Z))%Z
          then Some (if (0 <? mbps)%Z then mbps else 0%Z) else None)
    with (setWhenPositive (if (0 <? mbps)%Z then mbps else 0%Z)).
  rewrite !fromInt64_setWhenPositive by (destruct (0 <? _)%Z; lia).
  replace (if (0 <? iops)%Z then iops else 0%Z) with iops
    by (destruct (0 <? iops)%Z eqn:E; [reflexivity | apply Z.ltb_ge in E; lia]).
  replace (if (0 <? mbps)%Z then mbps else 0%Z) with mbps
    by (destruct (0 <? mbps)%Z eqn:E; [reflexivity | apply Z.ltb_ge in E; lia]).
  pose proof (subResourceOf_id des) as Hdes. unfold subResourceOf in Hdes.
  rewrite Hdes, Hm. reflexivity.
Qed.

Lemma data_disks_loop
      (ultraSSDEnabled : bool) (l : list value)
      (acc disks : list VirtualMachineScaleSetDataDisk.t) :
  forallb (conforms (Elem VirtualMachineScaleSetDataDiskSchema)) l = true ->
  forallb throughputNotNegative l = true ->
  forEach (fun disks v =>
             let! disk := expandDataDisk ultraSSDEnabled v in
             Return (disks ++ [disk])) l acc = Return disks ->
  map dataDiskBlock disks = map dataDiskBlock acc ++ map withInt64Lun l.
Proof.
  revert acc. induction l as [|v l IH]; intros acc Hc Hnn.
  - cbn [forEach]. intros [= <-]. now rewrite app_nil_r.
  - cbn [forallb] in Hc, Hnn.
    apply andb_true_iff in Hc as [Hv Hc], Hnn as [Hn Hnn].
    cbn [forEach].
    destruct (expandDataDisk ultraSSDEnabled v) as [disk| |] eqn:E;
      cbn [bind]; try discriminate.
    intros H. rewrite (IH _ Hc Hnn H), map_app, <- app_assoc.
    cbn [map app]. now rewrite (expandDataDisk_block _ _ _ Hv Hn E).
Qed.

(** X10. When the expansion of a conforming [data_disk] list with no negative
    throughput setting returns the disks, flattening them gives the list
    back, block for block and in order, with each [lun] as the [int64] of
    the disk in place of the configured [int]. *)
Theorem data_disk_flatten_expand
        (x : slice value) (ultraSSDEnabled : bool)
        (disks : list VirtualMachineScaleSetDataDisk.t) :
  conforms VirtualMachineScaleSetDataDiskSchema (VList x) = true ->
  forallb throughputNotNegative (elems x) = true ->
  ExpandVirtualMachineScaleSetDataDisk x ultraSSDEnabled = Return (Some disks) ->
  FlattenVirtualMachineScaleSetDataDisk (Some disks)
  = mk_slice (map withInt64Lun (elems x)).
Proof.
  intros Hc Hnn. unfold ExpandVirtualMachineScaleSetDataDisk.
  destruct (forEach _ (elems x) []) as [ds| |] eqn:E; cbn [bind]; try discriminate.
  intros [= <-]. rewrite FlattenVirtualMachineScaleSetDataDisk_blocks.
  f_equal. exact (data_disks_loop _ _ [] _ Hc Hnn E).
Qed.

Definition exampleDataDisks : slice value :=
  mk_slice
    [VMap (list_to_map
             [("name", VString "data1");
              ("caching", VString "ReadWrite");
              ("create_option", VString "Empty");
              ("disk_encryption_set_id", VString "");
              ("disk_size_gb", VInt 128);
              ("lun", VInt 1);
              ("storage_account_type", VString "PremiumV2_LRS");
              ("write_accelerator_enabled", VBool false);
              ("ultra_ssd_disk_iops_read_write", VInt 3000);
              ("ultra_ssd_disk_mbps_read_write", VInt 0)]);
     VMap (list_to_map
             [("name", VString "");
              ("caching", VString "None");
              ("create_option", VString "Empty");
              ("disk_encryption_set_id", VString "set");
              ("disk_size_gb", VInt 0);
              ("lun", VInt 2);
              ("storage_account_type", VString "Standard_LRS");
              ("write_accelerator_enabled", VBool true);
              ("ultra_ssd_disk_iops_read_write", VInt 0);
              ("ultra_ssd_disk_mbps_read_write", VInt 0)])].

Definition exampleExpandedDataDisks : list VirtualMachineScaleSetDataDisk.t :=
  match ExpandVirtualMachineScaleSetDataDisk exampleDataDisks false with
  | Return (Some disks) => disks
  | _ => []
  end.

Lemma data_disk_flatten_expand_witness :
  length exampleExpandedDataDisks = 2%nat
  /\ FlattenVirtualMachineScaleSetDataDisk (Some exampleExpandedDataDisks)
     = mk_slice (map withInt64Lun (elems exampleDataDisks)).
Proof.
  split; [vm_compute; reflexivity|].
  apply (data_disk_flatten_expand exampleDataDisks false exampleExpandedDataDisks);
    vm_compute; reflexivity.
Defined.

End ScaleSetDisks.

(** ** Network interfaces of a scale set

    [ExpandVirtualMachineScaleSetNetworkInterface] and its update variant,
    which call the IP configuration functions above for every
    [ip_configuration] of every [network_interface], and the public IP
    address block, expanded and flattened. *)

Module ScaleSetNetwork.
Import Go GoNotations virtualmachinescalesets Compute ScaleSetBlocks ScaleSetDisks.

(** *** Public IP addresses *)

(** The block of one IP tag, as the loop of
    [flattenVirtualMachineScaleSetPublicIPAddress] builds it. *)
Definition ipTagBlock (rawTag : VirtualMachineScaleSetIPTag.t) : value :=
  VMap (<["tag" := VString (fromString (VirtualMachineScaleSetIPTag.Tag rawTag))]>
          (<["type" :=
               VString (fromString (VirtualMachineScaleSetIPTag.IPTagType rawTag))]> ∅)).

Lemma ip_tags_loop (l : list value) :
  forallb (conforms (Resource [("tag", TypeString); ("type", TypeString)])) l = true ->
  forall acc,
  exists ipTags,
    forEach (fun ipTags ipTagV =>
               let! ipTagRaw := assertMap ipTagV in
               let! tag := assertString (index ipTagRaw "tag") in
               let! type := assertString (index ipTagRaw "type") in
               Return (ipTags ++ [ {| VirtualMachineScaleSetIPTag.Tag := Some tag;
                                      VirtualMachineScaleSetIPTag.IPTagType := Some type |} ]))
            l acc = Return (acc ++ ipTags)
    /\ map ipTagBlock ipTags = l.
Proof.
  induction l as [|v l IH]; intros H acc.
  - exists []. now rewrite app_nil_r.
  - cbn [forallb] in H. apply andb_true_iff in H as [Hv Hl].
    destruct (conforms_resource_inv _ _ Hv) as (m & -> & Hsize).
    field Hv "tag" TypeString vtag Htag.
    field Hv "type" TypeString vtype Htype.
    apply conforms_string in Htag as [tag ->], Htype as [type ->].
    cbn [forEach assertMap bind]. rewrite Hk, Hk0. cbn [assertString bind].
    destruct (IH Hl (acc ++ [ {| VirtualMachineScaleSetIPTag.Tag := Some tag;
                                 VirtualMachineScaleSetIPTag.IPTagType := Some type |} ]))
      as (ipTags & -> & Hflat).
    eexists (_ :: ipTags). split; [now rewrite <- app_assoc|].
    cbn [map]. rewrite Hflat. f_equal. unfold ipTagBlock. cbn [fromString
      VirtualMachineScaleSetIPTag.Tag VirtualMachineScaleSetIPTag.IPTagType].
    f_equal. symmetry. apply resource_of_two; [discriminate | exact Hsize | |];
      now apply lookup_of_index.
Qed.

Lemma nonEmpty_or_empty (s : string) :
  (if negb (String.eqb s "") then s else EmptyString) = s.
Proof. destruct (String.eqb_spec s ""); simpl; congruence. Qed.

(** X11. Expanding a conforming [public_ip_address] block whose idle timeout is
    not negative and flattening the result gives the block back, with its
    [ip_tag] list never nil. *)
Theorem public_ip_address_flatten_expand (raw : gmap string value) :
  conforms (Elem virtualMachineScaleSetPublicIPAddressSchema) (VMap raw) = true ->
  (0 <= intAttribute (VMap raw) "idle_timeout_in_minutes")%Z ->
  exists cfg,
    expandVirtualMachineScaleSetPublicIPAddress raw = Return (Some cfg)
    /\ flattenVirtualMachineScaleSetPublicIPAddress cfg
       = <["ip_tag" := VList (mk_slice (listAttribute raw "ip_tag"))]> raw.
Proof.
  intros Hc Hidle.
  destruct (conforms_resource_inv _ _ Hc) as (m & [= <-] & Hsize).
  field Hc "name" TypeString v1 H1.
  field Hc "domain_name_label" TypeString v2 H2.
  field Hc "idle_timeout_in_minutes" TypeInt v3 H3.
  field Hc "ip_tag"
    (TypeList (Resource [("tag", TypeString); ("type", TypeString)])) v4 H4.
  field Hc "version" TypeString v5 H5.
  field Hc "public_ip_prefix_id" TypeString v6 H6.
  apply conforms_string in H1 as [name ->], H2 as [label ->], H5 as [version ->],
        H6 as [pfx ->].
  apply conforms_int in H3 as [idle ->].
  destruct v4 as [| | | | | |tags| |]; try discriminate.
  rewrite conforms_list in H4.
  assert (raw = list_to_map
                  [("name", VString name);
                   ("domain_name_label", VString label);
                   ("idle_timeout_in_minutes", VInt idle);
                   ("ip_tag", VList tags);
                   ("public_ip_prefix_id", VString pfx);
                   ("version", VString version)]) as Hm.
  { apply resource_of_list; [compute_done | exact Hsize |].
    repeat constructor; cbn [fst snd]; now apply lookup_of_index. }
  rewrite (intAttribute_index _ _ _ Hk1) in Hidle.
  rewrite (listAttribute_index _ _ _ Hk2).
  unfold expandVirtualMachineScaleSetPublicIPAddress.
  rewrite Hk, Hk0, Hk1, Hk2, Hk3, Hk4. cbn [assertList bind].
  destruct (ip_tags_loop (elems tags) H4 []) as (ipTags & -> & Htags).
  cbn [app assertString assertInt bind]. eexists. split; [reflexivity|].
  unfold flattenVirtualMachineScaleSetPublicIPAddress.
  cbn [VirtualMachineScaleSetPublicIPAddressConfiguration.Properties
         VirtualMachineScaleSetPublicIPAddressConfiguration.Name
         VirtualMachineScaleSetPublicIPAddressConfigurationProperties.IPTags
         VirtualMachineScaleSetPublicIPAddressConfigurationProperties.DnsSettings
         VirtualMachineScaleSetPublicIPAddressConfigurationProperties.PublicIPPrefix
         VirtualMachineScaleSetPublicIPAddressConfigurationProperties.PublicIPAddressVersion
         VirtualMachineScaleSetPublicIPAddressConfigurationProperties.IdleTimeoutInMinutes
         fromString].
  set (flat := fold_left _ ipTags (mk_slice [])).
  assert (flat = mk_slice (map ipTagBlock ipTags)) as ->
      by exact (fold_append ipTagBlock ipTags []).
  rewrite Htags, nonEmpty_or_empty.
  pose proof (subResourceOf_id pfx) as Hpfx. unfold subResourceOf in Hpfx.
  rewrite Hpfx.
  replace (match (if negb (String.eqb label "") then
                    Some {| VirtualMachineScaleSetPublicIPAddressConfigurationDnsSettings.DomainNameLabel := label |}
                  else None) with
           | Some dns =>
               VirtualMachineScaleSetPublicIPAddressConfigurationDnsSettings.DomainNameLabel dns
           | None => EmptyString
           end) with label
    by (destruct (String.eqb_spec label ""); simpl; congruence).
  replace (match (if (0 <? idle)%Z then Some idle else None) with
           | Some n => n
           | None => 0%Z
           end) with idle
    by (destruct (0 <? idle)%Z eqn:E; [reflexivity | apply Z.ltb_ge in E; lia]).
  rewrite Hm. reflexivity.
Qed.

Definition examplePublicIPAddress : gmap string value :=
  list_to_map
    [("name", VString "public");
     ("domain_name_label", VString "vmss");
     ("idle_timeout_in_minutes", VInt 4);
     ("ip_tag", VList (mk_slice
                         [VMap (list_to_map [("tag", VString "Internet");
                                             ("type", VString "RoutingPreference")])]));
     ("version", VString "IPv4");
     ("public_ip_prefix_id", VString "")].

Lemma public_ip_address_flatten_expand_witness :
  exists cfg,
    expandVirtualMachineScaleSetPublicIPAddress examplePublicIPAddress
    = Return (Some cfg)
    /\ flattenVirtualMachineScaleSetPublicIPAddress cfg
       = <["ip_tag" := VList (mk_slice (listAttribute examplePublicIPAddress "ip_tag"))]>
           examplePublicIPAddress.
Proof.
  apply (public_ip_address_flatten_expand examplePublicIPAddress).
  - vm_compute. reflexivity.
  - vm_compute. discriminate.
Defined.

(** *** Network interfaces *)

Section Interfaces.

(** [expandIDsToSubResources], of the same package. *)
Variable expandIDsToSubResources : slice value -> outcome (option (list SubResource.t)).

(** [utils.ExpandStringSlice] *)
Variable ExpandStringSlice : slice value -> outcome (option (list string)).

Definition VirtualMachineScaleSetNetworkInterfaceSchema : schema :=
  TypeList (Resource [
    ("name", TypeString);
    ("ip_configuration", virtualMachineScaleSetIPConfigurationSchema);
    ("dns_servers", TypeList TypeString);
    ("enable_accelerated_networking", TypeBool);
    ("enable_ip_forwarding", TypeBool);
    ("network_security_group_id", TypeString);
    ("primary", TypeBool)]).

(** The body of the loop of [ExpandVirtualMachineScaleSetNetworkInterface]:
    the configuration of one element of the input. *)
Definition expandNetworkInterface (v : value)
  : outcome VirtualMachineScaleSetNetworkConfiguration.t :=
  let! raw := assertMap v in
  let! dnsServersRaw := assertList (index raw "dns_servers") in
  let! dnsServers := ExpandStringSlice dnsServersRaw in
  let! ipConfigurationsRaw := assertList (index raw "ip_configuration") in
  let! ipConfigurations :=
    forEach (fun ipConfigurations configV =>
               let! configRaw := assertMap configV in
               let! ipConfiguration :=
                 expandVirtualMachineScaleSetIPConfiguration
                   expandIDsToSubResources configRaw in
               match ipConfiguration with
               | Some c => Return (ipConfigurations ++ [c])
               | None => Panic
               end)
            (elems ipConfigurationsRaw) [] in
  let! name := assertString (index raw "name") in
  let! enableAcceleratedNetworking :=
    assertBool (index raw "enable_accelerated_networking") in
  let! enableIPForwarding := assertBool (index raw "enable_ip_forwarding") in
  let! primary := assertBool (index raw "primary") in
  let! nsgId := assertString (index raw "network_security_group_id") in
  Return {|
    VirtualMachineScaleSetNetworkConfiguration.Name := name;
    VirtualMachineScaleSetNetworkConfiguration.Properties := Some {|
      VirtualMachineScaleSetNetworkConfigurationProperties.DnsSettings := Some {|
        VirtualMachineScaleSetNetworkConfigurationDnsSettings.DnsServers := dnsServers |};
      VirtualMachineScaleSetNetworkConfigurationProperties.EnableAcceleratedNetworking :=
        Some enableAcceleratedNetworking;
      VirtualMachineScaleSetNetworkConfigurationProperties.EnableIPForwarding :=
        Some enableIPForwarding;
      VirtualMachineScaleSetNetworkConfigurationProperties.IPConfigurations :=
        ipConfigurations;
      VirtualMachineScaleSetNetworkConfigurationProperties.NetworkSecurityGroup :=
        if negb (String.eqb nsgId "") then Some {| SubResource.Id := Some nsgId |}
        else None;
      VirtualMachineScaleSetNetworkConfigurationProperties.Primary := Some primary |} |}.

Definition ExpandVirtualMachineScaleSetNetworkInterface (input : slice value)
  : outcome (option (list VirtualMachineScaleSetNetworkConfiguration.t)) :=
  let! output :=
    forEach (fun output v =>
               let! config := expandNetworkInterface v in
               Return (output ++ [config]))
            (elems input) [] in
  Return (Some output).

(** The body of the loop of
    [ExpandVirtualMachineScaleSetNetworkInterfaceUpdate]. *)
Definition expandNetworkInterfaceUpdate (v : value)
  : outcome VirtualMachineScaleSetUpdateNetworkConfiguration.t :=
  let! raw := assertMap v in
  let! dnsServersRaw := assertList (index raw "dns_servers") in
  let! dnsServers := ExpandStringSlice dnsServersRaw in
  let! ipConfigurationsRaw := assertList (index raw "ip_configuration") in
  let! ipConfigurations :=
    forEach (fun ipConfigurations configV =>
               let! configRaw := assertMap configV in
               let! ipConfiguration :=
                 expandVirtualMachineScaleSetIPConfigurationUpdate
                   expandIDsToSubResources configRaw in
               match ipConfiguration with
               | Some c => Return (ipConfigurations ++ [c])
               | None => Panic
               end)
            (elems ipConfigurationsRaw) [] in
  let! name := assertString (index raw "name") in
  let! enableAcceleratedNetworking :=
    assertBool (index raw "enable_accelerated_networking") in
  let! enableIPForwarding := assertBool (index raw "enable_ip_forwarding") in
  let! primary := assertBool (index raw "primary") in
  let! nsgId := assertString (index raw "network_security_group_id") in
  Return {|
    VirtualMachineScaleSetUpdateNetworkConfiguration.Name := Some name;
    VirtualMachineScaleSetUpdateNetworkConfiguration.Properties := Some {|
      VirtualMachineScaleSetUpdateNetworkConfigurationProperties.DnsSettings := Some {|
        VirtualMachineScaleSetNetworkConfigurationDnsSettings.DnsServers := dnsServers |};
      VirtualMachineScaleSetUpdateNetworkConfigurationProperties.EnableAcceleratedNetworking :=
        Some enableAcceleratedNetworking;
      VirtualMachineScaleSetUpdateNetworkConfigurationProperties.EnableIPForwarding :=
        Some enableIPForwarding;
      VirtualMachineScaleSetUpdateNetworkConfigurationProperties.IPConfigurations :=
        Some ipConfigurations;
      VirtualMachineScaleSetUpdateNetworkConfigurationProperties.NetworkSecurityGroup :=
        if negb (String.eqb nsgId "") then Some {| SubResource.Id := Some nsgId |}
        else None;
      VirtualMachineScaleSetUpdateNetworkConfigurationProperties.Primary :=
        Some primary |} |}.

Definition ExpandVirtualMachineScaleSetNetworkInterfaceUpdate (input : slice value)
  : outcome (option (list VirtualMachineScaleSetUpdateNetworkConfiguration.t)) :=
  let! output :=
    forEach (fun output v =>
               let! config := expandNetworkInterfaceUpdate v in
               Return (output ++ [config]))
            (elems input) [] in
  Return (Some output).

(** An [ip_configuration] block that is primary and of version IPv6. *)
Definition ipv6Primary (v : value) : bool :=
  match v with
  | VMap m =>
      boolAttribute m "primary"
      && String.eqb (stringAttribute v "version") IPVersionIPvSix
  | _ => false
  end.

(** A [network_interface] block one of whose IP configurations is an IPv6
    primary. *)
Definition hasIPv6Primary (v : value) : bool :=
  match v with
  | VMap m => existsb ipv6Primary (listAttribute m "ip_configuration")
  | _ => false
  end.

(** The names a [network_interface] block gives its IP configurations. *)
Definition configuredNames (v : value) : list string :=
  match v with
  | VMap m => map (fun c => stringAttribute c "name") (listAttribute m "ip_configuration")
  | _ => []
  end.

Definition ipConfigurationNames (c : VirtualMachineScaleSetNetworkConfiguration.t)
  : list string :=
  match VirtualMachineScaleSetNetworkConfiguration.Properties c with
  | Some props =>
      map VirtualMachineScaleSetIPConfiguration.Name
          (VirtualMachineScaleSetNetworkConfigurationProperties.IPConfigurations props)
  | None => []
  end.

Definition updateIPConfigurationNames
           (c : VirtualMachineScaleSetUpdateNetworkConfiguration.t) : list string :=
  match VirtualMachineScaleSetUpdateNetworkConfiguration.Properties c with
  | Some props =>
      match VirtualMachineScaleSetUpdateNetworkConfigurationProperties.IPConfigurations
              props with
      | Some configs =>
          map (fun c => fromString (VirtualMachineScaleSetUpdateIPConfiguration.Name c))
              configs
      | None => []
      end
  | None => []
  end.

Hypothesis expandIDsToSubResources_returns :
  forall ids, forallb (conforms TypeString) ids = true ->
              exists r, expandIDsToSubResources (mk_slice ids) = Return r.

Hypothesis ExpandStringSlice_returns :
  forall l, forallb (conforms TypeString) (elems l) = true ->
            exists r, ExpandStringSlice l = Return r.

Lemma boolAttribute_index (m : gmap string value) (k : string) (b : bool) :
  index m k = VBool b -> boolAttribute m k = b.
Proof.
  unfold index, boolAttribute. destruct (m !! k); intros; now subst.
Qed.

Lemma ip_configuration_outcome (raw : gmap string value) :
  conforms (Elem virtualMachineScaleSetIPConfigurationSchema) (VMap raw) = true ->
  if ipv6Primary (VMap raw) then
    expandVirtualMachineScaleSetIPConfiguration expandIDsToSubResources raw
    = Error ipv6PrimaryUnsupported
    /\ expandVirtualMachineScaleSetIPConfigurationUpdate expandIDsToSubResources raw
       = Error ipv6PrimaryUnsupported
  else
    (exists cfg,
        expandVirtualMachineScaleSetIPConfiguration expandIDsToSubResources raw
        = Return (Some cfg)
        /\ VirtualMachineScaleSetIPConfiguration.Name cfg
           = stringAttribute (VMap raw) "name")
    /\ (exists cfg,
           expandVirtualMachineScaleSetIPConfigurationUpdate expandIDsToSubResources raw
           = Return (Some cfg)
           /\ fromString (VirtualMachineScaleSetUpdateIPConfiguration.Name cfg)
              = stringAttribute (VMap raw) "name").
Proof.
  intros Hc.
  unfold expandVirtualMachineScaleSetIPConfiguration,
    expandVirtualMachineScaleSetIPConfigurationUpdate, ipv6Primary.
  field Hc "name" TypeString name Hname.
  field Hc "application_gateway_backend_address_pool_ids"
    (TypeSet TypeString) agw Hagw.
  field Hc "application_security_group_ids" (TypeSet TypeString) asg Hasg.
  field Hc "load_balancer_backend_address_pool_ids" (TypeSet TypeString) lb Hlb.
  field Hc "load_balancer_inbound_nat_rules_ids" (TypeSet TypeString) natr Hnat.
  field Hc "primary" TypeBool primary Hprimary.
  field Hc "public_ip_address" virtualMachineScaleSetPublicIPAddressSchema
    pips Hpips.
  field Hc "subnet_id" TypeString subnet Hsubnet.
  field Hc "version" TypeString version Hversion.
  apply conforms_string in Hname as [nm ->], Hsubnet as [? ->],
        Hversion as [ver ->].
  apply conforms_bool in Hprimary as [p ->].
  destruct agw as [| | | | | | |agw|]; try discriminate.
  destruct asg as [| | | | | | |asg|]; try discriminate.
  destruct lb as [| | | | | | |lb|]; try discriminate.
  destruct natr as [| | | | | | |natr|]; try discriminate.
  destruct pips as [| | | | | |pips| |]; try discriminate.
  destruct (expandIDsToSubResources_returns agw Hagw) as [r1 E1],
           (expandIDsToSubResources_returns asg Hasg) as [r2 E2],
           (expandIDsToSubResources_returns lb Hlb) as [r3 E3],
           (expandIDsToSubResources_returns natr Hnat) as [r4 E4].
  destruct (first_public_ip_returns _ pips
              expandVirtualMachineScaleSetPublicIPAddress_returns Hpips)
    as [c1 Ec1].
  destruct (first_public_ip_returns _ pips
              expandVirtualMachineScaleSetPublicIPAddressUpdate_returns Hpips)
    as [c2 Ec2].
  rewrite (boolAttribute_index _ _ _ Hk4), (stringAttribute_index _ _ _ Hk7),
    (stringAttribute_index _ _ _ Hk).
  rewrite Hk, Hk0, Hk1, Hk2, Hk3, Hk4, Hk5, Hk6, Hk7.
  destruct (p && String.eqb ver IPVersionIPvSix) eqn:Hcheck.
  - repeat (cbn [bind assertBool assertString assertSet assertList];
            rewrite ?E1, ?E2, ?E3, ?E4, ?Hcheck).
    split; reflexivity.
  - repeat (cbn [bind assertBool assertString assertSet assertList];
            rewrite ?E1, ?E2, ?E3, ?E4, ?Hcheck, ?Ec1, ?Ec2).
    split; eexists; (split; [reflexivity|]); reflexivity.
Qed.

Lemma ip_configurations_loop
      {A : Type} (expand : gmap string value -> outcome (option A))
      (name : A -> string) (l : list value) :
  (forall raw,
      conforms (Elem virtualMachineScaleSetIPConfigurationSchema) (VMap raw) = true ->
      if ipv6Primary (VMap raw) then expand raw = Error ipv6PrimaryUnsupported
      else exists cfg, expand raw = Return (Some cfg)
                       /\ name cfg = stringAttribute (VMap raw) "name") ->
  forallb (conforms (Elem virtualMachineScaleSetIPConfigurationSchema)) l = true ->
  forall acc,
  if existsb ipv6Primary l then
    forEach (fun ipConfigurations configV =>
               let! configRaw := assertMap configV in
               let! ipConfiguration := expand configRaw in
               match ipConfiguration with
               | Some c => Return (ipConfigurations ++ [c])
               | None => Panic
               end) l acc = Error ipv6PrimaryUnsupported
  else
    exists cfgs,
      forEach (fun ipConfigurations configV =>
                 let! configRaw := assertMap configV in
                 let! ipConfiguration := expand configRaw in
                 match ipConfiguration with
                 | Some c => Return (ipConfigurations ++ [c])
                 | None => Panic
                 end) l acc = Return (acc ++ cfgs)
      /\ map name cfgs = map (fun c => stringAttribute c "name") l.
Proof.
  intros Hexpand. induction l as [|v l IH]; intros Hl acc.
  - cbn [existsb forEach]. exists []. now rewrite app_nil_r.
  - cbn [forallb] in Hl. apply andb_true_iff in Hl as [Hv Hl].
    destruct (conforms_resource_inv _ _ Hv) as (raw & -> & _).
    cbn [existsb forEach assertMap bind].
    specialize (Hexpand raw Hv).
    destruct (ipv6Primary (VMap raw)).
    + rewrite Hexpand. reflexivity.
    + destruct Hexpand as (cfg & -> & Hname). cbn [bind orb].
      specialize (IH Hl (acc ++ [cfg])).
      destruct (existsb ipv6Primary l); [exact IH|].
      destruct IH as (cfgs & -> & Hnames).
      exists (cfg :: cfgs). split; [now rewrite <- app_assoc|].
      cbn [map]. now rewrite Hname, Hnames.
Qed.

Lemma network_interface_outcome (v : value) :
  conforms (Elem VirtualMachineScaleSetNetworkInterfaceSchema) v = true ->
  if hasIPv6Primary v then
    expandNetworkInterface v = Error ipv6PrimaryUnsupported
    /\ expandNetworkInterfaceUpdate v = Error ipv6PrimaryUnsupported
  else
    (exists config,
        expandNetworkInterface v = Return config
        /\ VirtualMachineScaleSetNetworkConfiguration.Name config
           = stringAttribute v "name"
        /\ ipConfigurationNames config = configuredNames v)
    /\ (exists config,
           expandNetworkInterfaceUpdate v = Return config
           /\ fromString (VirtualMachineScaleSetUpdateNetworkConfiguration.Name config)
              = stringAttribute v "name"
           /\ updateIPConfigurationNames config = configuredNames v).
Proof.
  intros Hc. destruct (conforms_resource_inv _ _ Hc) as (raw & -> & _).
  field Hc "name" TypeString v1 H1.
  field Hc "ip_configuration" virtualMachineScaleSetIPConfigurationSchema v2 H2.
  field Hc "dns_servers" (TypeList TypeString) v3 H3.
  field Hc "enable_accelerated_networking" TypeBool v4 H4.
  field Hc "enable_ip_forwarding" TypeBool v5 H5.
  field Hc "network_security_group_id" TypeString v6 H6.
  field Hc "primary" TypeBool v7 H7.
  apply conforms_string in H1 as [name ->], H6 as [nsg ->].
  apply conforms_bool in H4 as [b4 ->], H5 as [b5 ->], H7 as [b7 ->].
  destruct v2 as [| | | | | |configs| |]; try discriminate.
  destruct v3 as [| | | | | |dns| |]; try discriminate.
  change (forallb (conforms (Elem virtualMachineScaleSetIPConfigurationSchema))
                  (elems configs) = true) in H2.
  rewrite conforms_list in H3.
  destruct (ExpandStringSlice_returns dns H3) as [dnsServers Edns].
  unfold hasIPv6Primary, configuredNames, expandNetworkInterface,
    expandNetworkInterfaceUpdate.
  rewrite (listAttribute_index _ _ _ Hk0), (stringAttribute_index _ _ _ Hk).
  cbn [assertMap bind]. rewrite Hk, Hk0, Hk1, Hk2, Hk3, Hk4, Hk5.
  cbn [assertList bind]. rewrite Edns. cbn [bind].
  pose proof (ip_configurations_loop
                (expandVirtualMachineScaleSetIPConfiguration expandIDsToSubResources)
                VirtualMachineScaleSetIPConfiguration.Name (elems configs)) as Hcreate.
  pose proof (ip_configurations_loop
                (expandVirtualMachineScaleSetIPConfigurationUpdate
                   expandIDsToSubResources)
                (fun c => fromString (VirtualMachineScaleSetUpdateIPConfiguration.Name c))
                (elems configs)) as Hupdate.
  assert (forall raw',
             conforms (Elem virtualMachineScaleSetIPConfigurationSchema) (VMap raw')
             = true ->
             if ipv6Primary (VMap raw') then
               expandVirtualMachineScaleSetIPConfiguration expandIDsToSubResources raw'
               = Error ipv6PrimaryUnsupported
             else exists cfg,
                 expandVirtualMachineScaleSetIPConfiguration expandIDsToSubResources raw'
                 = Return (Some cfg)
                 /\ VirtualMachineScaleSetIPConfiguration.Name cfg
                    = stringAttribute (VMap raw') "name") as Hc1.
  { intros raw' Hraw. pose proof (ip_configuration_outcome raw' Hraw) as H.
    destruct (ipv6Primary (VMap raw')); apply H. }
  assert (forall raw',
             conforms (Elem virtualMachineScaleSetIPConfigurationSchema) (VMap raw')
             = true ->
             if ipv6Primary (VMap raw') then
               expandVirtualMachineScaleSetIPConfigurationUpdate
                 expandIDsToSubResources raw'
               = Error ipv6PrimaryUnsupported
             else exists cfg,
                 expandVirtualMachineScaleSetIPConfigurationUpdate
                   expandIDsToSubResources raw'
                 = Return (Some cfg)
                 /\ fromString (VirtualMachineScaleSetUpdateIPConfiguration.Name cfg)
                    = stringAttribute (VMap raw') "name") as Hc2.
  { intros raw' Hraw. pose proof (ip_configuration_outcome raw' Hraw) as H.
    destruct (ipv6Primary (VMap raw')); apply H. }
  specialize (Hcreate Hc1 H2 []). specialize (Hupdate Hc2 H2 []).
  destruct (existsb ipv6Primary (elems configs)).
  - rewrite Hcreate, Hupdate. split; reflexivity.
  - destruct Hcreate as (cfgs & -> & Hn1), Hupdate as (upds & -> & Hn2).
    cbn [app bind assertString assertBool].
    split; eexists; (split; [reflexivity|]); split; try reflexivity.
    + exact Hn1.
    + exact Hn2.
Qed.

Lemma network_interfaces_loop
      {B : Type} (body : value -> outcome B)
      (name : B -> string) (names : B -> list string) (l : list value) :
  (forall v,
      conforms (Elem VirtualMachineScaleSetNetworkInterfaceSchema) v = true ->
      if hasIPv6Primary v then body v = Error ipv6PrimaryUnsupported
      else exists config, body v = Return config
                          /\ name config = stringAttribute v "name"
                          /\ names config = configuredNames v) ->
  forallb (conforms (Elem VirtualMachineScaleSetNetworkInterfaceSchema)) l = true ->
  forall acc,
  if existsb hasIPv6Primary l then
    forEach (fun output v => let! config := body v in Return (output ++ [config]))
            l acc = Error ipv6PrimaryUnsupported
  else
    exists configs,
      forEach (fun output v => let! config := body v in Return (output ++ [config]))
              l acc = Return (acc ++ configs)
      /\ map name configs = map (fun v => stringAttribute v "name") l
      /\ map names configs = map configuredNames l.
Proof.
  intros Hbody. induction l as [|v l IH]; intros Hl acc.
  - cbn [existsb forEach]. exists []. now rewrite app_nil_r.
  - cbn [forallb] in Hl. apply andb_true_iff in Hl as [Hv Hl].
    cbn [existsb forEach]. specialize (Hbody v Hv).
    destruct (hasIPv6Primary v).
    + rewrite Hbody. reflexivity.
    + destruct Hbody as (config & -> & Hname & Hnames). cbn [bind orb].
      specialize (IH Hl (acc ++ [config])).
      destruct (existsb hasIPv6Primary l); [exact IH|].
      destruct IH as (configs & -> & Hn1 & Hn2).
      exists (config :: configs). split; [now rewrite <- app_assoc|].
      cbn [map]. now rewrite Hname, Hnames, Hn1, Hn2.
Qed.

(** X12. For a conforming [network_interface] list, the expansion and its
    update variant fail with the IPv6 error exactly when some IP
    configuration of some interface is an IPv6 primary.  Otherwise both
    return one configuration per interface, in order and under its name,
    holding one IP configuration per [ip_configuration] block, in order
    and under its name. *)
Theorem network_interface_expand_outcome (x : slice value) :
  conforms VirtualMachineScaleSetNetworkInterfaceSchema (VList x) = true ->
  if existsb hasIPv6Primary (elems x) then
    ExpandVirtualMachineScaleSetNetworkInterface x = Error ipv6PrimaryUnsupported
    /\ ExpandVirtualMachineScaleSetNetworkInterfaceUpdate x
       = Error ipv6PrimaryUnsupported
  else
    (exists output,
        ExpandVirtualMachineScaleSetNetworkInterface x = Return (Some output)
        /\ map VirtualMachineScaleSetNetworkConfiguration.Name output
           = map (fun v => stringAttribute v "name") (elems x)
        /\ map ipConfigurationNames output = map configuredNames (elems x))
    /\ (exists output,
           ExpandVirtualMachineScaleSetNetworkInterfaceUpdate x = Return (Some output)
           /\ map (fun c =>
                     fromString (VirtualMachineScaleSetUpdateNetworkConfiguration.Name c))
                  output
              = map (fun v => stringAttribute v "name") (elems x)
           /\ map updateIPConfigurationNames output = map configuredNames (elems x)).
Proof.
  intros Hc.
  change (forallb (conforms (Elem VirtualMachineScaleSetNetworkInterfaceSchema))
                  (elems x) = true) in Hc.
  unfold ExpandVirtualMachineScaleSetNetworkInterface,
    ExpandVirtualMachineScaleSetNetworkInterfaceUpdate.
  pose proof (network_interfaces_loop expandNetworkInterface
                VirtualMachineScaleSetNetworkConfiguration.Name
                ipConfigurationNames (elems x)) as Hcreate.
  pose proof (network_interfaces_loop expandNetworkInterfaceUpdate
                (fun c =>
                   fromString (VirtualMachineScaleSetUpdateNetworkConfiguration.Name c))
                updateIPConfigurationNames (elems x)) as Hupdate.
  assert (forall v,
             conforms (Elem VirtualMachineScaleSetNetworkInterfaceSchema) v = true ->
             if hasIPv6Primary v then
               expandNetworkInterface v = Error ipv6PrimaryUnsupported
             else exists config,
                 expandNetworkInterface v = Return config
                 /\ VirtualMachineScaleSetNetworkConfiguration.Name config
                    = stringAttribute v "name"
                 /\ ipConfigurationNames config = configuredNames v) as Hb1.
  { intros v Hv. pose proof (network_interface_outcome v Hv) as H.
    destruct (hasIPv6Primary v); apply H. }
  assert (forall v,
             conforms (Elem VirtualMachineScaleSetNetworkInterfaceSchema) v = true ->
             if hasIPv6Primary v then
               expandNetworkInterfaceUpdate v = Error ipv6PrimaryUnsupported
             else exists config,
                 expandNetworkInterfaceUpdate v = Return config
                 /\ fromString
                      (VirtualMachineScaleSetUpdateNetworkConfiguration.Name config)
                    = stringAttribute v "name"
                 /\ updateIPConfigurationNames config = configuredNames v) as Hb2.
  { intros v Hv. pose proof (network_interface_outcome v Hv) as H.
    destruct (hasIPv6Primary v); apply H. }
  specialize (Hcreate Hb1 Hc []). specialize (Hupdate Hb2 Hc []).
  destruct (existsb hasIPv6Primary (elems x)).
  - rewrite Hcreate, Hupdate. split; reflexivity.
  - destruct Hcreate as (o1 & -> & Hn1 & Hm1), Hupdate as (o2 & -> & Hn2 & Hm2).
    cbn [app bind]. split; eexists; (split; [reflexivity|]); split; assumption.
Qed.

End Interfaces.

(** An instance of [utils.ExpandStringSlice]: the strings of the list,
    the empty string for a nil item. *)
Definition stringsOfSlice (input : slice value) : outcome (option (list string)) :=
  let! result :=
    forEach (fun result item =>
               if isNil item then Return (result ++ [EmptyString])
               else
                 let! s := assertString item in
                 Return (result ++ [s]))
            (elems input) [] in
  Return (Some result).

Lemma stringsOfSlice_loop (l : list value) :
  forallb (conforms TypeString) l = true ->
  forall acc,
  exists r,
    forEach (fun result item =>
               if isNil item then Return (result ++ [EmptyString])
               else
                 let! s := assertString item in
                 Return (result ++ [s]))
            l acc = Return r.
Proof.
  induction l as [|v l IH]; intros H acc; [simpl; eauto|].
  cbn [forallb] in H. apply andb_true_iff in H as [[s ->]%conforms_string Hl].
  cbn [forEach isNil assertString bind]. now apply IH.
Qed.

Lemma stringsOfSlice_returns (l : slice value) :
  forallb (conforms TypeString) (elems l) = true ->
  exists r, stringsOfSlice l = Return r.
Proof.
  intros H. unfold stringsOfSlice.
  destruct (stringsOfSlice_loop (elems l) H []) as [r ->]. simpl. eauto.
Qed.

Definition exampleNetworkInterfaces (version : string) : slice value :=
  mk_slice
    [VMap (list_to_map
             [("name", VString "nic0");
              ("ip_configuration",
               VList (mk_slice [VMap (exampleIPConfiguration true "IPv4");
                                VMap (<["name" := VString "secondary"]>
                                        (exampleIPConfiguration false "IPv6"))]));
              ("dns_servers", VList (mk_slice [VString "10.0.0.4"]));
              ("enable_accelerated_networking", VBool false);
              ("enable_ip_forwarding", VBool false);
              ("network_security_group_id", VString "");
              ("primary", VBool true)]);
     VMap (list_to_map
             [("name", VString "nic1");
              ("ip_configuration",
               VList (mk_slice [VMap (exampleIPConfiguration true version)]));
              ("dns_servers", VList nil_slice);
              ("enable_accelerated_networking", VBool true);
              ("enable_ip_forwarding", VBool false);
              ("network_security_group_id", VString "nsg1");
              ("primary", VBool false)])].

Lemma network_interface_expand_outcome_witness :
  (ExpandVirtualMachineScaleSetNetworkInterface subResourcesOfIDs stringsOfSlice
     (exampleNetworkInterfaces "IPv6") = Error ipv6PrimaryUnsupported
   /\ ExpandVirtualMachineScaleSetNetworkInterfaceUpdate subResourcesOfIDs stringsOfSlice
        (exampleNetworkInterfaces "IPv6") = Error ipv6PrimaryUnsupported)
  /\
  ((exists output,
       ExpandVirtualMachineScaleSetNetworkInterface subResourcesOfIDs stringsOfSlice
         (exampleNetworkInterfaces "IPv4") = Return (Some output)
       /\ map VirtualMachineScaleSetNetworkConfiguration.Name output = ["nic0"; "nic1"]
       /\ map ipConfigurationNames output = [["internal"; "secondary"]; ["internal"]])
   /\ (exists output,
          ExpandVirtualMachineScaleSetNetworkInterfaceUpdate subResourcesOfIDs
            stringsOfSlice (exampleNetworkInterfaces "IPv4") = Return (Some output)
          /\ map (fun c =>
                    fromString (VirtualMachineScaleSetUpdateNetworkConfiguration.Name c))
                 output = ["nic0"; "nic1"]
          /\ map updateIPConfigurationNames output
             = [["internal"; "secondary"]; ["internal"]])).
Proof.
  split.
  - refine (network_interface_expand_outcome subResourcesOfIDs stringsOfSlice
              subResourcesOfIDs_returns stringsOfSlice_returns
              (exampleNetworkInterfaces "IPv6") _).
    vm_compute. reflexivity.
  - refine (network_interface_expand_outcome subResourcesOfIDs stringsOfSlice
              subResourcesOfIDs_returns stringsOfSlice_returns
              (exampleNetworkInterfaces "IPv4") _).
    vm_compute. reflexivity.
Defined.

End ScaleSetNetwork.

(** ** Network interfaces, expanded and flattened *)

Module ScaleSetNetworkFlatten.
Import Go GoNotations virtualmachinescalesets Compute ScaleSetBlocks ScaleSetDisks.
Import ScaleSetNetwork.

Section RoundTrip.

Variable expandIDsToSubResources : slice value -> outcome (option (list SubResource.t)).
Variable ExpandStringSlice : slice value -> outcome (option (list string)).
Variable flattenSubResourcesToIDs : option (list SubResource.t) -> slice value.
Variable FlattenStringSlice : option (list string) -> slice value.

Hypothesis expandIDsToSubResources_returns :
  forall ids, forallb (conforms TypeString) ids = true ->
              exists r, expandIDsToSubResources (mk_slice ids) = Return r.

Hypothesis ExpandStringSlice_returns :
  forall l, forallb (conforms TypeString) (elems l) = true ->
            exists r, ExpandStringSlice l = Return r.

(** The attribute [k] of a block, nil when it is not set. *)
Definition attribute (v : value) (k : string) : value :=
  match v with
  | VMap m => index m k
  | _ => VNil
  end.

(** The blocks of the list attribute [k] of a block. *)
Definition blocks (v : value) (k : string) : list value :=
  match v with
  | VMap m => listAttribute m k
  | _ => []
  end.

(** [block] has the attributes [keys] as [v] has them. *)
Definition agree (keys : list string) (v block : value) : Prop :=
  Forall (fun k => attribute block k = attribute v k) keys.

Definition interfaceScalars : list string :=
  ["name"; "enable_accelerated_networking"; "enable_ip_forwarding";
   "network_security_group_id"; "primary"].

Definition ipConfigurationScalars : list string :=
  ["name"; "primary"; "subnet_id"; "version"].

(** A flattened interface keeps the scalar attributes of the configured
    one, and has its IP configurations, each with its scalar attributes,
    in order. *)
Definition interfaceKept (v block : value) : Prop :=
  agree interfaceScalars v block
  /\ Forall2 (agree ipConfigurationScalars)
             (blocks v "ip_configuration") (blocks block "ip_configuration").

Lemma flatten_interfaces_not_nil
      (configs : list VirtualMachineScaleSetNetworkConfiguration.t) :
  exists l,
    FlattenVirtualMachineScaleSetNetworkInterface
      flattenSubResourcesToIDs FlattenStringSlice (Some configs) = mk_slice l.
Proof.
  unfold FlattenVirtualMachineScaleSetNetworkInterface.
  generalize (@nil value) as acc.
  induction configs as [|c configs IH]; intros acc; cbn [fold_left]; [eauto|].
  destruct (VirtualMachineScaleSetNetworkConfiguration.Properties c); apply IH.
Qed.

Lemma flatten_interfaces_snoc
      (configs : list VirtualMachineScaleSetNetworkConfiguration.t)
      (c : VirtualMachineScaleSetNetworkConfiguration.t) :
  FlattenVirtualMachineScaleSetNetworkInterface
    flattenSubResourcesToIDs FlattenStringSlice (Some (configs ++ [c]))
  = mk_slice
      (elems (FlattenVirtualMachineScaleSetNetworkInterface
                flattenSubResourcesToIDs FlattenStringSlice (Some configs))
       ++ elems (FlattenVirtualMachineScaleSetNetworkInterface
                   flattenSubResourcesToIDs FlattenStringSlice (Some [c]))).
Proof.
  destruct (flatten_interfaces_not_nil configs) as [l Hl]. rewrite Hl.
  unfold FlattenVirtualMachineScaleSetNetworkInterface in *.
  rewrite fold_left_app, Hl. cbn [fold_left elems].
  destruct (VirtualMachineScaleSetNetworkConfiguration.Properties c).
  - reflexivity.
  - cbn [elems]. now rewrite app_nil_r.
Qed.

Lemma elems_fold_append {A : Type} (f : A -> value) (l : list A) (s : slice value) :
  elems (fold_left (fun r c => append r (f c)) l s) = elems s ++ map f l.
Proof.
  revert s. induction l as [|c l IH]; intros s; cbn [fold_left map].
  - now rewrite app_nil_r.
  - rewrite IH. unfold append. cbn [elems]. now rewrite <- app_assoc.
Qed.

Lemma apiEntityReference_id (s : string) :
  match (if negb (String.eqb s "") then Some {| ApiEntityReference.Id := Some s |}
         else None) with
  | Some {| ApiEntityReference.Id := Some id |} => id
  | _ => EmptyString
  end = s.
Proof. destruct (String.eqb_spec s ""); simpl; congruence. Qed.

Lemma ip_configuration_kept (raw : gmap string value) :
  conforms (Elem virtualMachineScaleSetIPConfigurationSchema) (VMap raw) = true ->
  ipv6Primary (VMap raw) = false ->
  exists cfg,
    expandVirtualMachineScaleSetIPConfiguration expandIDsToSubResources raw
    = Return (Some cfg)
    /\ agree ipConfigurationScalars (VMap raw)
             (VMap (flattenVirtualMachineScaleSetIPConfiguration
                      flattenSubResourcesToIDs cfg)).
Proof.
  intros Hc.
  unfold expandVirtualMachineScaleSetIPConfiguration, ipv6Primary.
  field Hc "name" TypeString name Hname.
  field Hc "application_gateway_backend_address_pool_ids"
    (TypeSet TypeString) agw Hagw.
  field Hc "application_security_group_ids" (TypeSet TypeString) asg Hasg.
  field Hc "load_balancer_backend_address_pool_ids" (TypeSet TypeString) lb Hlb.
  field Hc "load_balancer_inbound_nat_rules_ids" (TypeSet TypeString) natr Hnat.
  field Hc "primary" TypeBool primary Hprimary.
  field Hc "public_ip_address" virtualMachineScaleSetPublicIPAddressSchema
    pips Hpips.
  field Hc "subnet_id" TypeString subnet Hsubnet.
  field Hc "version" TypeString version Hversion.
  apply conforms_string in Hname as [nm ->], Hsubnet as [sub ->],
        Hversion as [ver ->].
  apply conforms_bool in Hprimary as [p ->].
  destruct agw as [| | | | | | |agw|]; try discriminate.
  destruct asg as [| | | | | | |asg|]; try discriminate.
  destruct lb as [| | | | | | |lb|]; try discriminate.
  destruct natr as [| | | | | | |natr|]; try discriminate.
  destruct pips as [| | | | | |pips| |]; try discriminate.
  destruct (expandIDsToSubResources_returns agw Hagw) as [r1 E1],
           (expandIDsToSubResources_returns asg Hasg) as [r2 E2],
           (expandIDsToSubResources_returns lb Hlb) as [r3 E3],
           (expandIDsToSubResources_returns natr Hnat) as [r4 E4].
  destruct (first_public_ip_returns _ pips
              expandVirtualMachineScaleSetPublicIPAddress_returns Hpips)
    as [c1 Ec1].
  rewrite (boolAttribute_index _ _ _ Hk4), (stringAttribute_index _ _ _ Hk7).
  intros Hcheck.
  unfold agree, ipConfigurationScalars, attribute.
  rewrite Hk, Hk0, Hk1, Hk2, Hk3, Hk4, Hk5, Hk6, Hk7.
  repeat (cbn [bind assertBool assertString assertSet assertList];
          rewrite ?E1, ?E2, ?E3, ?E4, ?Hcheck, ?Ec1).
  eexists. split; [reflexivity|].
  unfold flattenVirtualMachineScaleSetIPConfiguration.
  cbn [VirtualMachineScaleSetIPConfiguration.Properties
         VirtualMachineScaleSetIPConfiguration.Name
         VirtualMachineScaleSetIPConfigurationProperties.Subnet
         VirtualMachineScaleSetIPConfigurationProperties.Primary
         VirtualMachineScaleSetIPConfigurationProperties.PrivateIPAddressVersion
         fromBool fromString].
  rewrite apiEntityReference_id.
  repeat (apply List.Forall_cons;
          [cbv beta; rewrite ?Hk, ?Hk4, ?Hk6, ?Hk7; reflexivity|]).
  apply List.Forall_nil.
Qed.

Lemma ip_configurations_kept (l : list value) :
  forallb (conforms (Elem virtualMachineScaleSetIPConfigurationSchema)) l = true ->
  existsb ipv6Primary l = false ->
  forall acc,
  exists cfgs,
    forEach (fun ipConfigurations configV =>
               let! configRaw := assertMap configV in
               let! ipConfiguration :=
                 expandVirtualMachineScaleSetIPConfiguration
                   expandIDsToSubResources configRaw in
               match ipConfiguration with
               | Some c => Return (ipConfigurations ++ [c])
               | None => Panic
               end) l acc = Return (acc ++ cfgs)
    /\ Forall2 (agree ipConfigurationScalars) l
               (map (fun c =>
                       VMap (flattenVirtualMachineScaleSetIPConfiguration
                               flattenSubResourcesToIDs c)) cfgs).
Proof.
  induction l as [|v l IH]; intros Hl Hno acc.
  - exists []. split; [now rewrite app_nil_r | constructor].
  - cbn [forallb existsb] in Hl, Hno.
    apply andb_true_iff in Hl as [Hv Hl]. apply orb_false_iff in Hno as [Hn Hno].
    destruct (conforms_resource_inv _ _ Hv) as (raw & -> & _).
    destruct (ip_configuration_kept raw Hv Hn) as (cfg & Hcfg & Hkept).
    cbn [forEach assertMap bind]. rewrite Hcfg. cbn [bind].
    destruct (IH Hl Hno (acc ++ [cfg])) as (cfgs & -> & Hall).
    exists (cfg :: cfgs). split; [now rewrite <- app_assoc|].
    cbn [map]. now constructor.
Qed.

Lemma network_interface_kept (v : value) :
  conforms (Elem VirtualMachineScaleSetNetworkInterfaceSchema) v = true ->
  hasIPv6Primary v = false ->
  exists config block,
    expandNetworkInterface expandIDsToSubResources ExpandStringSlice v = Return config
    /\ elems (FlattenVirtualMachineScaleSetNetworkInterface
                flattenSubResourcesToIDs FlattenStringSlice (Some [config]))
       = [block]
    /\ interfaceKept v block.
Proof.
  intros Hc. destruct (conforms_resource_inv _ _ Hc) as (raw & -> & _).
  field Hc "name" TypeString v1 H1.
  field Hc "ip_configuration" virtualMachineScaleSetIPConfigurationSchema v2 H2.
  field Hc "dns_servers" (TypeList TypeString) v3 H3.
  field Hc "enable_accelerated_networking" TypeBool v4 H4.
  field Hc "enable_ip_forwarding" TypeBool v5 H5.
  field Hc "network_security_group_id" TypeString v6 H6.
  field Hc "primary" TypeBool v7 H7.
  apply conforms_string in H1 as [name ->], H6 as [nsg ->].
  apply conforms_bool in H4 as [b4 ->], H5 as [b5 ->], H7 as [b7 ->].
  destruct v2 as [| | | | | |configs| |]; try discriminate.
  destruct v3 as [| | | | | |dns| |]; try discriminate.
  change (forallb (conforms (Elem virtualMachineScaleSetIPConfigurationSchema))
                  (elems configs) = true) in H2.
  rewrite conforms_list in H3.
  destruct (ExpandStringSlice_returns dns H3) as [dnsServers Edns].
  unfold hasIPv6Primary, expandNetworkInterface.
  rewrite (listAttribute_index _ _ _ Hk0). intros Hno.
  destruct (ip_configurations_kept (elems configs) H2 Hno []) as (cfgs & Hcfgs & Hall).
  cbn [assertMap bind]. rewrite Hk, Hk0, Hk1, Hk2, Hk3, Hk4, Hk5.
  cbn [assertList bind]. rewrite Edns. cbn [bind]. rewrite Hcfgs.
  cbn [app bind assertString assertBool].
  eexists. eexists. split; [reflexivity|].
  unfold FlattenVirtualMachineScaleSetNetworkInterface. cbn [fold_left].
  cbn [VirtualMachineScaleSetNetworkConfiguration.Properties
         VirtualMachineScaleSetNetworkConfiguration.Name
         VirtualMachineScaleSetNetworkConfigurationProperties.NetworkSecurityGroup
         VirtualMachineScaleSetNetworkConfigurationProperties.EnableAcceleratedNetworking
         VirtualMachineScaleSetNetworkConfigurationProperties.EnableIPForwarding
         VirtualMachineScaleSetNetworkConfigurationProperties.Primary
         VirtualMachineScaleSetNetworkConfigurationProperties.DnsSettings
         VirtualMachineScaleSetNetworkConfigurationProperties.IPConfigurations
         VirtualMachineScaleSetNetworkConfigurationDnsSettings.DnsServers
         fromBool].
  pose proof (subResourceOf_id nsg) as Hnsg. unfold subResourceOf in Hnsg.
  rewrite Hnsg. unfold append at 1. cbn [elems app].
  split; [reflexivity|]. split.
  - unfold agree, interfaceScalars, attribute.
    repeat (apply List.Forall_cons;
            [cbv beta; rewrite ?Hk, ?Hk2, ?Hk3, ?Hk4, ?Hk5; reflexivity|]).
    apply List.Forall_nil.
  - unfold blocks. rewrite (listAttribute_index _ _ _ Hk0).
    match goal with
    | |- Forall2 _ _ (listAttribute ?m _) =>
        change (listAttribute m "ip_configuration")
          with (elems (fold_left
                         (fun r c =>
                            append r
                              (VMap (flattenVirtualMachineScaleSetIPConfiguration
                                       flattenSubResourcesToIDs c)))
                         cfgs nil_slice))
    end.
    rewrite elems_fold_append. exact Hall.
Qed.

Lemma network_interfaces_kept (l : list value) :
  forallb (conforms (Elem VirtualMachineScaleSetNetworkInterfaceSchema)) l = true ->
  existsb hasIPv6Primary l = false ->
  forall acc,
  exists configs blocks,
    forEach (fun output v =>
               let! config :=
                 expandNetworkInterface expandIDsToSubResources ExpandStringSlice v in
               Return (output ++ [config]))
            l acc = Return (acc ++ configs)
    /\ elems (FlattenVirtualMachineScaleSetNetworkInterface
                flattenSubResourcesToIDs FlattenStringSlice (Some (acc ++ configs)))
       = elems (FlattenVirtualMachineScaleSetNetworkInterface
                  flattenSubResourcesToIDs FlattenStringSlice (Some acc))
         ++ blocks
    /\ Forall2 interfaceKept l blocks.
Proof.
  induction l as [|v l IH]; intros Hl Hno acc.
  - exists [], []. rewrite !app_nil_r. split; [reflexivity|].
    split; [reflexivity | constructor].
  - cbn [forallb existsb] in Hl, Hno.
    apply andb_true_iff in Hl as [Hv Hl]. apply orb_false_iff in Hno as [Hn Hno].
    cbn [forEach].
    destruct (network_interface_kept v Hv Hn) as (config & block & -> & Hblock & Hkept).
    cbn [bind].
    destruct (IH Hl Hno (acc ++ [config])) as (configs & blks & -> & Hflat & Hall).
    exists (config :: configs), (block :: blks).
    split; [now rewrite <- app_assoc|]. split; [|now constructor].
    replace (acc ++ config :: configs) with ((acc ++ [config]) ++ configs)
      by now rewrite <- app_assoc.
    rewrite Hflat, flatten_interfaces_snoc. cbn [elems].
    rewrite Hblock, <- app_assoc. reflexivity.
Qed.

(** X13. Expanding a conforming [network_interface] list without an IPv6
    primary and flattening the result gives one block per interface, in
    order, that keeps the interface's name, flags and network security
    group and holds one block per IP configuration, in order, that keeps
    its name, primary flag, subnet and version. *)
Theorem network_interface_flatten_expand (x : slice value) :
  conforms VirtualMachineScaleSetNetworkInterfaceSchema (VList x) = true ->
  existsb hasIPv6Primary (elems x) = false ->
  exists output,
    ExpandVirtualMachineScaleSetNetworkInterface
      expandIDsToSubResources ExpandStringSlice x = Return (Some output)
    /\ Forall2 interfaceKept (elems x)
               (elems (FlattenVirtualMachineScaleSetNetworkInterface
                         flattenSubResourcesToIDs FlattenStringSlice (Some output))).
Proof.
  intros Hc Hno.
  change (forallb (conforms (Elem VirtualMachineScaleSetNetworkInterfaceSchema))
                  (elems x) = true) in Hc.
  unfold ExpandVirtualMachineScaleSetNetworkInterface.
  destruct (network_interfaces_kept (elems x) Hc Hno [])
    as (configs & blks & -> & Hflat & Hall).
  cbn [app bind] in *. eexists. split; [reflexivity|].
  rewrite Hflat. exact Hall.
Qed.

End RoundTrip.

(** An instance of the package's [flattenSubResourcesToIDs]: the IDs of
    the sub-resources that have one. *)
Definition idsOfSubResources (input : option (list SubResource.t)) : slice value :=
  match input with
  | None => mk_slice []
  | Some l =>
      fold_left (fun ids v =>
                   match SubResource.Id v with
                   | None => ids
                   | Some id => append ids (VString id)
                   end)
                l (mk_slice [])
  end.

Lemma network_interface_flatten_expand_witness :
  exists output,
    ExpandVirtualMachineScaleSetNetworkInterface subResourcesOfIDs stringsOfSlice
      (exampleNetworkInterfaces "IPv4") = Return (Some output)
    /\ Forall2 interfaceKept (elems (exampleNetworkInterfaces "IPv4"))
               (elems (FlattenVirtualMachineScaleSetNetworkInterface
                         idsOfSubResources stringsToSlice (Some output))).
Proof.
  refine (network_interface_flatten_expand subResourcesOfIDs stringsOfSlice
            idsOfSubResources stringsToSlice
            subResourcesOfIDs_returns stringsOfSlice_returns
            (exampleNetworkInterfaces "IPv4") _ _).
  - vm_compute. reflexivity.
  - vm_compute. reflexivity.
Defined.

End ScaleSetNetworkFlatten.

(** ** Extensions of a scale set, expanded

    [expandVirtualMachineScaleSetExtensions]: the extension profile of
    the configured [extension] blocks, and whether one of them is an
    application health extension. *)

Module ScaleSetExtensions.
Import Go GoNotations virtualmachinescalesets Compute ScaleSetBlocks ScaleSetDisks.

Section Extensions.

(** A decoded JSON object and [pluginsdk.ExpandJsonFromString]. *)
Variable jsonObject : Type.
Variable ExpandJsonFromString : string -> outcome jsonObject.

(** [utils.ExpandStringSlice] *)
Variable ExpandStringSlice : slice value -> outcome (option (list string)).

(** [expandProtectedSettingsFromKeyVault], of the same package. *)
Variable expandProtectedSettingsFromKeyVault :
  slice value -> outcome (option KeyVaultSecretReference.t).

(** [fmt.Errorf] with the error of the parser printed by [%+v]. *)
Definition settingsParseFailed (err : string) : string :=
  "failed to parse JSON from `settings`: " +:+ err.

Definition protectedSettingsParseFailed (err : string) : string :=
  "failed to parse JSON from `protected_settings`: " +:+ err.

Definition protectedSettingsConflict : string :=
  "`protected_settings_from_key_vault` cannot be used with `protected_settings`".

(** [val, ok := raw[k]; ok && val.(string) != ""]: the string when the
    condition holds. *)
Definition nonEmptyEntry (raw : gmap string value) (k : string)
  : outcome (option string) :=
  let '(val, ok) := indexOk raw k in
  if ok then
    let! s := assertString val in
    Return (if negb (String.eqb s "") then Some s else None)
  else Return None.

(** The body of the loop of [expandVirtualMachineScaleSetExtensions]: the
    extension of one element and the health flag after it. *)
Definition expandExtension (hasHealthExtension : bool) (v : value)
  : outcome (VirtualMachineScaleSetExtension.t (decoded jsonObject) * bool) :=
  let! extensionRaw := assertMap v in
  let! name := assertString (index extensionRaw "name") in
  let! extensionType := assertString (index extensionRaw "type") in
  let! publisher := assertString (index extensionRaw "publisher") in
  let! typeHandlerVersion :=
    assertString (index extensionRaw "type_handler_version") in
  let! autoUpgradeMinorVersion :=
    assertBool (index extensionRaw "auto_upgrade_minor_version") in
  let! enableAutomaticUpgrade :=
    assertBool (index extensionRaw "automatic_upgrade_enabled") in
  let! provisionAfterExtensionsRaw :=
    assertList (index extensionRaw "provision_after_extensions") in
  let! provisionAfterExtensions := ExpandStringSlice provisionAfterExtensionsRaw in
  let hasHealthExtension :=
    if String.eqb extensionType "ApplicationHealthLinux"
       || String.eqb extensionType "ApplicationHealthWindows"
    then true else hasHealthExtension in
  let! forceUpdateTag :=
    let forceUpdateTag := index extensionRaw "force_update_tag" in
    if negb (isNil forceUpdateTag) then
      let! s := assertString forceUpdateTag in
      Return (Some s)
    else Return None in
  let! settingsRaw := nonEmptyEntry extensionRaw "settings" in
  let! settings :=
    match settingsRaw with
    | Some val =>
        match ExpandJsonFromString val with
        | Return settings => Return (Some (DecodedObject jsonObject settings))
        | Error err => Error (settingsParseFailed err)
        | Panic => Panic
        end
    | None => Return None
    end in
  let! protectedSettingsFromKeyVaultRaw :=
    assertList (index extensionRaw "protected_settings_from_key_vault") in
  let! protectedSettingsFromKeyVault :=
    expandProtectedSettingsFromKeyVault protectedSettingsFromKeyVaultRaw in
  let! protectedSettingsRaw := nonEmptyEntry extensionRaw "protected_settings" in
  let! protectedSettings :=
    match protectedSettingsRaw with
    | Some val =>
        match protectedSettingsFromKeyVault with
        | Some _ => Error protectedSettingsConflict
        | None =>
            match ExpandJsonFromString val with
            | Return protectedSettings =>
                Return (Some (DecodedObject jsonObject protectedSettings))
            | Error err => Error (protectedSettingsParseFailed err)
            | Panic => Panic
            end
        end
    | None => Return None
    end in
  Return ({|
    VirtualMachineScaleSetExtension.Name := Some name;
    VirtualMachineScaleSetExtension.Properties := Some {|
      VirtualMachineScaleSetExtensionProperties.AutoUpgradeMinorVersion :=
        Some autoUpgradeMinorVersion;
      VirtualMachineScaleSetExtensionProperties.EnableAutomaticUpgrade :=
        Some enableAutomaticUpgrade;
      VirtualMachineScaleSetExtensionProperties.ForceUpdateTag := forceUpdateTag;
      VirtualMachineScaleSetExtensionProperties.ProtectedSettings := protectedSettings;
      VirtualMachineScaleSetExtensionProperties.ProtectedSettingsFromKeyVault :=
        protectedSettingsFromKeyVault;
      VirtualMachineScaleSetExtensionProperties.ProvisionAfterExtensions :=
        provisionAfterExtensions;
      VirtualMachineScaleSetExtensionProperties.Publisher := Some publisher;
      VirtualMachineScaleSetExtensionProperties.Settings := settings;
      VirtualMachineScaleSetExtensionProperties.Type_ := Some extensionType;
      VirtualMachineScaleSetExtensionProperties.TypeHandlerVersion :=
        Some typeHandlerVersion |} |},
          hasHealthExtension).

(** The profile, [hasHealthExtension] and [err] of the source, the last
    as the error of the outcome. *)
Definition expandVirtualMachineScaleSetExtensions (input : slice value)
  : outcome (option (VirtualMachineScaleSetExtensionProfile.t (decoded jsonObject))
             * bool) :=
  if (length (elems input) =? 0)%nat then
    Return (Some {| VirtualMachineScaleSetExtensionProfile.Extensions := None |}, false)
  else
    let! r :=
      forEach (fun st v =>
                 let! e := expandExtension (snd st) v in
                 Return (fst st ++ [fst e], snd e))
              (elems input) ([], false) in
    Return (Some {| VirtualMachineScaleSetExtensionProfile.Extensions := Some (fst r) |},
            snd r).

(** *** What the expansion returns *)

(** The list attribute [k] of a block, nil when it is not set. *)
Definition sliceAttribute (v : value) (k : string) : slice value :=
  match v with
  | VMap raw => match raw !! k with Some (VList l) => l | _ => nil_slice end
  | _ => nil_slice
  end.

(** What the type assertions of the loop need of an element: the
    attributes read unconditionally are there with their types;
    [force_update_tag] is absent, nil or a string; [settings] and
    [protected_settings] are absent or strings. *)
Definition extensionTyped (v : value) : bool :=
  match v with
  | VMap raw =>
      conforms TypeString (index raw "name")
      && conforms TypeString (index raw "type")
      && conforms TypeString (index raw "publisher")
      && conforms TypeString (index raw "type_handler_version")
      && conforms TypeBool (index raw "auto_upgrade_minor_version")
      && conforms TypeBool (index raw "automatic_upgrade_enabled")
      && conforms (TypeList TypeString) (index raw "provision_after_extensions")
      && (isNil (index raw "force_update_tag")
          || conforms TypeString (index raw "force_update_tag"))
      && match raw !! "settings" with
         | Some v' => conforms TypeString v'
         | None => true
         end
      && match index raw "protected_settings_from_key_vault" with
         | VList _ => true
         | _ => false
         end
      && match raw !! "protected_settings" with
         | Some v' => conforms TypeString v'
         | None => true
         end
  | _ => false
  end.

(** The key vault reference of a block, when the helper returns one. *)
Definition keyVaultReference (v : value) : option KeyVaultSecretReference.t :=
  match expandProtectedSettingsFromKeyVault
          (sliceAttribute v "protected_settings_from_key_vault") with
  | Return r => r
  | _ => None
  end.

(** The block gives [protected_settings] and a key vault reference for
    them at once. *)
Definition conflicting (v : value) : bool :=
  negb (String.eqb (stringAttribute v "protected_settings") "")
  && match keyVaultReference v with Some _ => true | None => false end.

(** The string is empty, and so not parsed, or a JSON object. *)
Definition parses (s : string) : bool :=
  String.eqb s ""
  || match ExpandJsonFromString s with Return _ => true | _ => false end.

(** The helpers return on the block: the key vault helper on its list,
    the parser on [settings] and, unless the block is conflicting, on
    [protected_settings]. *)
Definition expandable (v : value) : bool :=
  match expandProtectedSettingsFromKeyVault
          (sliceAttribute v "protected_settings_from_key_vault") with
  | Return _ => true
  | _ => false
  end
  && parses (stringAttribute v "settings")
  && (conflicting v || parses (stringAttribute v "protected_settings")).

Definition isHealthExtension (v : value) : bool :=
  String.eqb (stringAttribute v "type") "ApplicationHealthLinux"
  || String.eqb (stringAttribute v "type") "ApplicationHealthWindows".

Definition extensionNames
           (profile : option (VirtualMachineScaleSetExtensionProfile.t (decoded jsonObject)))
  : list string :=
  map (fun e => fromString (VirtualMachineScaleSetExtension.Name e))
      (extensionsOf jsonObject profile).

Hypothesis ExpandStringSlice_returns :
  forall l, forallb (conforms TypeString) (elems l) = true ->
            exists r, ExpandStringSlice l = Return r.

Lemma nonEmptyEntry_typed (raw : gmap string value) (k : string) :
  match raw !! k with Some v' => conforms TypeString v' | None => true end = true ->
  nonEmptyEntry raw k
  = Return (if negb (String.eqb (stringAttribute (VMap raw) k) "")
            then Some (stringAttribute (VMap raw) k) else None).
Proof.
  unfold nonEmptyEntry, indexOk, stringAttribute.
  destruct (raw !! k) as [[]|]; try discriminate; reflexivity.
Qed.

Lemma extension_outcome (hasHealthExtension : bool) (v : value) :
  extensionTyped v = true ->
  expandable v = true ->
  if conflicting v then
    expandExtension hasHealthExtension v = Error protectedSettingsConflict
  else
    exists e,
      expandExtension hasHealthExtension v
      = Return (e, isHealthExtension v || hasHealthExtension)
      /\ fromString (VirtualMachineScaleSetExtension.Name e) = stringAttribute v "name".
Proof.
  destruct v as [| | | | | | | |raw]; try discriminate.
  unfold extensionTyped, expandable. rewrite !andb_true_iff.
  intros ((((((((((Hname & Htype) & Hpub) & Hver) & Hminor) & Hauto) & Hprov) & Htag)
             & Hset) & Hkv) & Hprot) ((Hkvr & Hps) & Hpp).
  unfold expandExtension. cbn [assertMap bind].
  rewrite (nonEmptyEntry_typed _ _ Hset), (nonEmptyEntry_typed _ _ Hprot).
  unfold conflicting, keyVaultReference, isHealthExtension in *.
  unfold sliceAttribute, index in *.
  set (settings := stringAttribute (VMap raw) "settings") in *.
  set (protected := stringAttribute (VMap raw) "protected_settings") in *.
  assert (stringAttribute (VMap raw) "type"
          = match raw !! "type" with Some (VString s) => s | _ => EmptyString end)
    as -> by reflexivity.
  assert (stringAttribute (VMap raw) "name"
          = match raw !! "name" with Some (VString s) => s | _ => EmptyString end)
    as -> by reflexivity.
  destruct (raw !! "name") as [[]|]; try discriminate Hname.
  destruct (raw !! "type") as [[]|]; try discriminate Htype.
  destruct (raw !! "publisher") as [[]|]; try discriminate Hpub.
  destruct (raw !! "type_handler_version") as [[]|]; try discriminate Hver.
  destruct (raw !! "auto_upgrade_minor_version") as [[]|]; try discriminate Hminor.
  destruct (raw !! "automatic_upgrade_enabled") as [[]|]; try discriminate Hauto.
  destruct (raw !! "provision_after_extensions") as [[| | | | | |prov| |]|];
    try discriminate Hprov.
  rewrite conforms_list in Hprov.
  destruct (ExpandStringSlice_returns prov Hprov) as [provision Eprov].
  cbn [assertString assertBool assertList bind]. rewrite Eprov. cbn [bind].
  assert (exists tag,
             (if negb (isNil match raw !! "force_update_tag" with
                             | Some v => v
                             | None => VNil
                             end) then
                let! s0 := assertString match raw !! "force_update_tag" with
                                        | Some v => v
                                        | None => VNil
                                        end in
                Return (Some s0)
              else Return None) = Return tag) as [tag ->].
  { destruct (raw !! "force_update_tag") as [[]|]; try discriminate Htag;
      simpl; eauto. }
  cbn [bind].
  destruct (raw !! "protected_settings_from_key_vault") as [[| | | | | |kv| |]|];
    try discriminate Hkv.
  cbn [assertList bind].
  destruct (expandProtectedSettingsFromKeyVault kv) as [ref| |];
    try discriminate Hkvr.
  cbn [bind].
  assert (exists parsed,
             match (if negb (String.eqb settings "") then Some settings else None) with
             | Some val =>
                 match ExpandJsonFromString val with
                 | Return settings0 => Return (Some (DecodedObject jsonObject settings0))
                 | Error err => Error (settingsParseFailed err)
                 | Panic => Panic
                 end
             | None => Return None
             end = Return parsed) as [parsed ->].
  { unfold parses in Hps. destruct (String.eqb settings ""); simpl; [eauto|].
    simpl in Hps. destruct (ExpandJsonFromString settings); try discriminate; eauto. }
  cbn [bind].
  destruct (String.eqb protected "") eqn:Eprot; cbn [negb andb bind orb].
  - eexists. split; reflexivity.
  - destruct ref as [ref|]; cbn [bind].
    + reflexivity.
    + unfold parses in Hpp. rewrite Eprot in Hpp. cbn [negb andb orb] in Hpp.
      destruct (ExpandJsonFromString protected); try discriminate.
      cbn [bind]. eexists. split; reflexivity.
Qed.

Lemma extensions_loop (l : list value) :
  forallb extensionTyped l = true ->
  forallb expandable l = true ->
  forall acc hasHealthExtension,
  if existsb conflicting l then
    forEach (fun st v =>
               let! e := expandExtension (snd st) v in
               Return (fst st ++ [fst e], snd e))
            l (acc, hasHealthExtension) = Error protectedSettingsConflict
  else
    exists extensions,
      forEach (fun st v =>
                 let! e := expandExtension (snd st) v in
                 Return (fst st ++ [fst e], snd e))
              l (acc, hasHealthExtension)
      = Return (acc ++ extensions, existsb isHealthExtension l || hasHealthExtension)
      /\ map (fun e => fromString (VirtualMachineScaleSetExtension.Name e)) extensions
         = map (fun v => stringAttribute v "name") l.
Proof.
  induction l as [|v l IH]; intros Ht He acc h.
  - cbn [existsb forEach orb]. exists []. now rewrite app_nil_r.
  - cbn [forallb] in Ht, He.
    apply andb_true_iff in Ht as [Hv Ht], He as [Hx He].
    cbn [existsb forEach fst snd].
    pose proof (extension_outcome h v Hv Hx) as Hout.
    destruct (conflicting v).
    + rewrite Hout. reflexivity.
    + destruct Hout as (e & -> & Hname). cbn [bind orb fst snd].
      specialize (IH Ht He (acc ++ [e]) (isHealthExtension v || h)).
      destruct (existsb conflicting l); [exact IH|].
      destruct IH as (extensions & -> & Hnames).
      exists (e :: extensions). split.
      * rewrite <- app_assoc. cbn [app]. do 2 f_equal.
        destruct (isHealthExtension v), (existsb isHealthExtension l), h; reflexivity.
      * cbn [map]. now rewrite Hname, Hnames.
Qed.

(** X14. On blocks that carry the attributes the function reads and on which
    the helpers return, [expandVirtualMachineScaleSetExtensions] fails
    exactly when some block gives both [protected_settings] and a key
    vault reference for them.  Otherwise it returns one extension per
    block, in order and under its name, in a profile whose list is nil for
    an empty input, and reports a health extension exactly when the type
    of some block is [ApplicationHealthLinux] or
    [ApplicationHealthWindows]. *)
Theorem extensions_expand_outcome (input : slice value) :
  forallb extensionTyped (elems input) = true ->
  forallb expandable (elems input) = true ->
  if existsb conflicting (elems input) then
    expandVirtualMachineScaleSetExtensions input = Error protectedSettingsConflict
  else
    exists profile,
      expandVirtualMachineScaleSetExtensions input
      = Return (Some profile, existsb isHealthExtension (elems input))
      /\ extensionNames (Some profile)
         = map (fun v => stringAttribute v "name") (elems input)
      /\ (VirtualMachineScaleSetExtensionProfile.Extensions profile = None
          <-> elems input = []).
Proof.
  intros Ht He. unfold expandVirtualMachineScaleSetExtensions, extensionNames.
  destruct (elems input) as [|v l] eqn:El.
  - cbn [existsb length Nat.eqb]. eexists. split; [reflexivity|].
    split; [reflexivity | split; reflexivity].
  - change (length (v :: l) =? 0)%nat with false. cbv iota.
    pose proof (extensions_loop (v :: l) Ht He [] false) as H.
    destruct (existsb conflicting (v :: l)).
    + rewrite H. reflexivity.
    + destruct H as (extensions & -> & Hnames). cbn [bind app fst snd].
      rewrite orb_false_r. eexists. split; [reflexivity|].
      split; [exact Hnames | split; discriminate].
Qed.

End Extensions.

(** An instance of [expandProtectedSettingsFromKeyVault]: nil for an
    empty list, the reference of the first block otherwise. *)
Definition keyVaultReferenceOfSlice (input : slice value)
  : outcome (option KeyVaultSecretReference.t) :=
  if (length (elems input) =? 0)%nat then Return None
  else
    let! v0 := first input in
    let! raw := assertMap v0 in
    let! secretUrl := assertString (index raw "secret_url") in
    let! sourceVaultId := assertString (index raw "source_vault_id") in
    Return (Some {|
      KeyVaultSecretReference.SecretUrl := secretUrl;
      KeyVaultSecretReference.SourceVault := {| SubResource.Id := Some sourceVaultId |} |}).

Definition exampleKeyVaultReference : slice value :=
  mk_slice [VMap (list_to_map [("secret_url", VString "https://vault/secrets/s");
                               ("source_vault_id", VString "vault1")])].

Definition exampleExtension
           (name type protectedSettings : string) (keyVault : slice value) : value :=
  VMap (list_to_map
          [("name", VString name);
           ("publisher", VString "Microsoft.ManagedServices");
           ("type", VString type);
           ("type_handler_version", VString "1.0");
           ("auto_upgrade_minor_version", VBool true);
           ("automatic_upgrade_enabled", VBool false);
           ("force_update_tag", VString "");
           ("protected_settings", VString protectedSettings);
           ("protected_settings_from_key_vault", VList keyVault);
           ("provision_after_extensions", VList (mk_slice []));
           ("settings", VString "{ }")]).

Lemma extensions_expand_outcome_witness :
  expandVirtualMachineScaleSetExtensions string expandCompact
    ScaleSetNetwork.stringsOfSlice keyVaultReferenceOfSlice
    (mk_slice [exampleExtension "health" "ApplicationHealthLinux" "{}" (mk_slice []);
               exampleExtension "custom" "CustomScript" "{}" exampleKeyVaultReference])
  = Error protectedSettingsConflict
  /\
  exists profile,
    expandVirtualMachineScaleSetExtensions string expandCompact
      ScaleSetNetwork.stringsOfSlice keyVaultReferenceOfSlice
      (mk_slice [exampleExtension "custom" "CustomScript" "" exampleKeyVaultReference;
                 exampleExtension "health" "ApplicationHealthLinux" "{}" (mk_slice [])])
    = Return (Some profile, true)
    /\ extensionNames string (Some profile) = ["custom"; "health"]
    /\ (VirtualMachineScaleSetExtensionProfile.Extensions profile = None
        <-> [exampleExtension "custom" "CustomScript" "" exampleKeyVaultReference;
             exampleExtension "health" "ApplicationHealthLinux" "{}" (mk_slice [])]
            = []).
Proof.
  split.
  - refine (extensions_expand_outcome string expandCompact
              ScaleSetNetwork.stringsOfSlice keyVaultReferenceOfSlice
              ScaleSetNetwork.stringsOfSlice_returns
              (mk_slice [exampleExtension "health" "ApplicationHealthLinux" "{}"
                                          (mk_slice []);
                         exampleExtension "custom" "CustomScript" "{}"
                                          exampleKeyVaultReference]) _ _);
      vm_compute; reflexivity.
  - refine (extensions_expand_outcome string expandCompact
              ScaleSetNetwork.stringsOfSlice keyVaultReferenceOfSlice
              ScaleSetNetwork.stringsOfSlice_returns
              (mk_slice [exampleExtension "custom" "CustomScript" ""
                                          exampleKeyVaultReference;
                         exampleExtension "health" "ApplicationHealthLinux" "{}"
                                          (mk_slice [])]) _ _);
      vm_compute; reflexivity.
Defined.

(** *** The hash of an extension block *)

(** The attributes [virtualMachineScaleSetExtensionHash] reads. *)
Definition hashedAttributes : list string :=
  ["name"; "publisher"; "type"; "type_handler_version"; "auto_upgrade_minor_version";
   "force_update_tag"; "provision_after_extensions"; "settings"; "protected_settings";
   "protected_settings_from_key_vault"].

(** X15. The hash of an extension block depends on the block only through the
    attributes it reads: setting any other attribute -- among those of
    the schema, [automatic_upgrade_enabled] -- to any value leaves the
    outcome, a hash or a panic, as it was. *)
Theorem extension_hash_reads_its_attributes_only
        (jsonObject : Type)
        (ExpandJsonFromString : string -> outcome jsonObject)
        (FlattenJsonToString : jsonObject -> outcome string)
        (HashString : string -> Z) (formatS : value -> string)
        (m : gmap string value) (k : string) (v : value) :
  ~ In k hashedAttributes ->
  virtualMachineScaleSetExtensionHash
    jsonObject ExpandJsonFromString FlattenJsonToString HashString formatS
    (VMap (<[k := v]> m))
  = virtualMachineScaleSetExtensionHash
      jsonObject ExpandJsonFromString FlattenJsonToString HashString formatS (VMap m).
Proof.
  intros Hk.
  assert (forall k', In k' hashedAttributes -> k <> k') as Hne
      by (intros k' Hin ->; exact (Hk Hin)).
  unfold virtualMachineScaleSetExtensionHash.
  rewrite !index_insert_ne, !indexOk_insert_ne by (apply Hne; member).
  reflexivity.
Qed.

Lemma extension_hash_reads_its_attributes_only_witness :
  let hash :=
    virtualMachineScaleSetExtensionHash
      string expandCompact flattenCompact
      (fun s => Z.of_nat (String.length s))
      (fun v => match v with VString s => s | _ => EmptyString end) in
  match exampleExtension "health" "ApplicationHealthLinux" "{}" (mk_slice []) with
  | VMap m =>
      hash (VMap (<["automatic_upgrade_enabled" := VBool true]> m)) = hash (VMap m)
      /\ hash (VMap m) = Return 73%Z
  | _ => False
  end.
Proof.
  cbv zeta. split.
  - refine (extension_hash_reads_its_attributes_only
              string expandCompact flattenCompact _ _ _ "automatic_upgrade_enabled" _ _).
    vm_compute. intros H. repeat (destruct H as [H|H]; [discriminate H|]). exact H.
  - vm_compute. reflexivity.
Defined.

End ScaleSetExtensions.

(** ** Decoding the constants of the live-outputs API

    The [UnmarshalJSON] methods of [AsyncOperationStatus] and
    [LiveOutputResourceState], which decode a JSON string and hand it to
    the parsers above. *)

Module LiveOutputsJSON.
Import GoStrings LiveOutputs.

Section Unmarshal.

Variable mapUnicodeToLower : string -> string.

(** [json.Unmarshal(bytes, &decoded)] at a string: the value of
    [decoded] after the call and the error. *)
Variable jsonUnmarshal : string -> string * error.

(** [fmt.Sprintf("%q", s)] *)
Variable quote : string -> string.

(** The method on its pointer receiver [s], nil or pointing at a value:
    the receiver after the call and the returned error, or nothing where
    the method panics on a nil pointer it dereferences in [*s = *out]. *)
Definition UnmarshalJSON_AsyncOperationStatus
           (s : option AsyncOperationStatus) (bytes : string)
  : option (option AsyncOperationStatus * error) :=
  let '(decoded, err) := jsonUnmarshal bytes in
  match err with
  | Some err => Some (s, Some ("unmarshaling: " +:+ err))
  | None =>
      let '(out, err) := parseAsyncOperationStatus mapUnicodeToLower decoded in
      match err with
      | Some err =>
          Some (s, Some ("parsing " +:+ quote decoded +:+ ": " +:+ err))
      | None =>
          (* *s = *out *)
          match s, out with
          | Some _, Some v => Some (Some v, None)
          | _, _ => None
          end
      end
  end.

Definition UnmarshalJSON_LiveOutputResourceState
           (s : option LiveOutputResourceState) (bytes : string)
  : option (option LiveOutputResourceState * error) :=
  let '(decoded, err) := jsonUnmarshal bytes in
  match err with
  | Some err => Some (s, Some ("unmarshaling: " +:+ err))
  | None =>
      let '(out, err) := parseLiveOutputResourceState mapUnicodeToLower decoded in
      match err with
      | Some err =>
          Some (s, Some ("parsing " +:+ quote decoded +:+ ": " +:+ err))
      | None =>
          (* *s = *out *)
          match s, out with
          | Some _, Some v => Some (Some v, None)
          | _, _ => None
          end
      end
  end.

Lemma parseAsyncOperationStatus_cases (input : string) :
  parseAsyncOperationStatus mapUnicodeToLower input
  = (Some (if decide ("failed" = ToLower mapUnicodeToLower input)
           then AsyncOperationStatusFailed
           else if decide ("inprogress" = ToLower mapUnicodeToLower input)
                then AsyncOperationStatusInProgress
                else if decide ("succeeded" = ToLower mapUnicodeToLower input)
                     then AsyncOperationStatusSucceeded
                     else input), None).
Proof.
  unfold parseAsyncOperationStatus. cbv zeta. rewrite lookup_three.
  repeat case_decide; reflexivity.
Qed.

Lemma parseLiveOutputResourceState_cases (input : string) :
  parseLiveOutputResourceState mapUnicodeToLower input
  = (Some (if decide ("creating" = ToLower mapUnicodeToLower input)
           then LiveOutputResourceStateCreating
           else if decide ("deleting" = ToLower mapUnicodeToLower input)
                then LiveOutputResourceStateDeleting
                else if decide ("running" = ToLower mapUnicodeToLower input)
                     then LiveOutputResourceStateRunning
                     else input), None).
Proof.
  unfold parseLiveOutputResourceState. cbv zeta. rewrite lookup_three.
  repeat case_decide; reflexivity.
Qed.

(** X16. Parsing is idempotent: the value a parser returns is parsed to
    itself, whatever the input was, and so is each of the possible
    values. *)
Theorem parse_enum_idempotent (input : string) :
  (exists v,
      parseAsyncOperationStatus mapUnicodeToLower input = (Some v, None)
      /\ parseAsyncOperationStatus mapUnicodeToLower v = (Some v, None))
  /\ (exists v,
         parseLiveOutputResourceState mapUnicodeToLower input = (Some v, None)
         /\ parseLiveOutputResourceState mapUnicodeToLower v = (Some v, None))
  /\ Forall (fun c => parseAsyncOperationStatus mapUnicodeToLower c = (Some c, None))
            PossibleValuesForAsyncOperationStatus
  /\ Forall (fun c => parseLiveOutputResourceState mapUnicodeToLower c = (Some c, None))
            PossibleValuesForLiveOutputResourceState.
Proof.
  assert (forall c, In c PossibleValuesForAsyncOperationStatus ->
                    parseAsyncOperationStatus mapUnicodeToLower c = (Some c, None))
    as Hfix1.
  { intros c [<-|[<-|[<-|[]]]]; reflexivity. }
  assert (forall c, In c PossibleValuesForLiveOutputResourceState ->
                    parseLiveOutputResourceState mapUnicodeToLower c = (Some c, None))
    as Hfix2.
  { intros c [<-|[<-|[<-|[]]]]; reflexivity. }
  split; [|split; [|split]].
  - eexists. split; [apply parseAsyncOperationStatus_cases|].
    repeat case_decide.
    + apply Hfix1. simpl. auto.
    + apply Hfix1. simpl. auto.
    + apply Hfix1. simpl. auto.
    + rewrite parseAsyncOperationStatus_cases. repeat case_decide; congruence.
  - eexists. split; [apply parseLiveOutputResourceState_cases|].
    repeat case_decide.
    + apply Hfix2. simpl. auto.
    + apply Hfix2. simpl. auto.
    + apply Hfix2. simpl. auto.
    + rewrite parseLiveOutputResourceState_cases. repeat case_decide; congruence.
  - apply Forall_forall. intros c Hc. apply Hfix1. now apply list_elem_of_In.
  - apply Forall_forall. intros c Hc. apply Hfix2. now apply list_elem_of_In.
Qed.

(** X17. The [UnmarshalJSON] methods fail only when the JSON decoder
    does: the receiver, nil or not, is then left as it was and the error
    is the decoder's behind [unmarshaling: ].  When the decoder succeeds
    no error is returned -- the [parsing] branch is never taken, and the
    pointer the parser returns is never nil: a receiver that is not nil
    then points at what the parser makes of the decoded string, and a nil
    receiver makes the method panic. *)
Theorem unmarshal_json_fails_only_in_decoder
        (bytes : string)
        (s1 : option AsyncOperationStatus) (s2 : option LiveOutputResourceState) :
  match jsonUnmarshal bytes with
  | (_, Some err) =>
      UnmarshalJSON_AsyncOperationStatus s1 bytes
      = Some (s1, Some ("unmarshaling: " +:+ err))
      /\ UnmarshalJSON_LiveOutputResourceState s2 bytes
         = Some (s2, Some ("unmarshaling: " +:+ err))
  | (decoded, None) =>
      (exists v,
          parseAsyncOperationStatus mapUnicodeToLower decoded = (Some v, None)
          /\ UnmarshalJSON_AsyncOperationStatus s1 bytes
             = match s1 with
               | Some _ => Some (Some v, None)
               | None => None
               end)
      /\ (exists v,
             parseLiveOutputResourceState mapUnicodeToLower decoded = (Some v, None)
             /\ UnmarshalJSON_LiveOutputResourceState s2 bytes
                = match s2 with
                  | Some _ => Some (Some v, None)
                  | None => None
                  end)
  end.
Proof.
  unfold UnmarshalJSON_AsyncOperationStatus, UnmarshalJSON_LiveOutputResourceState.
  destruct (jsonUnmarshal bytes) as [decoded [err|]].
  - split; reflexivity.
  - rewrite parseAsyncOperationStatus_cases, parseLiveOutputResourceState_cases.
    split; eexists; (split; [reflexivity|]).
    + destruct s1; reflexivity.
    + destruct s2; reflexivity.
Qed.

End Unmarshal.

End LiveOutputsJSON.

(** ** The admin password of a Linux virtual machine

    [LinuxAdminPassword] of [internal/services/compute/validate]. *)

Module Validate.
Import Go.

Section LinuxAdminPassword.

(** [strings.TrimSpace] *)
Variable TrimSpace : string -> string.

(** [fmt.Sprintf("%q", s)] and [fmt.Sprintf("%d", n)] *)
Variable quote : string -> string.
Variable formatD : nat -> string.

(** ['lo' <= c && c <= 'hi'] on the byte [c]. *)
Definition byteIn (lo hi : nat) (c : ascii) : bool :=
  (lo <=? nat_of_ascii c)%nat && (nat_of_ascii c <=? hi)%nat.

(** The character classes of the four tests.  [\d] and [\w] are the
    ASCII classes [0-9] and [0-9A-Za-z_], so a character outside ASCII,
    every byte of whose encoding is 128 or more, is in [^\d\w] and in no
    other class: each class is decided on the bytes of the string. *)
Definition lowerClass : ascii -> bool := byteIn 97 122.
Definition upperClass : ascii -> bool := byteIn 65 90.
Definition digitClass : ascii -> bool := byteIn 48 57.

Definition wordClass (c : ascii) : bool :=
  digitClass c || upperClass c || lowerClass c || Ascii.eqb c "_".

Definition specialClass (c : ascii) : bool := negb (digitClass c) && negb (wordClass c).

(** [regexp.MatchString(test, v)] for a test that is one character class:
    some character of [v] is in the class. *)
Definition MatchString (test : ascii -> bool) (v : string) : bool :=
  existsb test (list_ascii_of_string v).

Definition disallowedNames : list string :=
  ["abc@123"; "P@$$w0rd"; "P@ssw0rd"; "P@ssword123"; "Pa$$word"; "pass@word1";
   "Password!"; "Password1"; "Password22"; "iloveyou!"].

(** [[a-z]], [[A-Z]], [[0-9]] and [[^\d\w]] *)
Definition tests : list (ascii -> bool) :=
  [lowerClass; upperClass; digitClass; specialClass].

Definition doubleQuote : string := String (ascii_of_nat 34) EmptyString.

(** [strings.Join(elems, sep)] *)
Fixpoint Join (elems : list string) (sep : string) : string :=
  match elems with
  | [] => EmptyString
  | [s] => s
  | s :: rest => s +:+ sep +:+ Join rest sep
  end.

(** The warnings and the errors, each error by its message. *)
Definition LinuxAdminPassword (i : value) (k : string) : list string * list string :=
  let warnings : list string := [] in
  let errors : list string := [] in
  (* adminPassword must be a string. *)
  match i with
  | VString v =>
      (* adminPassword must not be empty. *)
      if String.eqb (TrimSpace v) "" then
        (warnings, errors ++ [quote k +:+ " must not be empty"])
      else
        (* adminPassword Min-length is 6 characters and Max-length is 72
           characters. *)
        let errors :=
          if (String.length v <? 6)%nat || (72 <? String.length v)%nat then
            errors ++ [quote k +:+ " most be between " +:+ formatD 6 +:+ " and "
                       +:+ formatD 72 +:+ " characters, got "
                       +:+ formatD (String.length v)]
          else errors in
        (* adminPassword cannot match the following disallowed names. *)
        let errors :=
          fold_left
            (fun errors value =>
               if String.eqb value v then
                 errors ++ [quote k +:+ " specified is not allowed, got " +:+ quote v
                            +:+ ", cannot match: "
                            +:+ quote (Join disallowedNames ", ")]
               else errors)
            disallowedNames errors in
        (* adminPassword has to fulfill 3 out of these 4 conditions *)
        let conditions :=
          fold_left
            (fun conditions test =>
               if MatchString test v then (conditions + 1)%nat else conditions)
            tests 0%nat in
        let errors :=
          if (conditions <? 3)%nat then
            errors ++ [quote k +:+ " has to fulfill 3 out of these 4 conditions: Has lower characters, Has upper characters, Has a digit, Has a special character other than "
                       +:+ doubleQuote +:+ "_" +:+ doubleQuote
                       +:+ ", fullfiled only " +:+ formatD conditions +:+ " conditions"]
          else errors in
        (warnings, errors)
  | _ =>
      (warnings, errors ++ ["expected " +:+ quote k +:+ " to be a string but it wasn't"])
  end.

Lemma disallowed_names_loop (v msg : string) (names : list string) (errors : list string) :
  fold_left (fun errors value =>
               if String.eqb value v then errors ++ [msg] else errors)
            names errors = [] ->
  errors = [] /\ ~ In v names.
Proof.
  revert errors. induction names as [|name names IH]; intros errors H.
  - split; [exact H | intros []].
  - cbn [fold_left] in H. apply IH in H as [He Hnot].
    destruct (String.eqb_spec name v) as [->|Hne].
    + destruct errors; discriminate He.
    + split; [exact He | intros [Heq|Hin]; [exact (Hne Heq) | exact (Hnot Hin)]].
Qed.

Lemma no_special_character (l : list ascii) :
  forallb wordClass l = true -> existsb specialClass l = false.
Proof.
  induction l as [|c l IH]; [reflexivity|].
  cbn [forallb existsb]. intros [Hc Hl]%andb_true_iff.
  unfold specialClass at 1. rewrite Hc, andb_false_r. now apply IH.
Qed.

(** The number of the four character classes that occur in [v]. *)
Definition classes (v : string) : nat :=
  length (List.filter (fun test => MatchString test v) tests).

(** X18. What a password accepted without error or warning is known to be:
    not blank, 6 to 72 bytes long, none of the disallowed names and
    holding characters of three of the four classes; when it has no
    character besides ASCII letters, digits and [_], these are a
    lower-case letter, an upper-case letter and a digit -- the underscore
    is no special character. *)
Theorem accepted_admin_password (v k : string) :
  LinuxAdminPassword (VString v) k = ([], []) ->
  TrimSpace v <> EmptyString
  /\ (6 <= String.length v <= 72)%nat
  /\ ~ In v disallowedNames
  /\ (3 <= classes v)%nat
  /\ (forallb wordClass (list_ascii_of_string v) = true ->
      MatchString lowerClass v = true
      /\ MatchString upperClass v = true
      /\ MatchString digitClass v = true).
Proof.
  unfold LinuxAdminPassword.
  destruct (String.eqb_spec (TrimSpace v) "") as [Hblank|Hblank];
    [discriminate|].
  set (msg2 := _ +:+ quote (Join disallowedNames ", ")).
  set (conditions := fold_left _ tests 0%nat).
  intros H. apply (f_equal snd) in H. cbn [snd] in H.
  destruct (conditions <? 3)%nat eqn:Ec.
  { apply List.app_eq_nil in H as [_ H]. discriminate H. }
  apply disallowed_names_loop in H as [Hlen Hnot].
  apply Nat.ltb_ge in Ec.
  assert (conditions = classes v) as Hclasses.
  { unfold conditions, classes, tests. cbn [fold_left List.filter].
    destruct (MatchString lowerClass v), (MatchString upperClass v),
             (MatchString digitClass v), (MatchString specialClass v); reflexivity. }
  split; [exact Hblank|]. split; [|split; [exact Hnot|split; [lia|]]].
  - destruct (String.length v <? 6)%nat eqn:E1; [discriminate Hlen|].
    destruct (72 <? String.length v)%nat eqn:E2; [discriminate Hlen|].
    apply Nat.ltb_ge in E1, E2. lia.
  - intros Hword. apply no_special_character in Hword.
    unfold conditions, tests in Ec. cbn [fold_left] in Ec.
    unfold MatchString in *. rewrite Hword in Ec.
    destruct (existsb lowerClass _), (existsb upperClass _), (existsb digitClass _);
      cbn in Ec; try lia; repeat split.
Qed.

End LinuxAdminPassword.

(** [strings.TrimSpace] on a string of ASCII characters: the string
    without its leading and trailing tabs, line feeds, vertical tabs, form
    feeds, carriage returns and spaces. *)
Definition isSpaceASCII (c : ascii) : bool :=
  byteIn 9 13 c || Ascii.eqb c " ".

Fixpoint trimLeft (l : list ascii) : list ascii :=
  match l with
  | c :: l' => if isSpaceASCII c then trimLeft l' else l
  | [] => []
  end.

Definition trimSpaceASCII (s : string) : string :=
  string_of_list_ascii (rev (trimLeft (rev (trimLeft (list_ascii_of_string s))))).

(** [%q] on a string of printable ASCII characters other than the quote
    and the backslash, and [%d]. *)
Definition quotePlain (s : string) : string := doubleQuote +:+ s +:+ doubleQuote.

Definition formatDecimal (n : nat) : string := NilEmpty.string_of_uint (Nat.to_uint n).

Lemma accepted_admin_password_witness :
  LinuxAdminPassword trimSpaceASCII quotePlain formatDecimal
    (VString "Scale_set_9") "admin_password" = ([], [])
  /\ (3 <= classes "Scale_set_9")%nat
  /\ MatchString lowerClass "Scale_set_9" = true
  /\ MatchString upperClass "Scale_set_9" = true
  /\ MatchString digitClass "Scale_set_9" = true.
Proof.
  split; [vm_compute; reflexivity|].
  refine ((fun H => conj (proj1 H) (proj2 H eq_refl))
            (proj2 (proj2 (proj2
               (accepted_admin_password trimSpaceASCII quotePlain formatDecimal
                  "Scale_set_9" "admin_password" _))))).
  vm_compute. reflexivity.
Defined.

End Validate.
